(** * XBPS: repository pool lookup and binary package unpacking

    A shallow embedding of [lib/repository_pool_find.c] and
    [lib/package_unpack.c], and the properties of the two files.

    C functions become Rocq functions over an explicit state.  In the
    resolver, [errno] is threaded through the callbacks.  In the unpacker, a
    computation takes the world (the files and directories under the root
    directory, the persisted package states, the error number of the archive
    handle) and returns its result, the new world and the list of the calls
    it made to the outside, in program order; [goto out] is an early exit.

    Functions whose code is not part of the two files are fields of type
    classes (the catalog lookups, the version comparator, the plist
    functions, the digest, the failures of the system and of libarchive), or
    are modelled from the specification where it describes them.

    What the model leaves out: memory allocation ([malloc], [strdup],
    [xbps_xasprintf], [archive_read_new]) always succeeds; a script that is
    run changes nothing in the world; a path is the string the code passes,
    relative paths being relative to the root directory. *)

From Stdlib Require Import ZArith Ascii String List Bool Lia.
From stdpp Require Import base option gmap strings list.
Import ListNotations.
Local Open Scope Z_scope.

(** ** Error numbers of <errno.h> used by the two files *)

Definition ENOENT : Z := 2.
Definition ENOMEM : Z := 12.
Definition ENODEV : Z := 19.

(** ** Package dictionaries

    A [prop_dictionary_t] describing one package.  Only the keys read or
    written by the two files are kept; ["repository"] is absent until a
    lookup sets it. *)

Record pkg_dict := {
  pkgname : string;
  version : string;
  pkgver : string;
  filename : string;
  repository : option string;
  preserve : bool;
  transaction : string;
  provides : list string
}.

(** [prop_dictionary_set_cstring(d, "repository", uri)] *)
Definition set_repository (uri : string) (d : pkg_dict) : pkg_dict :=
  {| pkgname := pkgname d; version := version d; pkgver := pkgver d;
     filename := filename d; repository := Some uri;
     preserve := preserve d; transaction := transaction d;
     provides := provides d |}.

(** Result of a catalog lookup: the dictionary found, or [NULL] together with
    the value the lookup leaves in [errno] ([ENOENT] when the package is
    simply absent). *)
Inductive lookup :=
| Found (d : pkg_dict)
| Missing (e : Z).

Definition run_lookup (l : lookup) (errno : Z) : option pkg_dict * Z :=
  match l with
  | Found d => (Some d, errno)
  | Missing e => (None, e)
  end.

(** * Repository pool resolver *)

(** The lookups of [lib/plist_find.c] over an in-memory repository index
    ([rpi_repod]); they take the index, the key of the array to search and
    the name, pattern or pkgver.  Their code is not part of the two files. *)
Class Plist_find (repod : Type) := {
  xbps_find_pkg_in_dict_by_name : repod -> string -> string -> lookup;
  xbps_find_pkg_in_dict_by_pattern : repod -> string -> string -> lookup;
  xbps_find_pkg_in_dict_by_pkgver : repod -> string -> string -> lookup;
  xbps_find_virtualpkg_in_dict_by_name : repod -> string -> string -> lookup;
  xbps_find_virtualpkg_in_dict_by_pattern : repod -> string -> string -> lookup;
  xbps_find_virtualpkg_conf_in_dict_by_name : repod -> string -> string -> lookup;
  xbps_find_virtualpkg_conf_in_dict_by_pattern : repod -> string -> string -> lookup
}.

(** [xbps_cmpver(a, b)] is -1, 0 or 1 as [a] is older than, the same as or
    newer than [b]. *)
Class Cmpver := { xbps_cmpver : string -> string -> Z }.

Section Resolver.
Context {repod : Type} {PF : Plist_find repod} {CV : Cmpver}.

Record repository_pool_index := {
  rpi_repod : repod;
  rpi_uri : string
}.

Record repo_pool_fpkg := {
  rpf_pkgd : option pkg_dict;
  rpf_pattern : string;
  rpf_bestpkgver : option string;
  rpf_repo_bestmatch : option string;
  rpf_bypattern : bool;
  rpf_exact : bool
}.

Definition with_pkgd (p : option pkg_dict) (rpf : repo_pool_fpkg) :=
  {| rpf_pkgd := p; rpf_pattern := rpf_pattern rpf;
     rpf_bestpkgver := rpf_bestpkgver rpf;
     rpf_repo_bestmatch := rpf_repo_bestmatch rpf;
     rpf_bypattern := rpf_bypattern rpf; rpf_exact := rpf_exact rpf |}.

Definition with_best (v uri : string) (rpf : repo_pool_fpkg) :=
  {| rpf_pkgd := rpf_pkgd rpf; rpf_pattern := rpf_pattern rpf;
     rpf_bestpkgver := Some v; rpf_repo_bestmatch := Some uri;
     rpf_bypattern := rpf_bypattern rpf; rpf_exact := rpf_exact rpf |}.

(** What a callback hands back: its return value, the [*done] flag, the
    closure it mutated and [errno]. *)
Record cb_result := {
  cb_rv : Z;
  cb_done : bool;
  cb_arg : repo_pool_fpkg;
  cb_errno : Z
}.

Definition callback := repository_pool_index -> repo_pool_fpkg -> Z -> cb_result.

Definition found_in (rpi : repository_pool_index) (rpf : repo_pool_fpkg)
    (p : option pkg_dict) (errno : Z) : cb_result :=
  match p with
  | Some d =>
      {| cb_rv := 0; cb_done := true;
         cb_arg := with_pkgd (Some (set_repository (rpi_uri rpi) d)) rpf;
         cb_errno := errno |}
  | None =>
      {| cb_rv := 0; cb_done := false; cb_arg := with_pkgd None rpf;
         cb_errno := errno |}
  end.

Definition repo_find_virtualpkg_cb : callback := fun rpi rpf errno =>
  let '(p, errno) :=
    if rpf_bypattern rpf then
      run_lookup (xbps_find_virtualpkg_conf_in_dict_by_pattern
                    (rpi_repod rpi) "packages" (rpf_pattern rpf)) errno
    else
      run_lookup (xbps_find_virtualpkg_conf_in_dict_by_name
                    (rpi_repod rpi) "packages" (rpf_pattern rpf)) errno in
  found_in rpi rpf p errno.

(** A first lookup followed, when it finds nothing, by a second one. *)
Definition or_else (first second : lookup) (errno : Z) : option pkg_dict * Z :=
  match run_lookup first errno with
  | (Some d, errno) => (Some d, errno)
  | (None, errno) => run_lookup second errno
  end.

Definition repo_find_pkg_cb : callback := fun rpi rpf errno =>
  if rpf_exact rpf then
    let skip :=
      match rpf_repo_bestmatch rpf with
      | Some u => negb (String.eqb u (rpi_uri rpi))
      | None => false
      end in
    if skip then
      {| cb_rv := 0; cb_done := false; cb_arg := rpf; cb_errno := errno |}
    else
      let '(p, errno) :=
        run_lookup (xbps_find_pkg_in_dict_by_pkgver
                      (rpi_repod rpi) "packages" (rpf_pattern rpf)) errno in
      found_in rpi rpf p errno
  else if rpf_bypattern rpf then
    let '(p, errno) :=
      or_else (xbps_find_pkg_in_dict_by_pattern
                 (rpi_repod rpi) "packages" (rpf_pattern rpf))
              (xbps_find_virtualpkg_in_dict_by_pattern
                 (rpi_repod rpi) "packages" (rpf_pattern rpf)) errno in
    found_in rpi rpf p errno
  else
    let '(p, errno) :=
      or_else (xbps_find_pkg_in_dict_by_name
                 (rpi_repod rpi) "packages" (rpf_pattern rpf))
              (xbps_find_virtualpkg_in_dict_by_name
                 (rpi_repod rpi) "packages" (rpf_pattern rpf)) errno in
    found_in rpi rpf p errno.

Definition repo_find_best_pkg_cb : callback := fun rpi rpf errno =>
  let '(p, errno) :=
    if rpf_bypattern rpf then
      run_lookup (xbps_find_pkg_in_dict_by_pattern
                    (rpi_repod rpi) "packages" (rpf_pattern rpf)) errno
    else
      run_lookup (xbps_find_pkg_in_dict_by_name
                    (rpi_repod rpi) "packages" (rpf_pattern rpf)) errno in
  let rpf := with_pkgd p rpf in
  match p with
  | None =>
      if negb (errno =? 0) && negb (errno =? ENOENT) then
        {| cb_rv := errno; cb_done := false; cb_arg := rpf; cb_errno := errno |}
      else
        {| cb_rv := 0; cb_done := false; cb_arg := rpf; cb_errno := errno |}
  | Some d =>
      let repopkgver := pkgver d in
      match rpf_bestpkgver rpf with
      | None =>
          {| cb_rv := 0; cb_done := false;
             cb_arg := with_best repopkgver (rpi_uri rpi) rpf;
             cb_errno := errno |}
      | Some best =>
          if negb (xbps_cmpver repopkgver best =? 0) then
            {| cb_rv := 0; cb_done := false;
               cb_arg := with_best repopkgver (rpi_uri rpi) rpf;
               cb_errno := errno |}
          else
            {| cb_rv := 0; cb_done := false; cb_arg := rpf; cb_errno := errno |}
      end
  end.

(** Modelled from the spec: [xbps_repository_pool_foreach] is not part of
    the two files.  It calls the callback on every repository in pool
    order and stops as soon as the callback sets [*done] or returns a
    non-zero status, which it then returns. *)
Fixpoint xbps_repository_pool_foreach (fn : callback)
    (pool : list repository_pool_index) (arg : repo_pool_fpkg) (errno : Z)
    : Z * repo_pool_fpkg * Z :=
  match pool with
  | [] => (0, arg, errno)
  | rpi :: rest =>
      let r := fn rpi arg errno in
      if negb (cb_rv r =? 0) || cb_done r then (cb_rv r, cb_arg r, cb_errno r)
      else xbps_repository_pool_foreach fn rest (cb_arg r) (cb_errno r)
  end.

(** [rv = foreach(...); if (rv != 0) errno = rv;] *)
Definition scan (fn : callback) (pool : list repository_pool_index)
    (rpf : repo_pool_fpkg) (errno : Z) : repo_pool_fpkg * Z :=
  let '(rv, rpf, errno) := xbps_repository_pool_foreach fn pool rpf errno in
  (rpf, if negb (rv =? 0) then rv else errno).

(** The closure as [repo_find_pkg] fills it before the scan. *)
Definition rpf_init (pkg : string) (bypattern exact : bool) : repo_pool_fpkg :=
  {| rpf_pkgd := None; rpf_pattern := pkg;
     rpf_bestpkgver := None; rpf_repo_bestmatch := None;
     rpf_bypattern := bypattern; rpf_exact := exact |}.

(** [repo_find_pkg], with the function it calls in its [best] branch taken
    as an argument: that function is [xbps_repository_pool_find_pkg_exact],
    itself defined through [repo_find_pkg]. *)
Definition repo_find_pkg_with
    (find_pkg_exact : string -> Z -> option pkg_dict * Z)
    (pool : list repository_pool_index)
    (pkg : string) (bypattern best exact virtual : bool) (errno : Z)
    : repo_pool_fpkg * Z :=
  let rpf := rpf_init pkg bypattern exact in
  if exact then scan repo_find_pkg_cb pool rpf errno
  else if best then
    let '(rpf, errno) := scan repo_find_best_pkg_cb pool rpf errno in
    match rpf_bestpkgver rpf with
    | Some v => let '(p, errno) := find_pkg_exact v errno in (with_pkgd p rpf, errno)
    | None => (rpf, errno)
    end
  else if virtual then scan repo_find_virtualpkg_cb pool rpf errno
  else scan repo_find_pkg_cb pool rpf errno.

Definition xbps_repository_pool_find_pkg_exact
    (pool : list repository_pool_index) (pkgver : string) (errno : Z)
    : option pkg_dict * Z :=
  let '(rpf, errno) :=
    repo_find_pkg_with (fun _ e => (None, e)) pool pkgver false false true false errno in
  (rpf_pkgd rpf, errno).

Definition repo_find_pkg (pool : list repository_pool_index) :=
  repo_find_pkg_with (xbps_repository_pool_find_pkg_exact pool) pool.

Definition xbps_repository_pool_find_virtualpkg
    (pool : list repository_pool_index) (pkg : string) (bypattern best : bool)
    (errno : Z) : option pkg_dict * Z :=
  let '(rpf, errno) := repo_find_pkg pool pkg bypattern best false true errno in
  (rpf_pkgd rpf, errno).

Definition xbps_repository_pool_find_pkg
    (pool : list repository_pool_index) (pkg : string) (bypattern best : bool)
    (errno : Z) : option pkg_dict * Z :=
  let '(rpf, errno) := repo_find_pkg pool pkg bypattern best false false errno in
  (rpf_pkgd rpf, errno).

End Resolver.

(** * Binary package unpacking *)

(** ** Data *)

(** The file-type bits of an entry's [st_mode], as far as [S_ISDIR] and
    [S_ISREG] tell them apart. *)
Inductive file_type := S_IFREG | S_IFDIR | S_IFLNK.

Record archive_entry := {
  ae_pathname : string;
  ae_filetype : file_type;
  ae_perm : Z;
  ae_data : string
}.

(** An opened archive: the entries its headers deliver, and the error number
    of the header read that ends the stream (0 for a clean end of file). *)
Record archive := {
  ar_entries : list archive_entry;
  ar_end : Z
}.

(** The dictionary internalized from [./files.plist]: files and
    configuration files with their SHA256 digest, and links. *)
Record filesd_t := {
  files : list (string * string);
  conf_files : list (string * string);
  links : list string
}.

(** The dictionary internalized from [./props.plist]. *)
Record propsd_t := {
  props_conf_files : list string
}.

Inductive extract_flags := FEXTRACT_FLAGS | EXTRACT_FLAGS.

Inductive xbps_state_t :=
| XBPS_STATE_UNPACK
| XBPS_STATE_UNPACK_FAIL
| XBPS_STATE_CONFIG_FILE.

Inductive pkg_state_t :=
| XBPS_PKG_STATE_UNPACKED
| XBPS_PKG_STATE_HALF_UNPACKED
| XBPS_PKG_STATE_INSTALLED
| XBPS_PKG_STATE_BROKEN
| XBPS_PKG_STATE_NOT_INSTALLED
| XBPS_PKG_STATE_CONFIG_FILES.

Record xbps_unpack_cb_data := {
  entry : string;
  entry_size : Z;
  entry_extract_count : Z;
  entry_total_count : Z;
  entry_is_metadata : bool;
  entry_is_conf : bool
}.

Record xbps_handle := {
  rootdir : string;
  conffile : string;
  unpack_cb : bool
}.

(** The calls the unpacker makes to the outside world, with their arguments.
    A run yields the list of its calls in program order. *)
Inductive call :=
| Sys_access (path : string)
| Sys_mkpath (path : string) (mode : Z)
| Sys_chdir (path : string)
| Sys_unlink (path : string)
| Sys_rename (from to : string)
| Ar_open (path : string)
| Ar_next_header
| Ar_data_skip (e : archive_entry)
| Ar_extract (e : archive_entry) (flags : extract_flags)
| Ar_internalize (e : archive_entry)
| File_exec (path action name vers update conf : string)
| Hash_check (key file : string)
| Set_pkg_state (name vers pkgv : string) (st : pkg_state_t)
| Cb_state (st : xbps_state_t) (err : Z) (name vers what : string)
| Cb_unpack (d : xbps_unpack_cb_data).

(** The world the unpacker acts on: regular files (and links, held as the
    file with their target) by path relative to the root directory,
    directories, the persisted package states by package name (version,
    pkgver and state), and the error number of the open archive handle. *)
Record world := {
  w_files : gmap string string;
  w_dirs : gset string;
  w_pkgstate : gmap string (string * string * pkg_state_t);
  w_ar_errno : Z
}.

Definition set_files (f : gmap string string) (w : world) : world :=
  {| w_files := f; w_dirs := w_dirs w; w_pkgstate := w_pkgstate w;
     w_ar_errno := w_ar_errno w |}.
Definition set_dirs (d : gset string) (w : world) : world :=
  {| w_files := w_files w; w_dirs := d; w_pkgstate := w_pkgstate w;
     w_ar_errno := w_ar_errno w |}.
Definition set_pkgstate (s : gmap string (string * string * pkg_state_t))
    (w : world) : world :=
  {| w_files := w_files w; w_dirs := w_dirs w; w_pkgstate := s;
     w_ar_errno := w_ar_errno w |}.
Definition set_ar_errno (e : Z) (w : world) : world :=
  {| w_files := w_files w; w_dirs := w_dirs w; w_pkgstate := w_pkgstate w;
     w_ar_errno := e |}.

(** ** Collaborators

    Constants of [xbps_api.h] and functions of the library, of proplib and of
    the system whose code is not part of the two files.  [fault c] is the
    error number with which the system, libarchive or the state store makes
    call [c] fail (0 when the call goes through); for [File_exec] it is the
    exit status of the script.  Functions returning a sum give the value of
    [errno] on the left when they fail. *)
Class Unpack_env := {
  XBPS_META_PATH : string;
  XBPS_PKGPROPS : string;
  XBPS_PKGFILES : string;
  geteuid : Z;
  fault : call -> Z;
  xbps_pkg_name : string -> option string;
  xbps_pkg_version : string -> option string;
  xbps_path_from_repository_uri : pkg_dict -> option string -> Z + string;
  archive_read_open_filename : string -> Z + archive;
  xbps_dictionary_from_archive_entry : archive_entry -> Z + filesd_t;
  xbps_dictionary_from_metadata_plist :
    gmap string string -> string -> string -> Z + propsd_t;
  prop_dictionary_internalize_from_zfile :
    gmap string string -> string -> Z + filesd_t;
  prop_dictionary_externalize_to_zfile :
    option filesd_t -> string -> gmap string string -> Z + gmap string string;
  xbps_entry_is_a_conf_file : propsd_t -> string -> bool;
  xbps_entry_install_conf_file :
    filesd_t -> archive_entry -> string -> string -> string ->
    gmap string string -> Z;
  xbps_remove_obsoletes :
    string -> string -> string -> filesd_t -> option filesd_t ->
    gmap string string -> Z + gmap string string;
  compute_digest : string -> string
}.

(** ** The unpack monad

    A computation takes the world and returns a result, the new world and
    the calls it made.  [Out rv] is [goto out] with [rv] set: it skips the
    rest of the function. *)
Inductive result (A : Type) :=
| Ok (a : A)
| Out (rv : Z).
Arguments Ok {A} a.
Arguments Out {A} rv.

Definition M (A : Type) : Type := world -> result A * world * list call.

Definition ret {A} (a : A) : M A := fun w => (Ok a, w, []).
Definition goto_out {A} (rv : Z) : M A := fun w => (Out rv, w, []).
Definition bind {A B} (m : M A) (k : A -> M B) : M B := fun w =>
  match m w with
  | (Ok a, w1, t1) =>
      match k a w1 with
      | (r, w2, t2) => (r, w2, t1 ++ t2)
      end
  | (Out rv, w1, t1) => (Out rv, w1, t1)
  end.

Declare Scope unpack_scope.
Delimit Scope unpack_scope with unpack.
Notation "'let*' x ':=' m 'in' k" := (bind m (fun x => k))
  (at level 10, x name, m at level 100, k at level 200) : unpack_scope.
Notation "m '>>' k" := (bind m (fun _ => k))
  (at level 100, k at level 200, right associativity) : unpack_scope.

(** The function's exit: the value of [rv] at [out:] or at the last
    statement. *)
Definition at_out (m : M Z) : world -> Z * world * list call := fun w =>
  match m w with
  | (Ok rv, w1, t) => (rv, w1, t)
  | (Out rv, w1, t) => (rv, w1, t)
  end.

(** A function called for its integer result, as a step of another one. *)
Definition run (f : world -> Z * world * list call) : M Z := fun w =>
  match f w with
  | (rv, w1, t) => (Ok rv, w1, t)
  end.

(** The local variables of [unpack_archive] that live across loop
    iterations. *)
Record locals := {
  l_propsd : option propsd_t;
  l_filesd : option filesd_t;
  l_nmetadata : Z;
  l_entry_idx : Z;
  l_xucd : option xbps_unpack_cb_data
}.

(** How a part of the loop body ends: execution goes on with a value, or the
    body ends with [continue]. *)
Inductive flow (A : Type) :=
| Go (a : A)
| Continue (l : locals).
Arguments Go {A} a.
Arguments Continue {A} l.

Definition S_ISDIR (t : file_type) : bool :=
  match t with S_IFDIR => true | _ => false end.
Definition S_ISREG (t : file_type) : bool :=
  match t with S_IFREG => true | _ => false end.

Section Unpack.
Context {UE : Unpack_env}.
Local Open Scope unpack_scope.

(** ** Calls to the outside world *)

Definition path_exists (w : world) (path : string) : bool :=
  match w_files w !! path with
  | Some _ => true
  | None => bool_decide (path ∈ w_dirs w)
  end.

(** [access(2)]: 0, or the error number when it returns -1. *)
Definition sys_access (path : string) : M Z := fun w =>
  let e := fault (Sys_access path) in
  (Ok (if negb (e =? 0) then e
       else if path_exists w path then 0 else ENOENT), w, [Sys_access path]).

(** Modelled from the spec: [xbps_mkpath] is not part of the two files.  It
    creates the directory when it is missing: 0, or the error number when
    it returns -1. *)
Definition xbps_mkpath (path : string) (mode : Z) : M Z := fun w =>
  let e := fault (Sys_mkpath path mode) in
  if negb (e =? 0) then (Ok e, w, [Sys_mkpath path mode])
  else (Ok 0, set_dirs ({[path]} ∪ w_dirs w) w, [Sys_mkpath path mode]).

Definition sys_chdir (path : string) : M Z := fun w =>
  let e := fault (Sys_chdir path) in
  (Ok (if negb (e =? 0) then e
       else if bool_decide (path ∈ w_dirs w) then 0 else ENOENT),
   w, [Sys_chdir path]).

Definition sys_unlink (path : string) : M Z := fun w =>
  let e := fault (Sys_unlink path) in
  if negb (e =? 0) then (Ok e, w, [Sys_unlink path])
  else match w_files w !! path with
       | Some _ => (Ok 0, set_files (delete path (w_files w)) w, [Sys_unlink path])
       | None => (Ok ENOENT, w, [Sys_unlink path])
       end.

Definition sys_rename (from to : string) : M Z := fun w =>
  let e := fault (Sys_rename from to) in
  if negb (e =? 0) then (Ok e, w, [Sys_rename from to])
  else match w_files w !! from with
       | Some c =>
           (Ok 0, set_files (<[to := c]> (delete from (w_files w))) w,
            [Sys_rename from to])
       | None => (Ok ENOENT, w, [Sys_rename from to])
       end.

(** [archive_read_next_header]: as libarchive does, it clears the error
    number of the handle before reading; [status] is the error of the read
    itself. *)
Definition archive_read_next_header (status : Z) : M unit := fun w =>
  (Ok tt, set_ar_errno status w, [Ar_next_header]).

Definition archive_read_data_skip (e : archive_entry) : M unit := fun w =>
  (Ok tt, w, [Ar_data_skip e]).

(** [archive_read_extract]: writes the entry at its pathname; returns 0, or
    the error number it leaves in the handle when the entry cannot be
    written (a failure after which the archive can still be read). *)
Definition archive_read_extract (e : archive_entry) (flags : extract_flags)
    : M Z := fun w =>
  let rv := fault (Ar_extract e flags) in
  if negb (rv =? 0) then (Ok rv, set_ar_errno rv w, [Ar_extract e flags])
  else (Ok 0, set_files (<[ae_pathname e := ae_data e]> (w_files w)) w,
        [Ar_extract e flags]).

Definition archive_errno : M Z := fun w => (Ok (w_ar_errno w), w, []).

(** Modelled from the spec: [xbps_file_exec] is not part of the two files.
    It executes the file with the arguments and returns its exit status. *)
Definition xbps_file_exec (path action name vers update conf : string)
    : M Z := fun w =>
  (Ok (fault (File_exec path action name vers update conf)), w,
   [File_exec path action name vers update conf]).

(** Modelled from the spec: [xbps_set_cb_state] is not part of the two
    files.  It hands the event to the sink; [what] stands for the text of
    the message: the file, directory or step it is about. *)
Definition xbps_set_cb_state (st : xbps_state_t) (err : Z)
    (name vers what : string) : M unit := fun w =>
  (Ok tt, w, [Cb_state st err name vers what]).

(** [xbps_dictionary_from_archive_entry]: [NULL] with [errno] set sends
    the caller to [out] with [rv = errno]. *)
Definition internalize_entry (e : archive_entry) : M filesd_t := fun w =>
  match xbps_dictionary_from_archive_entry e with
  | inl errno => (Out errno, w, [Ar_internalize e])
  | inr d => (Ok d, w, [Ar_internalize e])
  end.

(** [archive_read_new] and [archive_read_open_filename]: the archive, or
    the error number left in the handle. *)
Definition archive_open (bpkg : string) : M (Z + archive) := fun w =>
  match archive_read_open_filename bpkg with
  | inl rv => (Ok (inl rv), set_ar_errno rv w, [Ar_open bpkg])
  | inr ar => (Ok (inr ar), set_ar_errno 0 w, [Ar_open bpkg])
  end.

Definition get_files : M (gmap string string) := fun w => (Ok (w_files w), w, []).
Definition put_files (f : gmap string string) : M unit := fun w =>
  (Ok tt, set_files f w, []).

(** The digest recorded for [file] in the array [key] of the manifest. *)
Definition recorded_digest (d : filesd_t) (key file : string) : option string :=
  let arr := if String.eqb key "conf_files" then conf_files d else files d in
  match List.find (fun p => String.eqb (fst p) file) arr with
  | Some p => Some (snd p)
  | None => None
  end.

(** Modelled from the spec: [xbps_file_hash_check_dictionary] is not part
    of the two files.  It compares the digest of the file on disk with the
    digest recorded for it in the manifest: 0 when they are equal, -1 when
    the comparison fails (an I/O error), and 1 when they differ or there is
    nothing to compare with. *)
Definition xbps_file_hash_check_dictionary (d : filesd_t) (key file : string)
    : M Z := fun w =>
  let rv :=
    if negb (fault (Hash_check key file) =? 0) then -1
    else match recorded_digest d key file, w_files w !! file with
         | Some dg, Some c => if String.eqb (compute_digest c) dg then 0 else 1
         | _, _ => 1
         end in
  (Ok rv, w, [Hash_check key file]).

(** Modelled from the spec: [xbps_set_pkg_state_installed] is not part of
    the two files.  It records version, pkgver and state under the package
    name in the persisted store; 0, or an error number that leaves the
    store as it was. *)
Definition xbps_set_pkg_state_installed (name vers pkgv : string)
    (st : pkg_state_t) : M Z := fun w =>
  let rv := fault (Set_pkg_state name vers pkgv st) in
  if negb (rv =? 0) then (Ok rv, w, [Set_pkg_state name vers pkgv st])
  else (Ok 0, set_pkgstate (<[name := (vers, pkgv, st)]> (w_pkgstate w)) w,
        [Set_pkg_state name vers pkgv st]).

(** ** [set_extract_flags] *)
Definition set_extract_flags : extract_flags :=
  if geteuid =? 0 then FEXTRACT_FLAGS else EXTRACT_FLAGS.

Definition metadata_path (name file : string) : string :=
  XBPS_META_PATH +:+ "/metadata/" +:+ name +:+ "/" +:+ file.

(** [dirname] of [metadata_path name file], [file] having no slash. *)
Definition metadata_dir (name : string) : string :=
  XBPS_META_PATH +:+ "/metadata/" +:+ name.

Definition set_pathname (p : string) (e : archive_entry) : archive_entry :=
  {| ae_pathname := p; ae_filetype := ae_filetype e; ae_perm := ae_perm e;
     ae_data := ae_data e |}.
Definition set_perm (m : Z) (e : archive_entry) : archive_entry :=
  {| ae_pathname := ae_pathname e; ae_filetype := ae_filetype e; ae_perm := m;
     ae_data := ae_data e |}.

(** ** [extract_metafile] *)
Definition extract_metafile (e : archive_entry) (file pkgv : string)
    (exec : bool) (flags : extract_flags) : world -> Z * world * list call :=
  match xbps_pkg_name pkgv with
  | None => at_out (ret ENOMEM)
  | Some name =>
  match xbps_pkg_version pkgv with
  | None => at_out (ret ENOMEM)
  | Some vers =>
    let buf := metadata_path name file in
    let e := set_pathname buf e in
    let dname := metadata_dir name in
    at_out (
      let* a := sys_access dname in
      (if negb (a =? 0) then
         let* m := xbps_mkpath dname 493 in
         if negb (m =? 0) then
           xbps_set_cb_state XBPS_STATE_UNPACK_FAIL m name vers dname >>
           goto_out m
         else ret tt
       else ret tt) >>
      let e := if exec then set_perm 488 e else e in
      let* rv := archive_read_extract e flags in
      if negb (rv =? 0) then
        xbps_set_cb_state XBPS_STATE_UNPACK_FAIL rv name vers file >>
        ret rv
      else ret 0)
  end
  end.

(** ** [remove_metafile] *)
Definition remove_metafile (file pkgv : string)
    : world -> Z * world * list call :=
  match xbps_pkg_name pkgv with
  | None => at_out (ret ENOMEM)
  | Some name =>
  match xbps_pkg_version pkgv with
  | None => at_out (ret ENOMEM)
  | Some vers =>
    let buf := metadata_path name file in
    at_out (
      let* u := sys_unlink buf in
      if negb (u =? 0) && negb (u =? ENOENT) then
        xbps_set_cb_state XBPS_STATE_UNPACK_FAIL u name vers file >>
        ret u
      else ret 0)
  end
  end.

(** ** The body of the loop of [unpack_archive] *)

Definition set_xucd (x : option xbps_unpack_cb_data) (l : locals) : locals :=
  {| l_propsd := l_propsd l; l_filesd := l_filesd l;
     l_nmetadata := l_nmetadata l; l_entry_idx := l_entry_idx l;
     l_xucd := x |}.

(** [xucd->entry = entry_pname; ...; xucd->entry_is_conf = false;] *)
Definition xucd_prepare (e : archive_entry) (x : xbps_unpack_cb_data) :=
  {| entry := ae_pathname e;
     entry_size := Z.of_nat (String.length (ae_data e));
     entry_extract_count := entry_extract_count x;
     entry_total_count := entry_total_count x;
     entry_is_metadata := false; entry_is_conf := false |}.

(** [xucd->entry_extract_count++] and the call of the progress callback
    [xhp->unpack_cb] on [xucd]. *)
Definition unpack_cb_count (x : xbps_unpack_cb_data) (meta : bool)
    : M xbps_unpack_cb_data := fun w =>
  let x := {| entry := entry x; entry_size := entry_size x;
              entry_extract_count := entry_extract_count x + 1;
              entry_total_count := entry_total_count x;
              entry_is_metadata := meta || entry_is_metadata x;
              entry_is_conf := entry_is_conf x |} in
  (Ok x, w, [Cb_unpack x]).

(** [nmetadata++] and the progress callback of a metadata entry. *)
Definition metadata_done (l : locals) : M locals :=
  let l := {| l_propsd := l_propsd l; l_filesd := l_filesd l;
              l_nmetadata := l_nmetadata l + 1;
              l_entry_idx := l_entry_idx l; l_xucd := l_xucd l |} in
  match l_xucd l with
  | Some x => let* x := unpack_cb_count x true in ret (set_xucd (Some x) l)
  | None => ret l
  end.

Definition set_total (d : filesd_t) (l : locals) : locals :=
  match l_xucd l with
  | Some x =>
      set_xucd (Some
        {| entry := entry x; entry_size := entry_size x;
           entry_extract_count := entry_extract_count x;
           entry_total_count :=
             l_nmetadata l + Z.of_nat (length (files d))
             + Z.of_nat (length (conf_files d)) + Z.of_nat (length (links d));
           entry_is_metadata := entry_is_metadata x;
           entry_is_conf := entry_is_conf x |}) l
  | None => l
  end.

Definition set_is_conf (l : locals) : locals :=
  match l_xucd l with
  | Some x =>
      set_xucd (Some
        {| entry := entry x; entry_size := entry_size x;
           entry_extract_count := entry_extract_count x;
           entry_total_count := entry_total_count x;
           entry_is_metadata := entry_is_metadata x;
           entry_is_conf := true |}) l
  | None => l
  end.

(** Lines 410-438: is the entry a configuration file, is there a file on
    disk already, and does that file have the digest of the manifest. *)
Definition check_on_disk (p : propsd_t) (d : filesd_t) (e : archive_entry)
    (l : locals) : M (flow (bool * bool)) :=
  let entry_pname := ae_pathname e in
  if S_ISREG (ae_filetype e) then
    let conf_file := xbps_entry_is_a_conf_file p entry_pname in
    let* a := sys_access entry_pname in
    if a =? 0 then
      let* rv := xbps_file_hash_check_dictionary d
                   (if conf_file then "conf_files" else "files") entry_pname in
      if rv =? -1 then goto_out rv
      else if rv =? 0 then archive_read_data_skip e >> ret (Continue l)
      else ret (Go (conf_file, true))
    else ret (Go (conf_file, false))
  else ret (Go (false, false)).

(** Lines 439-480: an existing configuration file is renamed when
    installing, and handed to [xbps_entry_install_conf_file] when
    updating. *)
Definition handle_conf_file (name vers : string) (update : bool)
    (d : filesd_t) (e : archive_entry) (conf_file file_exists : bool)
    (l : locals) : M (flow locals) :=
  let entry_pname := ae_pathname e in
  if negb update && conf_file && file_exists then
    let buf := entry_pname +:+ ".old" in
    sys_rename entry_pname buf >>
    xbps_set_cb_state XBPS_STATE_CONFIG_FILE 0 name vers entry_pname >>
    ret (Go l)
  else if update && conf_file && file_exists then
    let l := set_is_conf l in
    let* fs := get_files in
    let rv := xbps_entry_install_conf_file d e entry_pname name vers fs in
    if rv =? -1 then goto_out rv
    else if rv =? 0 then archive_read_data_skip e >> ret (Continue l)
    else ret (Go l)
  else ret (Go l).

(** Lines 389-494: an entry that is not metadata, both manifests being
    known. *)
Definition unpack_data_entry (name vers : string) (update : bool)
    (flags : extract_flags) (p : propsd_t) (d : filesd_t)
    (e : archive_entry) (l : locals) : M locals :=
  let l := set_total d l in
  let* c := check_on_disk p d e l in
  match c with
  | Continue l => ret l
  | Go (conf_file, file_exists) =>
      let* c := handle_conf_file name vers update d e conf_file file_exists l in
      match c with
      | Continue l => ret l
      | Go l =>
          let* rv := archive_read_extract e flags in
          (if negb (rv =? 0) then
             xbps_set_cb_state XBPS_STATE_UNPACK_FAIL rv name vers
               (ae_pathname e)
           else ret tt) >>
          match l_xucd l with
          | Some x =>
              let* x := unpack_cb_count x false in ret (set_xucd (Some x) l)
          | None => ret l
          end
      end
  end.

Definition with_filesd (d : filesd_t) (l : locals) : locals :=
  {| l_propsd := l_propsd l; l_filesd := Some d;
     l_nmetadata := l_nmetadata l; l_entry_idx := l_entry_idx l;
     l_xucd := l_xucd l |}.
Definition with_propsd (p : propsd_t) (l : locals) : locals :=
  {| l_propsd := Some p; l_filesd := l_filesd l;
     l_nmetadata := l_nmetadata l; l_entry_idx := l_entry_idx l;
     l_xucd := l_xucd l |}.
Definition next_entry_idx (l : locals) : locals :=
  {| l_propsd := l_propsd l; l_filesd := l_filesd l;
     l_nmetadata := l_nmetadata l; l_entry_idx := l_entry_idx l + 1;
     l_xucd := l_xucd l |}.

(** Lines 276-311: [./INSTALL] is extracted and its [pre] action run. *)
Definition unpack_install_script (xhp : xbps_handle) (pkg_repod : pkg_dict)
    (update : bool) (flags : extract_flags) (e : archive_entry) (l : locals)
    : M locals :=
  let name := pkgname pkg_repod in
  let vers := version pkg_repod in
  let buf := metadata_path name "INSTALL" in
  let* rv := run (extract_metafile e "INSTALL" (pkgver pkg_repod) true flags) in
  if negb (rv =? 0) then goto_out rv
  else
    let* rv := xbps_file_exec buf "pre" name vers
                 (if update then "yes" else "no") (conffile xhp) in
    if negb (rv =? 0) then
      xbps_set_cb_state XBPS_STATE_UNPACK_FAIL rv name vers "INSTALL" >>
      goto_out rv
    else metadata_done l.

(** Lines 313-325: [./REMOVE]. *)
Definition unpack_remove_script (pkg_repod : pkg_dict)
    (flags : extract_flags) (e : archive_entry) (l : locals) : M locals :=
  let* rv := run (extract_metafile e "REMOVE" (pkgver pkg_repod) true flags) in
  if negb (rv =? 0) then goto_out rv else metadata_done l.

(** Lines 327-344: [./files.plist] is internalized, not extracted. *)
Definition unpack_files_plist (e : archive_entry) (l : locals) : M locals :=
  let* d := internalize_entry e in
  metadata_done (with_filesd d l).

(** Lines 346-364: [./props.plist] is extracted and read back. *)
Definition unpack_props_plist (pkg_repod : pkg_dict)
    (flags : extract_flags) (e : archive_entry) (l : locals) : M locals :=
  let* rv := run (extract_metafile e XBPS_PKGPROPS (pkgver pkg_repod) false
                    flags) in
  if negb (rv =? 0) then goto_out rv
  else
    let* fs := get_files in
    match xbps_dictionary_from_metadata_plist fs (pkgname pkg_repod)
            XBPS_PKGPROPS with
    | inl errno => goto_out errno
    | inr p => metadata_done (with_propsd p l)
    end.

(** Lines 366-388: an entry met before both manifests are known. *)
Definition skip_early_entry (pkg_repod : pkg_dict) (e : archive_entry)
    (l : locals) : M locals :=
  archive_read_data_skip e >>
  if 3 <=? l_entry_idx l then
    xbps_set_cb_state XBPS_STATE_UNPACK_FAIL ENODEV (pkgname pkg_repod)
      (version pkg_repod) (filename pkg_repod) >>
    goto_out ENODEV
  else ret (next_entry_idx l).

Definition unpack_entry (xhp : xbps_handle) (pkg_repod : pkg_dict)
    (update : bool) (e : archive_entry) (l : locals) : M locals :=
  let entry_pname := ae_pathname e in
  let flags := set_extract_flags in
  if S_ISDIR (ae_filetype e) then archive_read_data_skip e >> ret l
  else
    let l := set_xucd (xucd_prepare e <$> l_xucd l) l in
    if String.eqb "./INSTALL" entry_pname then
      unpack_install_script xhp pkg_repod update flags e l
    else if String.eqb "./REMOVE" entry_pname then
      unpack_remove_script pkg_repod flags e l
    else if String.eqb "./files.plist" entry_pname then
      unpack_files_plist e l
    else if String.eqb "./props.plist" entry_pname then
      unpack_props_plist pkg_repod flags e l
    else
      match l_propsd l, l_filesd l with
      | Some p, Some d =>
          unpack_data_entry (pkgname pkg_repod) (version pkg_repod) update
            flags p d e l
      | _, _ => skip_early_entry pkg_repod e l
      end.

(** The loop: each successful header read is followed by the body. *)
Fixpoint unpack_entries (xhp : xbps_handle) (pkg_repod : pkg_dict)
    (update : bool) (es : list archive_entry) (l : locals) : M locals :=
  match es with
  | [] => ret l
  | e :: rest =>
      archive_read_next_header 0 >>
      let* l := unpack_entry xhp pkg_repod update e l in
      unpack_entries xhp pkg_repod update rest l
  end.

(** [propsd = filesd = NULL], [nmetadata = 0], [entry_idx = 0]. *)
Definition initial_locals (xucd : option xbps_unpack_cb_data) : locals :=
  {| l_propsd := None; l_filesd := None; l_nmetadata := 0;
     l_entry_idx := 0; l_xucd := xucd |}.

(** ** [unpack_archive] *)

(** Lines 220-237: the root directory is looked up, created when it is
    missing, and entered. *)
Definition resolve_rootdir (xhp : xbps_handle) (pkg_repod : pkg_dict) : M unit :=
  let* a := sys_access (rootdir xhp) in
  (if negb (a =? 0) then
     if negb (a =? ENOENT) then goto_out a
     else
       let* m := xbps_mkpath (rootdir xhp) 488 in
       if negb (m =? 0) then goto_out m else ret tt
   else ret tt) >>
  let* c := sys_chdir (rootdir xhp) in
  if negb (c =? 0) then
    xbps_set_cb_state XBPS_STATE_UNPACK_FAIL c (pkgname pkg_repod)
      (version pkg_repod) (rootdir xhp) >>
    goto_out c
  else ret tt.

(** Lines 242-252: while updating, the current INSTALL and REMOVE scripts
    are removed. *)
Definition remove_old_scripts (update : bool) (pkgv : string) : M unit :=
  if update then
    let* rv := run (remove_metafile "INSTALL" pkgv) in
    if negb (rv =? 0) then goto_out rv
    else
      let* rv := run (remove_metafile "REMOVE" pkgv) in
      if negb (rv =? 0) then goto_out rv else ret tt
  else ret tt.

(** Lines 496-561: after the loop. *)
Definition finish_unpack (pkg_repod : pkg_dict) (update : bool) (ar : archive)
    (l : locals) : M Z :=
  let name := pkgname pkg_repod in
  let vers := version pkg_repod in
  archive_read_next_header (ar_end ar) >>
  let* rv := archive_errno in
  if negb (rv =? 0) then
    xbps_set_cb_state XBPS_STATE_UNPACK_FAIL rv name vers
      (filename pkg_repod) >>
    goto_out rv
  else
    let pkgfilesd := metadata_path name XBPS_PKGFILES in
    (if preserve pkg_repod || negb update then ret tt
     else
       let* fs := get_files in
       match prop_dictionary_internalize_from_zfile fs pkgfilesd with
       | inr old_filesd =>
           match xbps_remove_obsoletes name vers (pkgver pkg_repod)
                   old_filesd (l_filesd l) fs with
           | inl errno => goto_out errno
           | inr fs => put_files fs
           end
       | inl errno =>
           if negb (errno =? 0) && negb (errno =? ENOENT)
           then goto_out errno else ret tt
       end) >>
    let buf := metadata_dir name in
    let* m := xbps_mkpath buf 493 in
    if negb (m =? 0) then
      xbps_set_cb_state XBPS_STATE_UNPACK_FAIL m name vers buf >>
      goto_out m
    else
      let* fs := get_files in
      match prop_dictionary_externalize_to_zfile (l_filesd l) pkgfilesd fs with
      | inl errno =>
          xbps_set_cb_state XBPS_STATE_UNPACK_FAIL errno name vers
            XBPS_PKGFILES >>
          goto_out errno
      | inr fs => put_files fs >> ret rv
      end.

(** The statements of [unpack_archive] down to its label [out]. *)
Definition unpack_archive_steps (xhp : xbps_handle) (pkg_repod : pkg_dict)
    (ar : archive) : M Z :=
  let xucd :=
    if unpack_cb xhp then
      Some {| entry := EmptyString; entry_size := 0; entry_extract_count := 0;
              entry_total_count := 0; entry_is_metadata := false;
              entry_is_conf := false |}
    else None in
  let update := String.eqb (transaction pkg_repod) "update" in
  resolve_rootdir xhp pkg_repod >>
  remove_old_scripts update (pkgver pkg_repod) >>
  let* l := unpack_entries xhp pkg_repod update (ar_entries ar)
              (initial_locals xucd) in
  finish_unpack pkg_repod update ar l.

Definition unpack_archive (xhp : xbps_handle) (pkg_repod : pkg_dict)
    (ar : archive) : world -> Z * world * list call :=
  at_out (unpack_archive_steps xhp pkg_repod ar).

(** ** [xbps_unpack_binary_pkg] *)
Definition xbps_unpack_binary_pkg (xhp : xbps_handle) (pkg_repod : pkg_dict)
    : world -> Z * world * list call :=
  let name := pkgname pkg_repod in
  let vers := version pkg_repod in
  let pkgv := pkgver pkg_repod in
  let fname := filename pkg_repod in
  at_out (
    xbps_set_cb_state XBPS_STATE_UNPACK 0 name vers EmptyString >>
    match xbps_path_from_repository_uri pkg_repod (repository pkg_repod) with
    | inl errno =>
        xbps_set_cb_state XBPS_STATE_UNPACK_FAIL errno name vers fname >>
        goto_out errno
    | inr bpkg =>
        let* opened := archive_open bpkg in
        match opened with
        | inl rv =>
            xbps_set_cb_state XBPS_STATE_UNPACK_FAIL rv name vers fname >>
            goto_out rv
        | inr ar =>
            let* rv := xbps_set_pkg_state_installed name vers pkgv
                         XBPS_PKG_STATE_HALF_UNPACKED in
            if negb (rv =? 0) then
              xbps_set_cb_state XBPS_STATE_UNPACK_FAIL rv name vers
                "half-unpacked" >>
              goto_out rv
            else
              let* rv := run (unpack_archive xhp pkg_repod ar) in
              if negb (rv =? 0) then
                xbps_set_cb_state XBPS_STATE_UNPACK_FAIL rv name vers
                  "archive" >>
                goto_out rv
              else
                let* rv := xbps_set_pkg_state_installed name vers pkgv
                             XBPS_PKG_STATE_UNPACKED in
                (if negb (rv =? 0) then
                   xbps_set_cb_state XBPS_STATE_UNPACK_FAIL rv name vers
                     "unpacked"
                 else ret tt) >>
                ret rv
        end
    end).

End Unpack.

(** * Stand-ins for the collaborators

    Concrete collaborators, used to run the two files on explicit inputs. *)

Definition EINVAL : Z := 22.
Definition EACCES : Z := 13.
Definition EIO : Z := 5.

(** * The metadata property list of a package of the pool *)

(** [xbps_dictionary_metadata_plist_by_url(url, plistf)]: the property list
    [plistf] of the binary package at [url], or [NULL] with [errno] set.
    Its code is not part of the two files. *)
Class Plist_by_url (plist : Type) := {
  xbps_dictionary_metadata_plist_by_url : string -> string -> Z + plist
}.

Section Metadata_plist.
Context {repod : Type} {PF : Plist_find repod} {CV : Cmpver}.
Context {UE : Unpack_env} {plist : Type} {PU : Plist_by_url plist}.

(** [xbps_repository_pool_dictionary_metadata_plist]: the three steps down
    to the label [out], each leaving [plistd] and [errno], and the test at
    [out]. *)
Definition xbps_repository_pool_dictionary_metadata_plist
    (pool : list repository_pool_index) (pkgname plistf : string) (errno : Z)
    : option plist * Z :=
  let '(pkgd, errno) :=
    xbps_repository_pool_find_pkg pool pkgname false false errno in
  let '(plistd, errno) :=
    match pkgd with
    | None => (None, errno)
    | Some d =>
        match xbps_path_from_repository_uri d (repository d) with
        | inl _ => (None, EINVAL)
        | inr url =>
            match xbps_dictionary_metadata_plist_by_url url plistf with
            | inl e => (None, e)
            | inr p => (Some p, errno)
            end
        end
    end in
  match plistd with
  | None => (None, ENOENT)
  | Some p => (Some p, errno)
  end.

End Metadata_plist.

Module Sample.

(** Modelled from the spec: a RepositoryIndex holds a catalog of package
    descriptors; reading it may fail with an I/O or parse error, in which
    case every lookup returns nothing and leaves that error in [errno]. *)
Record repo_index := {
  packages : list pkg_dict;
  index_error : option Z
}.

Definition first_match (f : pkg_dict -> bool) (r : repo_index) : lookup :=
  match index_error r with
  | Some e => Missing e
  | None =>
      match List.find f (packages r) with
      | Some d => Found d
      | None => Missing ENOENT
      end
  end.

(** A version comparator for the examples: the order of the strings, which
    is the order of the versions as long as they are single digits. *)
Definition cmpver (a b : string) : Z :=
  match String.compare a b with
  | Eq => 0
  | Lt => -1
  | Gt => 1
  end.

(** The name and the version of a pkgver [name-version]: what stands
    before and after its last dash. *)
Fixpoint pkg_name_of (s : string) : option string :=
  match s with
  | EmptyString => None
  | String c rest =>
      match pkg_name_of rest with
      | Some n => Some (String c n)
      | None => if Ascii.eqb c "-"%char then Some EmptyString else None
      end
  end.

Fixpoint pkg_version_of (s : string) : option string :=
  match s with
  | EmptyString => None
  | String c rest =>
      match pkg_version_of rest with
      | Some v => Some v
      | None => if Ascii.eqb c "-"%char then Some rest else None
      end
  end.

Definition is_op_char (c : ascii) : bool :=
  Ascii.eqb c "<"%char || Ascii.eqb c ">"%char || Ascii.eqb c "="%char.

(** Splits a pattern [name<op>version] before its operator. *)
Fixpoint split_pattern (s : string) : option (string * string) :=
  match s with
  | EmptyString => None
  | String c rest =>
      if is_op_char c then Some (EmptyString, s)
      else match split_pattern rest with
           | Some (n, r) => Some (String c n, r)
           | None => None
           end
  end.

(** Modelled from the spec: PatternMatcher by pattern.  The operator is one
    of [<], [>], [<=], [>=], [==]; a match needs the same name and a
    comparison of the versions that satisfies the operator; a malformed
    pattern matches nothing. *)
Definition pattern_match (cmp : string -> string -> Z) (name vers pat : string)
    : bool :=
  match split_pattern pat with
  | None => false
  | Some (n, r) =>
      String.eqb n name &&
      match r with
      | String "<"%char (String "="%char v) => cmp vers v <=? 0
      | String ">"%char (String "="%char v) => 0 <=? cmp vers v
      | String "="%char (String "="%char v) => cmp vers v =? 0
      | String "<"%char v => cmp vers v <? 0
      | String ">"%char v => 0 <? cmp vers v
      | _ => false
      end
  end.

(** Modelled from the spec: a virtual package is an alias that a concrete
    package declares it satisfies, here a pkgver of its [provides]. *)
Definition provides_name (name : string) (d : pkg_dict) : bool :=
  existsb (fun v => match pkg_name_of v with
                    | Some n => String.eqb n name
                    | None => false
                    end) (provides d).

Definition provides_pattern (cmp : string -> string -> Z) (pat : string)
    (d : pkg_dict) : bool :=
  existsb (fun v => match pkg_name_of v, pkg_version_of v with
                    | Some n, Some vv => pattern_match cmp n vv pat
                    | _, _ => false
                    end) (provides d).

(** Modelled from the spec: the catalog lookups.  By name: the first
    descriptor with that package name; by pattern: the first one matching
    the pattern; by pkgver: the first one with that exact pkgver. *)
#[global] Instance plist_find {CV : Cmpver} : Plist_find repo_index := {|
  xbps_find_pkg_in_dict_by_name r _ name :=
    first_match (fun d => String.eqb (pkgname d) name) r;
  xbps_find_pkg_in_dict_by_pattern r _ pat :=
    first_match (fun d => pattern_match xbps_cmpver (pkgname d) (version d) pat) r;
  xbps_find_pkg_in_dict_by_pkgver r _ pkgv :=
    first_match (fun d => String.eqb (pkgver d) pkgv) r;
  xbps_find_virtualpkg_in_dict_by_name r _ name :=
    first_match (provides_name name) r;
  xbps_find_virtualpkg_in_dict_by_pattern r _ pat :=
    first_match (provides_pattern xbps_cmpver pat) r;
  xbps_find_virtualpkg_conf_in_dict_by_name r _ name :=
    first_match (provides_name name) r;
  xbps_find_virtualpkg_conf_in_dict_by_pattern r _ pat :=
    first_match (provides_pattern xbps_cmpver pat) r
|}.

Definition cmpver_strings : Cmpver := {| xbps_cmpver := cmpver |}.

(** A descriptor of a repository catalog. *)
Definition descr (name vers : string) (prov : list string) : pkg_dict :=
  {| pkgname := name; version := vers; pkgver := name +:+ "-" +:+ vers;
     filename := name +:+ "-" +:+ vers +:+ ".xbps"; repository := None;
     preserve := false; transaction := "install"; provides := prov |}.

Definition repo (uri : string) (ds : list pkg_dict)
    : repository_pool_index :=
  {| rpi_repod := {| packages := ds; index_error := None |}; rpi_uri := uri |}.

Definition broken_repo (uri : string) (e : Z)
    : repository_pool_index :=
  {| rpi_repod := {| packages := []; index_error := Some e |}; rpi_uri := uri |}.

(** The repositories of the examples: A and C hold foo-2.0, B holds
    foo-1.0. *)
Definition A2 := repo "A" [descr "foo" "2.0" []].
Definition B1 := repo "B" [descr "foo" "1.0" []].
Definition C2 := repo "C" [descr "foo" "2.0" []].

(** ** Unpacking *)

(** The property lists of the examples, by their text: a stand-in for the
    plist parser. *)
Record documents := {
  doc_files : list (string * filesd_t);
  doc_props : list (string * propsd_t)
}.

Definition parse {A} (table : list (string * A)) (text : string) : Z + A :=
  match List.find (fun p => String.eqb (fst p) text) table with
  | Some p => inr (snd p)
  | None => inl EINVAL
  end.

Definition parse_file {A} (table : list (string * A))
    (fs : gmap string string) (path : string) : Z + A :=
  match fs !! path with
  | Some text => parse table text
  | None => inl ENOENT
  end.

Definition print_filesd (d : filesd_t) : string :=
  let item (p : string * string) := fst p +:+ "=" +:+ snd p +:+ ";" in
  "files:" +:+ String.concat EmptyString (map item (files d))
  +:+ "conf_files:" +:+ String.concat EmptyString (map item (conf_files d))
  +:+ "links:" +:+ String.concat ";" (links d).

Definition paths_of (d : filesd_t) : list string :=
  map fst (files d) ++ map fst (conf_files d) ++ links d.

(** Modelled from the spec: ObsoleteFileReconciler.  The paths of the
    previous manifest that the new one does not have are deleted. *)
Definition remove_obsoletes (old : filesd_t) (new : option filesd_t)
    (fs : gmap string string) : Z + gmap string string :=
  match new with
  | None => inl EINVAL
  | Some new =>
      inr (foldr (fun p fs =>
                    if existsb (String.eqb p) (paths_of new) then fs
                    else delete p fs) fs (paths_of old))
  end.

(** Modelled from the spec: an entry is a configuration file when the
    properties list its path (there without the leading dot). *)
Definition is_a_conf_file (p : propsd_t) (entry_pname : string) : bool :=
  existsb (fun c => String.eqb ("." +:+ c) entry_pname) (props_conf_files p).

Definition env (faults : call -> Z) (uid : Z)
    (archives : list (string * archive)) (docs : documents) : Unpack_env := {|
  XBPS_META_PATH := "var/db/xbps";
  XBPS_PKGPROPS := "props.plist";
  XBPS_PKGFILES := "files.plist";
  geteuid := uid;
  fault := faults;
  xbps_pkg_name := pkg_name_of;
  xbps_pkg_version := pkg_version_of;
  xbps_path_from_repository_uri d repo :=
    match repo with
    | Some uri => inr (uri +:+ "/" +:+ filename d)
    | None => inl EINVAL
    end;
  archive_read_open_filename path :=
    match List.find (fun p => String.eqb (fst p) path) archives with
    | Some p => inr (snd p)
    | None => inl ENOENT
    end;
  xbps_dictionary_from_archive_entry e := parse (doc_files docs) (ae_data e);
  xbps_dictionary_from_metadata_plist fs name file :=
    parse_file (doc_props docs) fs
      ("var/db/xbps/metadata/" +:+ name +:+ "/" +:+ file);
  prop_dictionary_internalize_from_zfile fs path :=
    parse_file (doc_files docs) fs path;
  prop_dictionary_externalize_to_zfile d path fs :=
    match d with
    | Some d => inr (<[path := print_filesd d]> fs)
    | None => inl EINVAL
    end;
  xbps_entry_is_a_conf_file := is_a_conf_file;
  xbps_entry_install_conf_file _ _ _ _ _ _ := 0;
  xbps_remove_obsoletes _ _ _ := remove_obsoletes;
  compute_digest c := c
|}.

Definition no_fault : call -> Z := fun _ => 0.

(** The [pre] action of the INSTALL script exits with status 1. *)
Definition failing_script : call -> Z := fun c =>
  match c with
  | File_exec _ _ _ _ _ _ => 1
  | _ => 0
  end.

(** [./bin/foo] cannot be written. *)
Definition unwritable_bin_foo : call -> Z := fun c =>
  match c with
  | Ar_extract e _ => if String.eqb (ae_pathname e) "./bin/foo" then EACCES else 0
  | _ => 0
  end.

(** The package [foo-1.0] of the examples and its archive. *)
Definition foo (transact : string) : pkg_dict :=
  {| pkgname := "foo"; version := "1.0"; pkgver := "foo-1.0";
     filename := "foo-1.0.xbps"; repository := Some "/repo";
     preserve := false; transaction := transact; provides := [] |}.

Definition reg (path data : string) : archive_entry :=
  {| ae_pathname := path; ae_filetype := S_IFREG; ae_perm := 420;
     ae_data := data |}.

Definition foo_files : filesd_t :=
  {| files := [("./bin/foo", "binary"); ("./bin/bar", "binary2")];
     conf_files := [("./etc/foo.conf", "new conf")];
     links := [] |}.

Definition foo_props : propsd_t := {| props_conf_files := ["/etc/foo.conf"] |}.

Definition foo_docs : documents :=
  {| doc_files := [("FILES", foo_files)]; doc_props := [("PROPS", foo_props)] |}.

Definition foo_metadata : list archive_entry :=
  [reg "./INSTALL" "#!/bin/sh"; reg "./REMOVE" "#!/bin/sh";
   reg "./files.plist" "FILES"; reg "./props.plist" "PROPS"].

Definition foo_archive : archive :=
  {| ar_entries :=
       foo_metadata ++
       [reg "./etc/foo.conf" "new conf"; reg "./bin/foo" "binary";
        reg "./bin/bar" "binary2"];
     ar_end := 0 |}.

Definition foo_env (faults : call -> Z) : Unpack_env :=
  env faults 0 [("/repo/foo-1.0.xbps", foo_archive)] foo_docs.

Definition xhp : xbps_handle :=
  {| rootdir := "/"; conffile := "/etc/xbps.conf"; unpack_cb := false |}.

(** A root directory holding the given files. *)
Definition root (fs : gmap string string) : world :=
  {| w_files := fs; w_dirs := {["/"]}; w_pkgstate := ∅; w_ar_errno := 0 |}.

(** The local variables of the loop once the four metadata entries of
    [foo_archive] have been read. *)
Definition known : locals :=
  {| l_propsd := Some foo_props; l_filesd := Some foo_files;
     l_nmetadata := 4; l_entry_idx := 0; l_xucd := None |}.


(** Installing [foo-1.0] with an INSTALL script whose [pre] action fails. *)
Definition failed_script_run : Z * world * list call :=
  xbps_unpack_binary_pkg (UE := foo_env failing_script) xhp (foo "install")
    (root ∅).

(** Installing [foo-1.0] where [./bin/foo] cannot be written. *)
Definition unwritable_run : Z * world * list call :=
  xbps_unpack_binary_pkg (UE := foo_env unwritable_bin_foo) xhp
    (foo "install") (root ∅).

(** Updating [foo-1.0]. *)
Definition update_run : Z * world * list call :=
  xbps_unpack_binary_pkg (UE := foo_env no_fault) xhp (foo "update") (root ∅).

(** The property lists of the binary packages of the examples, by URL and
    file name: a stand-in for the reader of remote packages. *)
Definition plist_by_url (table : list (string * string * string))
    : Plist_by_url string := {|
  xbps_dictionary_metadata_plist_by_url url plistf :=
    match List.find (fun p => String.eqb (fst (fst p)) url
                              && String.eqb (snd (fst p)) plistf) table with
    | Some p => inr (snd p)
    | None => inl ENOENT
    end
|}.

(** Repository B also provides [foo] as a virtual package of [baz]. *)
Definition Bv := repo "B" [descr "baz" "3.0" ["foo-3.0"]].
Definition Abar := repo "A" [descr "bar" "1.0" []].

(** The digest of a file cannot be computed. *)
Definition unreadable_digest : call -> Z := fun c =>
  match c with
  | Hash_check _ _ => EIO
  | _ => 0
  end.

(** The store of the package states cannot be written. *)
Definition read_only_store : call -> Z := fun c =>
  match c with
  | Set_pkg_state _ _ _ _ => EACCES
  | _ => 0
  end.

(** The root directory cannot be looked up. *)
Definition unreadable_root : call -> Z := fun c =>
  match c with
  | Sys_access "/" => EACCES
  | _ => 0
  end.

(** A root directory where [bar-1.0] is installed. *)
Definition root_with_bar : world :=
  {| w_files := ∅; w_dirs := {["/"]};
     w_pkgstate := {["bar" := ("1.0", "bar-1.0", XBPS_PKG_STATE_INSTALLED)]};
     w_ar_errno := 0 |}.

(** No root directory yet. *)
Definition no_root : world :=
  {| w_files := ∅; w_dirs := ∅; w_pkgstate := ∅; w_ar_errno := 0 |}.

(** [foo-1.0], updated with its files preserved. *)
Definition preserved_foo : pkg_dict :=
  {| pkgname := "foo"; version := "1.0"; pkgver := "foo-1.0";
     filename := "foo-1.0.xbps"; repository := Some "/repo";
     preserve := true; transaction := "update"; provides := [] |}.

End Sample.

(** * Vocabulary of the properties *)

Section Resolver_vocabulary.
Context {repod : Type} {PF : Plist_find repod}.

(** The search of the [packages] catalog of one repository, by name or by
    pattern, and the search of its virtual packages. *)
Definition concrete_lookup (bypattern : bool) (rpi : repository_pool_index)
    (pkg : string) : lookup :=
  if bypattern then
    xbps_find_pkg_in_dict_by_pattern (rpi_repod rpi) "packages" pkg
  else xbps_find_pkg_in_dict_by_name (rpi_repod rpi) "packages" pkg.

Definition virtual_lookup (bypattern : bool) (rpi : repository_pool_index)
    (pkg : string) : lookup :=
  if bypattern then
    xbps_find_virtualpkg_in_dict_by_pattern (rpi_repod rpi) "packages" pkg
  else xbps_find_virtualpkg_in_dict_by_name (rpi_repod rpi) "packages" pkg.

Definition is_missing (l : lookup) : Prop := exists e, l = Missing e.

(** A repository that has neither the package nor a virtual package. *)
Definition repo_misses (bypattern : bool) (pkg : string)
    (rpi : repository_pool_index) : Prop :=
  is_missing (concrete_lookup bypattern rpi pkg) /\
  is_missing (virtual_lookup bypattern rpi pkg).

(** A repository that has [d]: in its catalog, or else as a virtual
    package. *)
Definition repo_has (bypattern : bool) (pkg : string)
    (rpi : repository_pool_index) (d : pkg_dict) : Prop :=
  concrete_lookup bypattern rpi pkg = Found d \/
  (is_missing (concrete_lookup bypattern rpi pkg) /\
   virtual_lookup bypattern rpi pkg = Found d).

End Resolver_vocabulary.

(** [precedes P Q t]: in the trace [t], every call satisfying [Q] comes
    after some call satisfying [P]. *)
Definition precedes (P Q : call -> Prop) (t : list call) : Prop :=
  forall t1 c t2, t = t1 ++ c :: t2 -> Q c ->
    exists c0, In c0 t1 /\ P c0.

Definition is_exec (c : call) : bool :=
  match c with File_exec _ _ _ _ _ _ => true | _ => false end.

Definition is_extract (c : call) : bool :=
  match c with Ar_extract _ _ => true | _ => false end.

Definition is_unlink (c : call) : bool :=
  match c with Sys_unlink _ => true | _ => false end.

(** The calls that touch the filesystem of the root directory. *)
Definition is_sys (c : call) : bool :=
  match c with
  | Sys_access _ | Sys_mkpath _ _ | Sys_chdir _ | Sys_unlink _
  | Sys_rename _ _ => true
  | _ => false
  end.

(** The calls that resolve the root directory. *)
Definition is_root_resolution (xhp : xbps_handle) (c : call) : bool :=
  match c with
  | Sys_access p | Sys_mkpath p _ | Sys_chdir p => String.eqb p (rootdir xhp)
  | _ => false
  end.

Definition is_half_unpacked_write (c : call) : bool :=
  match c with
  | Set_pkg_state _ _ _ XBPS_PKG_STATE_HALF_UNPACKED => true
  | _ => false
  end.


(** The extraction of the entry with pathname [p]. *)
Definition extracts (p : string) (c : call) : bool :=
  match c with
  | Ar_extract e _ => String.eqb (ae_pathname e) p
  | _ => false
  end.

(** What follows, in a trace, the first call satisfying [P]. *)
Fixpoint after (P : call -> bool) (t : list call) : list call :=
  match t with
  | [] => []
  | c :: t => if P c then t else after P t
  end.

(** An entry that is neither a directory nor one of the four metadata
    entries: a data file. *)
Definition data_file_entry (e : archive_entry) : bool :=
  negb (S_ISDIR (ae_filetype e)) &&
  negb (String.eqb "./INSTALL" (ae_pathname e)) &&
  negb (String.eqb "./REMOVE" (ae_pathname e)) &&
  negb (String.eqb "./files.plist" (ae_pathname e)) &&
  negb (String.eqb "./props.plist" (ae_pathname e)).

Section Unpack_vocabulary.
Context {UE : Unpack_env}.

(** A computation that leaves the component [f] of the world as it was and
    makes only calls satisfying [phi]. *)
Definition respects {X A : Type} (f : world -> X) (phi : call -> Prop)
    (m : M A) : Prop :=
  forall w r w' t, m w = (r, w', t) -> f w' = f w /\ Forall phi t.

Definition respects_fn {X : Type} (f : world -> X) (phi : call -> Prop)
    (g : world -> Z * world * list call) : Prop :=
  forall w rv w' t, g w = (rv, w', t) -> f w' = f w /\ Forall phi t.

(** A computation whose result and trace always satisfy [Q]. *)
Definition satisfies {A : Type} (Q : result A -> list call -> Prop)
    (m : M A) : Prop :=
  forall w r w' t, m w = (r, w', t) -> Q r t.

(** A call other than a script run that exits with a non-zero status. *)
Definition quiet (c : call) : Prop := is_exec c = true -> fault c = 0.

(** A script run that exits with a non-zero status. *)
Definition failed_exec (c : call) : Prop := is_exec c = true /\ fault c <> 0.

(** The traces of the loop: no script run fails, or the trace ends with the
    failed run of the [pre] action and the report of its failure, and the
    loop is left for [out] with the exit status. *)
Definition exec_shape (name vers : string) {A : Type} (r : result A)
    (t : list call) : Prop :=
  Forall quiet t \/
  exists t0 c,
    t = t0 ++ [c; Cb_state XBPS_STATE_UNPACK_FAIL (fault c) name vers "INSTALL"]
    /\ Forall quiet t0 /\ failed_exec c /\ r = Out (fault c).

(** The order of the first steps as the specification has it: the root
    directory is resolved, and the old scripts are deleted, before the
    half-unpacked state is written. *)
Definition root_then_scripts_then_state (xhp : xbps_handle) (update : bool)
    (t : list call) : Prop :=
  precedes (fun c => is_root_resolution xhp c = true)
           (fun c => is_half_unpacked_write c = true) t /\
  (update = true ->
   precedes (fun c => is_unlink c = true)
            (fun c => is_half_unpacked_write c = true) t).

(** The fate of an existing configuration file when installing, as the
    specification has it: whatever file is at the pathname of the entry is
    found again at [<path>.old], the entry is extracted at [<path>], and
    the notice [XBPS_STATE_CONFIG_FILE] is given. *)
Definition conf_file_kept_as_old (xhp : xbps_handle) (pkg_repod : pkg_dict)
    (e : archive_entry) (l : locals) (w : world) : Prop :=
  forall content, w_files w !! ae_pathname e = Some content ->
    exists l' w' t,
      unpack_entry xhp pkg_repod false e l w = (Ok l', w', t) /\
      w_files w' !! (ae_pathname e +:+ ".old") = Some content /\
      w_files w' !! ae_pathname e = Some (ae_data e) /\
      In (Cb_state XBPS_STATE_CONFIG_FILE 0 (pkgname pkg_repod)
            (version pkg_repod) (ae_pathname e)) t.

(** The write of the half-unpacked state of the package, gone through. *)
Definition half_unpacked_written (pkg_repod : pkg_dict) (c : call) : Prop :=
  c = Set_pkg_state (pkgname pkg_repod) (version pkg_repod) (pkgver pkg_repod)
        XBPS_PKG_STATE_HALF_UNPACKED /\ fault c = 0.

End Unpack_vocabulary.

(** ** Vocabulary of the further properties *)

Section Lookup_vocabulary.
Context {repod : Type} {PF : Plist_find repod}.

(** The search of the [packages] catalog of one repository by pkgver. *)
Definition exact_lookup (rpi : repository_pool_index) (pkgv : string)
    : lookup :=
  xbps_find_pkg_in_dict_by_pkgver (rpi_repod rpi) "packages" pkgv.

(** The search of the virtual packages set in the configuration. *)
Definition virtual_conf_lookup (bypattern : bool) (rpi : repository_pool_index)
    (pkg : string) : lookup :=
  if bypattern then
    xbps_find_virtualpkg_conf_in_dict_by_pattern (rpi_repod rpi) "packages" pkg
  else xbps_find_virtualpkg_conf_in_dict_by_name (rpi_repod rpi) "packages" pkg.

(** A lookup that finds nothing and leaves no error, or [ENOENT]. *)
Definition not_found (l : lookup) : Prop :=
  l = Missing 0 \/ l = Missing ENOENT.

(** A descriptor, if any, that carries the URI of a repository of the
    pool. *)
Definition annotated_from (pool : list (@repository_pool_index repod))
    (p : option pkg_dict) : Prop :=
  forall d, p = Some d ->
    exists rpi, In rpi pool /\ repository d = Some (rpi_uri rpi).

(** A repository that either does not have the package or has it with a
    pkgver that [xbps_cmpver] does not tell apart from [v]. *)
Definition same_or_absent {CV : Cmpver} (bypattern : bool) (pkg v : string)
    (rpi : repository_pool_index) : Prop :=
  not_found (concrete_lookup bypattern rpi pkg) \/
  exists d, concrete_lookup bypattern rpi pkg = Found d /\
            xbps_cmpver (pkgver d) v = 0.

End Lookup_vocabulary.


(** A call that, if it is an extraction, is made with the flags [fl]. *)
Definition extracts_with (fl : extract_flags) (c : call) : Prop :=
  match c with
  | Ar_extract _ fl' => fl' = fl
  | _ => True
  end.

(** The values of [entry_extract_count] handed to the progress callback, in
    the order of the calls. *)
Fixpoint cb_counts (t : list call) : list Z :=
  match t with
  | [] => []
  | Cb_unpack d :: t => entry_extract_count d :: cb_counts t
  | _ :: t => cb_counts t
  end.

Definition is_cb_unpack (c : call) : bool :=
  match c with Cb_unpack _ => true | _ => false end.

(** [n] consecutive integers from [k]. *)
Fixpoint count_from (k : Z) (n : nat) : list Z :=
  match n with
  | O => []
  | S n => k :: count_from (k + 1) n
  end.

(** The value of [xucd->entry_extract_count], when there is a progress
    callback. *)
Definition xcount (l : locals) : option Z :=
  entry_extract_count <$> l_xucd l.

(** A part of the loop body that calls the progress callback at most once,
    with the count [k + 1], and leaves that count in [xucd]; [k] is the
    count before, if there is a progress callback. *)
Definition counts_ok (k : option Z) (m : M locals) : Prop :=
  forall w r w' t, m w = (r, w', t) ->
    exists n : nat,
      (n <= 1)%nat /\
      cb_counts t = match k with
                    | Some k => count_from (k + 1) n
                    | None => []
                    end /\
      forall l', r = Ok l' -> xcount l' = (fun k => k + Z.of_nat n) <$> k.

Section Metafile_vocabulary.
Context {UE : Unpack_env}.

(** The entry as [extract_metafile] hands it to libarchive: at its path
    under the metadata directory of the package, with the permissions 0750
    when it is a script. *)
Definition metafile_entry (name file : string) (exec : bool)
    (e : archive_entry) : archive_entry :=
  let e := set_pathname (metadata_path name file) e in
  if exec then set_perm 488 e else e.

End Metafile_vocabulary.

Section Silent_vocabulary.
Context {UE : Unpack_env}.

(** A computation that does not call the progress callback. *)
Definition silent {A : Type} (m : M A) : Prop :=
  respects (fun _ => tt) (fun c => is_cb_unpack c = false) m.

End Silent_vocabulary.

Section Exec_vocabulary.
Context {UE : Unpack_env}.

(** A call that, if it runs a program, runs the [pre] action of the INSTALL
    script of the package, in its metadata directory. *)
Definition is_pre_action (xhp : xbps_handle) (pkg : pkg_dict) (c : call)
    : Prop :=
  is_exec c = true ->
  c = File_exec (metadata_path (pkgname pkg) "INSTALL") "pre" (pkgname pkg)
        (version pkg)
        (if String.eqb (transaction pkg) "update" then "yes" else "no")
        (conffile xhp).

End Exec_vocabulary.

(** * Properties of the resolver *)

Section Resolver_facts.
Context {repod : Type} {PF : Plist_find repod} {CV : Cmpver}.

Lemma is_missing_run (l : lookup) (errno : Z) :
  is_missing l -> exists e, run_lookup l errno = (None, e).
Proof. intros [e ->]. exists e. reflexivity. Qed.

(** The callback of the plain lookup on a repository that misses. *)
Lemma repo_find_pkg_cb_miss bypattern pkg rpi rpf errno :
  rpf_exact rpf = false -> rpf_bypattern rpf = bypattern ->
  rpf_pattern rpf = pkg ->
  repo_misses bypattern pkg rpi ->
  exists e, repo_find_pkg_cb rpi rpf errno =
    {| cb_rv := 0; cb_done := false; cb_arg := with_pkgd None rpf;
       cb_errno := e |}.
Proof.
  intros Hex Hby Hpat [[e1 H1] [e2 H2]].
  unfold repo_find_pkg_cb, concrete_lookup, virtual_lookup in *.
  rewrite Hex, Hby, Hpat. exists e2.
  destruct bypattern; unfold or_else; rewrite H1, H2; reflexivity.
Qed.

(** The callback of the plain lookup on a repository that has [d]. *)
Lemma repo_find_pkg_cb_hit bypattern pkg rpi rpf errno d :
  rpf_exact rpf = false -> rpf_bypattern rpf = bypattern ->
  rpf_pattern rpf = pkg ->
  repo_has bypattern pkg rpi d ->
  exists e, repo_find_pkg_cb rpi rpf errno =
    {| cb_rv := 0; cb_done := true;
       cb_arg := with_pkgd (Some (set_repository (rpi_uri rpi) d)) rpf;
       cb_errno := e |}.
Proof.
  intros Hex Hby Hpat Hhas.
  unfold repo_find_pkg_cb, repo_has, concrete_lookup, virtual_lookup in *.
  rewrite Hex, Hby, Hpat.
  destruct Hhas as [H1 | [[e1 H1] H2]].
  - exists errno. destruct bypattern; unfold or_else; rewrite H1; reflexivity.
  - exists e1. destruct bypattern; unfold or_else; rewrite H1, H2; reflexivity.
Qed.

(** The scan steps over the repositories that miss and stops at the first
    one that has the package. *)
Lemma foreach_first_hit bypattern pkg pre rpi post d :
  Forall (repo_misses bypattern pkg) pre ->
  repo_has bypattern pkg rpi d ->
  forall rpf errno,
    rpf_exact rpf = false -> rpf_bypattern rpf = bypattern ->
    rpf_pattern rpf = pkg ->
    exists e,
      xbps_repository_pool_foreach repo_find_pkg_cb (pre ++ rpi :: post)
        rpf errno
      = (0, with_pkgd (Some (set_repository (rpi_uri rpi) d)) rpf, e).
Proof.
  intros Hpre Hhas. induction Hpre as [| r pre Hr Hpre IH];
    intros rpf errno Hex Hby Hpat; simpl.
  - destruct (repo_find_pkg_cb_hit bypattern pkg rpi rpf errno d)
      as [e ->]; auto.
    simpl. exists e. reflexivity.
  - destruct (repo_find_pkg_cb_miss bypattern pkg r rpf errno)
      as [e ->]; auto.
    simpl. destruct (IH (with_pkgd None rpf) e) as [e' ->]; auto.
    exists e'. reflexivity.
Qed.

(** C5.  A plain lookup ([best = false]) over a pool whose first
    repositories have neither the package nor a virtual package returns
    the descriptor of the first repository that has one, annotated with
    the URI of that repository, whatever the later repositories hold; in
    that repository the [packages] catalog is searched first and the
    virtual packages only when it has no match. *)
Theorem C5_find_first_repository_wins
    (pre post : list repository_pool_index) (rpi : repository_pool_index)
    (pkg : string) (bypattern : bool) (d : pkg_dict) (errno : Z) :
  Forall (repo_misses bypattern pkg) pre ->
  repo_has bypattern pkg rpi d ->
  fst (xbps_repository_pool_find_pkg (pre ++ rpi :: post) pkg bypattern
         false errno)
  = Some (set_repository (rpi_uri rpi) d).
Proof.
  intros Hpre Hhas.
  unfold xbps_repository_pool_find_pkg, repo_find_pkg, repo_find_pkg_with,
    scan.
  simpl.
  edestruct (foreach_first_hit bypattern pkg pre rpi post d Hpre Hhas)
    as [e ->]; [reflexivity .. |].
  reflexivity.
Qed.

End Resolver_facts.

Lemma C5_find_first_repository_wins_witness :
  fst (xbps_repository_pool_find_pkg
         (PF := Sample.plist_find (CV := Sample.cmpver_strings))
         (CV := Sample.cmpver_strings)
         ([Sample.repo "A" [Sample.descr "bar" "1.0" []]]
          ++ Sample.repo "B" [Sample.descr "baz" "3.0" ["foo-3.0"];
                              Sample.descr "foo" "1.0" []]
          :: [Sample.repo "C" [Sample.descr "foo" "2.0" []]])
         "foo" false false 0)
  = Some (set_repository "B" (Sample.descr "foo" "1.0" [])).
Proof.
  apply (C5_find_first_repository_wins
           (PF := Sample.plist_find (CV := Sample.cmpver_strings))
           (CV := Sample.cmpver_strings)).
  - repeat constructor; exists ENOENT; reflexivity.
  - left. reflexivity.
Defined.

(** ** The best-match lookup on explicit pools *)

Section Best_match.
Context {CV : Cmpver}.

(** C1 (the code departs from the claim).  With a comparator that tells
    [foo-1.0] and [foo-2.0] apart, the best-match lookup of [foo] over the
    pool A (foo-2.0), B (foo-1.0) returns foo-1.0, the older version:
    [repo_find_best_pkg_cb] replaces the best version whenever
    [xbps_cmpver] is not 0.  Over the pool A (foo-2.0), B (foo-1.0),
    C (foo-2.0) the scan records C as the origin of the winning foo-2.0,
    and yet the descriptor returned is annotated with A: the exact lookup
    that follows the scan starts from a fresh closure and is not
    restricted to the origin. *)
Theorem C1_best_match_returns_older_version :
  xbps_cmpver "foo-1.0" "foo-2.0" = -1 ->
  xbps_cmpver "foo-2.0" "foo-1.0" = 1 ->
  fst (xbps_repository_pool_find_pkg [Sample.A2; Sample.B1] "foo" false true 0)
    = Some (set_repository "B" (Sample.descr "foo" "1.0" [])) /\
  rpf_repo_bestmatch
    (fst (scan repo_find_best_pkg_cb [Sample.A2; Sample.B1; Sample.C2]
            (rpf_init "foo" false false) 0)) = Some "C" /\
  fst (xbps_repository_pool_find_pkg [Sample.A2; Sample.B1; Sample.C2] "foo" false true 0)
    = Some (set_repository "A" (Sample.descr "foo" "2.0" [])).
Proof.
  intros Hlt Hgt.
  cbv -[xbps_cmpver]. rewrite !Hlt, !Hgt. auto.
Qed.

(** C6 (the code departs from the claim).  The first repository fails
    every lookup with the I/O error [EIO]; the second one has foo-1.0.
    The plain lookup by name does not stop at the error: it goes on to the
    second repository and returns its descriptor.  The best-match lookup,
    whose callback tests [errno], stops and returns nothing. *)
Theorem C6_plain_lookup_steps_over_error :
  xbps_repository_pool_find_pkg [Sample.broken_repo "A" EIO; Sample.B1] "foo"
    false false 0
    = (Some (set_repository "B" (Sample.descr "foo" "1.0" [])), EIO) /\
  xbps_repository_pool_find_pkg [Sample.broken_repo "A" EIO; Sample.B1] "foo"
    false true 0
    = (None, EIO).
Proof. split; reflexivity. Qed.

End Best_match.

Lemma C1_best_match_returns_older_version_witness :
  fst (xbps_repository_pool_find_pkg
         (PF := Sample.plist_find (CV := Sample.cmpver_strings))
         (CV := Sample.cmpver_strings)
         [Sample.A2; Sample.B1] "foo" false true 0)
  = Some (set_repository "B" (Sample.descr "foo" "1.0" [])).
Proof.
  apply (C1_best_match_returns_older_version (CV := Sample.cmpver_strings));
    reflexivity.
Defined.

(** ** Further properties of the lookups *)

Section Resolver_more.
Context {repod : Type} {PF : Plist_find repod} {CV : Cmpver}.

(** The callback of the exact lookup, the scan not being restricted to
    one repository. *)
Lemma repo_find_pkg_cb_exact pkgv rpi rpf errno :
  rpf_exact rpf = true -> rpf_repo_bestmatch rpf = None ->
  rpf_pattern rpf = pkgv ->
  repo_find_pkg_cb rpi rpf errno =
    let '(p, errno) := run_lookup (exact_lookup rpi pkgv) errno in
    found_in rpi rpf p errno.
Proof.
  intros Hex Hbm Hpat. unfold repo_find_pkg_cb, exact_lookup.
  rewrite Hex, Hbm, Hpat. reflexivity.
Qed.

(** The scan of the exact lookup steps over the repositories without the
    pkgver and stops at the first one that has it. *)
Lemma foreach_exact_first_hit pkgv pre rpi post d :
  Forall (fun r => is_missing (exact_lookup r pkgv)) pre ->
  exact_lookup rpi pkgv = Found d ->
  forall rpf errno,
    rpf_exact rpf = true -> rpf_repo_bestmatch rpf = None ->
    rpf_pattern rpf = pkgv ->
    exists e,
      xbps_repository_pool_foreach repo_find_pkg_cb (pre ++ rpi :: post)
        rpf errno
      = (0, with_pkgd (Some (set_repository (rpi_uri rpi) d)) rpf, e).
Proof.
  intros Hpre Hhit.
  induction Hpre as [| r pre [e1 Hr] Hpre IH];
    intros rpf errno Hex Hbm Hpat; simpl;
    rewrite (repo_find_pkg_cb_exact pkgv) by assumption.
  - rewrite Hhit. simpl. eauto.
  - rewrite Hr. simpl.
    destruct (IH (with_pkgd None rpf) e1) as [e' ->]; auto.
    exists e'. reflexivity.
Qed.

(** X1.  The exact lookup returns the descriptor of the first repository of
    the pool whose catalog has the pkgver, annotated with the URI of that
    repository; the virtual packages are not searched, and what the later
    repositories hold does not matter. *)
Theorem find_pkg_exact_first_repository_wins
    (pre post : list repository_pool_index) (rpi : repository_pool_index)
    (pkgv : string) (d : pkg_dict) (errno : Z) :
  Forall (fun r => is_missing (exact_lookup r pkgv)) pre ->
  exact_lookup rpi pkgv = Found d ->
  fst (xbps_repository_pool_find_pkg_exact (pre ++ rpi :: post) pkgv errno)
  = Some (set_repository (rpi_uri rpi) d).
Proof.
  intros Hpre Hhit.
  unfold xbps_repository_pool_find_pkg_exact, repo_find_pkg_with, scan.
  simpl.
  edestruct (foreach_exact_first_hit pkgv pre rpi post d Hpre Hhit)
    as [e ->]; [reflexivity .. |].
  reflexivity.
Qed.

Lemma repo_find_virtualpkg_cb_eq bypattern pkg rpi rpf errno :
  rpf_bypattern rpf = bypattern -> rpf_pattern rpf = pkg ->
  repo_find_virtualpkg_cb rpi rpf errno =
    let '(p, errno) :=
      run_lookup (virtual_conf_lookup bypattern rpi pkg) errno in
    found_in rpi rpf p errno.
Proof.
  intros Hby Hpat. unfold repo_find_virtualpkg_cb, virtual_conf_lookup.
  rewrite Hby, Hpat. destruct bypattern; reflexivity.
Qed.

Lemma foreach_virtual_first_hit bypattern pkg pre rpi post d :
  Forall (fun r => is_missing (virtual_conf_lookup bypattern r pkg)) pre ->
  virtual_conf_lookup bypattern rpi pkg = Found d ->
  forall rpf errno,
    rpf_bypattern rpf = bypattern -> rpf_pattern rpf = pkg ->
    exists e,
      xbps_repository_pool_foreach repo_find_virtualpkg_cb (pre ++ rpi :: post)
        rpf errno
      = (0, with_pkgd (Some (set_repository (rpi_uri rpi) d)) rpf, e).
Proof.
  intros Hpre Hhit.
  induction Hpre as [| r pre [e1 Hr] Hpre IH];
    intros rpf errno Hby Hpat; simpl;
    rewrite (repo_find_virtualpkg_cb_eq bypattern pkg) by assumption.
  - rewrite Hhit. simpl. eauto.
  - rewrite Hr. simpl.
    destruct (IH (with_pkgd None rpf) e1) as [e' ->]; auto.
    exists e'. reflexivity.
Qed.

(** X2.  The lookup of a virtual package ([best = false]) searches only the
    virtual packages set in the configuration: it returns the descriptor
    that the first repository with a match gives, annotated with the URI of
    that repository. *)
Theorem find_virtualpkg_first_repository_wins
    (pre post : list repository_pool_index) (rpi : repository_pool_index)
    (pkg : string) (bypattern : bool) (d : pkg_dict) (errno : Z) :
  Forall (fun r => is_missing (virtual_conf_lookup bypattern r pkg)) pre ->
  virtual_conf_lookup bypattern rpi pkg = Found d ->
  fst (xbps_repository_pool_find_virtualpkg (pre ++ rpi :: post) pkg bypattern
         false errno)
  = Some (set_repository (rpi_uri rpi) d).
Proof.
  intros Hpre Hhit.
  unfold xbps_repository_pool_find_virtualpkg, repo_find_pkg,
    repo_find_pkg_with, scan.
  simpl.
  edestruct (foreach_virtual_first_hit bypattern pkg pre rpi post d Hpre Hhit)
    as [e ->]; [reflexivity .. |].
  reflexivity.
Qed.

(** The plain scan over repositories that all miss. *)
Lemma foreach_all_miss bypattern pkg pool :
  Forall (repo_misses bypattern pkg) pool ->
  forall rpf errno,
    rpf_exact rpf = false -> rpf_bypattern rpf = bypattern ->
    rpf_pattern rpf = pkg -> rpf_pkgd rpf = None ->
    exists rpf' e,
      xbps_repository_pool_foreach repo_find_pkg_cb pool rpf errno
      = (0, rpf', e) /\ rpf_pkgd rpf' = None.
Proof.
  induction 1 as [| r pool Hr Hpool IH]; intros rpf errno Hex Hby Hpat Hnone;
    simpl.
  - eauto.
  - destruct (repo_find_pkg_cb_miss bypattern pkg r rpf errno)
      as [e ->]; auto.
    simpl. apply IH; auto.
Qed.

(** X3.  A plain lookup over a pool in which no repository has the
    package, in its catalog or as a virtual package, returns nothing,
    whatever error numbers the lookups leave. *)
Theorem find_pkg_in_no_repository
    (pool : list repository_pool_index) (pkg : string) (bypattern : bool)
    (errno : Z) :
  Forall (repo_misses bypattern pkg) pool ->
  fst (xbps_repository_pool_find_pkg pool pkg bypattern false errno) = None.
Proof.
  intros Hpool.
  unfold xbps_repository_pool_find_pkg, repo_find_pkg, repo_find_pkg_with,
    scan.
  simpl.
  edestruct (foreach_all_miss bypattern pkg pool Hpool)
    as (rpf' & e & -> & Hnone); [reflexivity .. |].
  exact Hnone.
Qed.

(** The callback of the best-match lookup on a repository whose catalog
    does not have the package. *)
Lemma repo_find_best_pkg_cb_not_found bypattern pkg rpi rpf errno :
  rpf_bypattern rpf = bypattern -> rpf_pattern rpf = pkg ->
  not_found (concrete_lookup bypattern rpi pkg) ->
  exists e,
    repo_find_best_pkg_cb rpi rpf errno =
      {| cb_rv := 0; cb_done := false; cb_arg := with_pkgd None rpf;
         cb_errno := e |}.
Proof.
  intros Hby Hpat Hnf. unfold repo_find_best_pkg_cb, concrete_lookup in *.
  rewrite Hby, Hpat.
  destruct bypattern, Hnf as [-> | ->]; simpl; eauto.
Qed.

Lemma foreach_best_not_found bypattern pkg pool :
  Forall (fun r => not_found (concrete_lookup bypattern r pkg)) pool ->
  forall rpf errno,
    rpf_bypattern rpf = bypattern -> rpf_pattern rpf = pkg ->
    exists e,
      xbps_repository_pool_foreach repo_find_best_pkg_cb pool rpf errno
      = (0, match pool with [] => rpf | _ => with_pkgd None rpf end, e).
Proof.
  induction 1 as [| r pool Hr Hpool IH]; intros rpf errno Hby Hpat; simpl.
  - eauto.
  - destruct (repo_find_best_pkg_cb_not_found bypattern pkg r rpf errno)
      as [e ->]; auto.
    simpl. destruct (IH (with_pkgd None rpf) e) as [e' ->]; auto.
    exists e'. destruct pool; reflexivity.
Qed.

(** X4.  The best-match lookup searches the catalogs only: when no catalog
    has the package it returns nothing, also when it is asked for through
    [xbps_repository_pool_find_virtualpkg], and also when a repository has
    the package as a virtual one. *)
Theorem best_match_ignores_virtual_packages
    (pool : list repository_pool_index) (pkg : string) (bypattern : bool)
    (errno : Z) :
  Forall (fun r => not_found (concrete_lookup bypattern r pkg)) pool ->
  fst (xbps_repository_pool_find_pkg pool pkg bypattern true errno) = None /\
  fst (xbps_repository_pool_find_virtualpkg pool pkg bypattern true errno)
    = None.
Proof.
  intros Hpool.
  unfold xbps_repository_pool_find_pkg, xbps_repository_pool_find_virtualpkg,
    repo_find_pkg, repo_find_pkg_with, scan.
  simpl.
  edestruct (foreach_best_not_found bypattern pkg pool Hpool)
    as (e & ->); [reflexivity .. |].
  destruct pool; simpl; auto.
Qed.

(** X5.  The best-match scan ends on the first lookup that fails with an
    error other than [ENOENT]: when no earlier repository has the package,
    the call returns nothing and leaves that error in [errno], whatever the
    later repositories hold. *)
Theorem best_match_stops_at_lookup_error
    (pre post : list repository_pool_index) (rpi : repository_pool_index)
    (pkg : string) (bypattern : bool) (e errno : Z) :
  Forall (fun r => not_found (concrete_lookup bypattern r pkg)) pre ->
  concrete_lookup bypattern rpi pkg = Missing e ->
  e <> 0 -> e <> ENOENT ->
  xbps_repository_pool_find_pkg (pre ++ rpi :: post) pkg bypattern true errno
  = (None, e).
Proof.
  intros Hpre Herr He0 He2.
  unfold xbps_repository_pool_find_pkg, repo_find_pkg, repo_find_pkg_with,
    scan.
  simpl.
  assert (H : forall rpf errno,
             rpf_bypattern rpf = bypattern -> rpf_pattern rpf = pkg ->
             rpf_bestpkgver rpf = None ->
             exists rpf',
               xbps_repository_pool_foreach repo_find_best_pkg_cb
                 (pre ++ rpi :: post) rpf errno = (e, rpf', e) /\
               rpf_pkgd rpf' = None /\ rpf_bestpkgver rpf' = None).
  { clear errno. induction Hpre as [| r pre Hr Hpre IH];
      intros rpf errno Hby Hpat Hbest; simpl.
    - unfold repo_find_best_pkg_cb, concrete_lookup in *. rewrite Hby, Hpat.
      assert (Hne : negb (e =? 0) && negb (e =? ENOENT) = true).
      { apply andb_true_iff. split; apply negb_true_iff, Z.eqb_neq; auto. }
      destruct bypattern; rewrite Herr; simpl; rewrite Hne; simpl;
        apply Z.eqb_neq in He0; rewrite He0; simpl; eauto.
    - destruct (repo_find_best_pkg_cb_not_found bypattern pkg r rpf errno)
        as [e' ->]; auto.
      simpl. apply IH; auto. }
  destruct (H (rpf_init pkg bypattern false) errno)
    as (rpf' & -> & Hnone & Hbest); try reflexivity.
  apply Z.eqb_neq in He0. rewrite He0. simpl. rewrite Hbest. simpl.
  rewrite Hnone. reflexivity.
Qed.

(** The best-match scan steps over the repositories that do not have the
    package and keeps what it has recorded. *)
Lemma foreach_best_skip bypattern pkg pre rest :
  Forall (fun r => not_found (concrete_lookup bypattern r pkg)) pre ->
  forall rpf errno,
    rpf_bypattern rpf = bypattern -> rpf_pattern rpf = pkg ->
    exists rpf1 e1,
      xbps_repository_pool_foreach repo_find_best_pkg_cb (pre ++ rest) rpf
        errno
      = xbps_repository_pool_foreach repo_find_best_pkg_cb rest rpf1 e1 /\
      rpf_bypattern rpf1 = bypattern /\ rpf_pattern rpf1 = pkg /\
      rpf_bestpkgver rpf1 = rpf_bestpkgver rpf /\
      rpf_repo_bestmatch rpf1 = rpf_repo_bestmatch rpf.
Proof.
  induction 1 as [| r pre Hr Hpre IH]; intros rpf errno Hby Hpat; simpl.
  - exists rpf, errno. auto.
  - destruct (repo_find_best_pkg_cb_not_found bypattern pkg r rpf errno)
      as [e ->]; auto.
    simpl. apply (IH (with_pkgd None rpf) e); auto.
Qed.

(** On a repository whose version of the package is not told apart from
    the recorded one, the callback keeps the recorded version and its
    repository. *)
Lemma foreach_best_ties bypattern pkg v post :
  Forall (same_or_absent bypattern pkg v) post ->
  forall rpf errno,
    rpf_bypattern rpf = bypattern -> rpf_pattern rpf = pkg ->
    rpf_bestpkgver rpf = Some v ->
    exists rpf' e,
      xbps_repository_pool_foreach repo_find_best_pkg_cb post rpf errno
      = (0, rpf', e) /\
      rpf_bestpkgver rpf' = Some v /\
      rpf_repo_bestmatch rpf' = rpf_repo_bestmatch rpf.
Proof.
  induction 1 as [| r post Hr Hpost IH]; intros rpf errno Hby Hpat Hbest;
    simpl.
  - eauto.
  - destruct Hr as [Hnf | (d & Hd & Hcmp)].
    + destruct (repo_find_best_pkg_cb_not_found bypattern pkg r rpf errno)
        as [e ->]; auto.
      simpl. apply (IH (with_pkgd None rpf) e); auto.
    + assert (E : repo_find_best_pkg_cb r rpf errno =
                  {| cb_rv := 0; cb_done := false;
                     cb_arg := with_pkgd (Some d) rpf; cb_errno := errno |}).
      { unfold repo_find_best_pkg_cb, concrete_lookup in *.
        rewrite Hby, Hpat.
        destruct bypattern; rewrite Hd; simpl; rewrite Hbest, Hcmp;
          reflexivity. }
      rewrite E. simpl. apply (IH (with_pkgd (Some d) rpf) errno); auto.
Qed.

(** X6.  When every repository that has the package has it with a pkgver
    that [xbps_cmpver] does not tell apart from the pkgver of the first of
    them, the best-match scan records the pkgver and the URI of the first
    one, and the call returns what the exact lookup of that pkgver over the
    whole pool returns. *)
Theorem best_match_keeps_first_on_ties
    (pre post : list repository_pool_index) (rpi : repository_pool_index)
    (pkg : string) (bypattern : bool) (d : pkg_dict) (errno : Z) :
  Forall (fun r => not_found (concrete_lookup bypattern r pkg)) pre ->
  concrete_lookup bypattern rpi pkg = Found d ->
  Forall (same_or_absent bypattern pkg (pkgver d)) post ->
  let rpf := fst (scan repo_find_best_pkg_cb (pre ++ rpi :: post)
                    (rpf_init pkg bypattern false) errno) in
  rpf_bestpkgver rpf = Some (pkgver d) /\
  rpf_repo_bestmatch rpf = Some (rpi_uri rpi) /\
  exists e,
    xbps_repository_pool_find_pkg (pre ++ rpi :: post) pkg bypattern true errno
    = xbps_repository_pool_find_pkg_exact (pre ++ rpi :: post) (pkgver d) e.
Proof.
  intros Hpre Hd Hpost.
  destruct (foreach_best_skip bypattern pkg pre (rpi :: post) Hpre
              (rpf_init pkg bypattern false) errno)
    as (rpf1 & e1 & E1 & Hby & Hpat & Hbest & Hrepo); try reflexivity.
  assert (E2 : repo_find_best_pkg_cb rpi rpf1 e1 =
               {| cb_rv := 0; cb_done := false;
                  cb_arg := with_best (pkgver d) (rpi_uri rpi)
                              (with_pkgd (Some d) rpf1);
                  cb_errno := e1 |}).
  { unfold repo_find_best_pkg_cb, concrete_lookup in *. rewrite Hby, Hpat.
    destruct bypattern; rewrite Hd; simpl; rewrite Hbest; reflexivity. }
  destruct (foreach_best_ties bypattern pkg (pkgver d) post Hpost
              (with_best (pkgver d) (rpi_uri rpi) (with_pkgd (Some d) rpf1))
              e1)
    as (rpf' & e' & E3 & Hbest' & Hrepo'); auto.
  assert (E : xbps_repository_pool_foreach repo_find_best_pkg_cb
                (pre ++ rpi :: post) (rpf_init pkg bypattern false) errno
              = (0, rpf', e')).
  { rewrite E1. simpl. rewrite E2. simpl. exact E3. }
  unfold xbps_repository_pool_find_pkg, repo_find_pkg, repo_find_pkg_with,
    scan.
  cbn [fst snd]. rewrite E. cbn [fst snd negb Z.eqb]. rewrite Hbest'.
  split; [reflexivity |]. split; [rewrite Hrepo'; reflexivity |].
  exists e'.
  destruct (xbps_repository_pool_find_pkg_exact (pre ++ rpi :: post)
              (pkgver d) e') as [p e2].
  reflexivity.
Qed.

(** ** Every descriptor returned carries the URI of its repository *)

Lemma annotated_none (pool : list (@repository_pool_index repod)) : annotated_from pool None.
Proof. intros d H. discriminate H. Qed.

Lemma found_in_annotated pool (rpi : @repository_pool_index repod) rpf p errno :
  In rpi pool ->
  annotated_from pool (rpf_pkgd (cb_arg (found_in rpi rpf p errno))).
Proof.
  intros Hin. destruct p as [d0 |]; simpl; [| apply annotated_none].
  intros d [= <-]. exists rpi. auto.
Qed.

Lemma repo_find_pkg_cb_annotated pool rpi rpf errno :
  In rpi pool -> annotated_from pool (rpf_pkgd rpf) ->
  annotated_from pool (rpf_pkgd (cb_arg (repo_find_pkg_cb rpi rpf errno))).
Proof.
  intros Hin Hrpf. unfold repo_find_pkg_cb.
  repeat match goal with
         | |- context [if ?b then _ else _] => destruct b
         | |- context [let '(_, _) := ?x in _] => destruct x
         end; auto using found_in_annotated.
Qed.

Lemma repo_find_virtualpkg_cb_annotated pool rpi rpf errno :
  In rpi pool -> annotated_from pool (rpf_pkgd rpf) ->
  annotated_from pool
    (rpf_pkgd (cb_arg (repo_find_virtualpkg_cb rpi rpf errno))).
Proof.
  intros Hin Hrpf. unfold repo_find_virtualpkg_cb.
  repeat match goal with
         | |- context [if ?b then _ else _] => destruct b
         | |- context [let '(_, _) := ?x in _] => destruct x
         end; auto using found_in_annotated.
Qed.

(** What every callback keeps, the scan keeps. *)
Lemma foreach_invariant (I : repo_pool_fpkg -> Prop) (fn : @callback repod)
    pool :
  (forall rpi rpf errno, In rpi pool -> I rpf -> I (cb_arg (fn rpi rpf errno))) ->
  forall sub rpf errno,
    incl sub pool -> I rpf ->
    I (snd (fst (xbps_repository_pool_foreach fn sub rpf errno))).
Proof.
  intros Hfn. induction sub as [| r sub IH]; intros rpf errno Hsub Hrpf; simpl.
  - exact Hrpf.
  - assert (Hr : In r pool) by (apply Hsub; left; reflexivity).
    assert (Hsub' : incl sub pool) by (intros x Hx; apply Hsub; right; exact Hx).
    destruct (negb (cb_rv (fn r rpf errno) =? 0) || cb_done (fn r rpf errno));
      simpl; auto.
Qed.

Lemma scan_invariant (I : repo_pool_fpkg -> Prop) (fn : @callback repod)
    pool :
  (forall rpi rpf errno, In rpi pool -> I rpf -> I (cb_arg (fn rpi rpf errno))) ->
  forall rpf errno, I rpf -> I (fst (scan fn pool rpf errno)).
Proof.
  intros Hfn rpf errno Hrpf. unfold scan.
  pose proof (foreach_invariant I fn pool Hfn pool rpf errno
                (incl_refl pool) Hrpf) as H.
  destruct (xbps_repository_pool_foreach fn pool rpf errno) as [[rv rpf'] e].
  exact H.
Qed.

Lemma find_pkg_exact_annotated pool pkgv errno :
  annotated_from pool (fst (xbps_repository_pool_find_pkg_exact pool pkgv errno)).
Proof.
  unfold xbps_repository_pool_find_pkg_exact, repo_find_pkg_with.
  pose proof (scan_invariant (fun rpf => annotated_from pool (rpf_pkgd rpf))
                repo_find_pkg_cb pool
                (fun rpi rpf e => repo_find_pkg_cb_annotated pool rpi rpf e)
                (rpf_init pkgv false true) errno (annotated_none pool)) as H.
  destruct (scan repo_find_pkg_cb pool (rpf_init pkgv false true) errno).
  exact H.
Qed.

(** The best-match callback finds nothing as long as it records no
    version. *)
Lemma repo_find_best_pkg_cb_none rpi rpf errno :
  (rpf_bestpkgver rpf = None -> rpf_pkgd rpf = None) ->
  rpf_bestpkgver (cb_arg (repo_find_best_pkg_cb rpi rpf errno)) = None ->
  rpf_pkgd (cb_arg (repo_find_best_pkg_cb rpi rpf errno)) = None.
Proof.
  intros _. unfold repo_find_best_pkg_cb.
  repeat match goal with
         | |- context [if ?b then _ else _] => destruct b
         | |- context [let '(_, _) := ?x in _] => destruct x
         | |- context [match ?x with Some _ => _ | None => _ end] =>
             destruct x eqn:?
         end; simpl in *; congruence.
Qed.

Lemma repo_find_pkg_annotated pool pkg bypattern best virtual errno :
  annotated_from pool
    (rpf_pkgd (fst (repo_find_pkg pool pkg bypattern best false virtual errno))).
Proof.
  unfold repo_find_pkg, repo_find_pkg_with.
  destruct best; [| destruct virtual].
  - pose proof (scan_invariant
                  (fun rpf => rpf_bestpkgver rpf = None -> rpf_pkgd rpf = None)
                  repo_find_best_pkg_cb pool
                  (fun rpi rpf e _ => repo_find_best_pkg_cb_none rpi rpf e)
                  (rpf_init pkg bypattern false) errno (fun _ => eq_refl)) as H.
    destruct (scan repo_find_best_pkg_cb pool (rpf_init pkg bypattern false)
                errno) as [rpf e].
    simpl in H. destruct (rpf_bestpkgver rpf) as [v |].
    + pose proof (find_pkg_exact_annotated pool v e) as Hex.
      destruct (xbps_repository_pool_find_pkg_exact pool v e) as [p e'].
      exact Hex.
    + simpl. rewrite H by reflexivity. apply annotated_none.
  - apply (scan_invariant (fun rpf => annotated_from pool (rpf_pkgd rpf)));
      [apply repo_find_virtualpkg_cb_annotated | apply annotated_none].
  - apply (scan_invariant (fun rpf => annotated_from pool (rpf_pkgd rpf)));
      [apply repo_find_pkg_cb_annotated | apply annotated_none].
Qed.

(** X7.  Every descriptor returned by a lookup of the pool (plain, virtual,
    best-match or exact) carries in [repository] the URI of a repository of
    the pool. *)
Theorem lookups_annotate_with_a_pool_uri
    (pool : list repository_pool_index) (pkg : string)
    (bypattern best : bool) (errno : Z) :
  annotated_from pool
    (fst (xbps_repository_pool_find_pkg pool pkg bypattern best errno)) /\
  annotated_from pool
    (fst (xbps_repository_pool_find_virtualpkg pool pkg bypattern best errno)) /\
  annotated_from pool
    (fst (xbps_repository_pool_find_pkg_exact pool pkg errno)).
Proof.
  split; [| split].
  - pose proof (repo_find_pkg_annotated pool pkg bypattern best false errno) as H.
    unfold xbps_repository_pool_find_pkg.
    destruct (repo_find_pkg pool pkg bypattern best false false errno).
    exact H.
  - pose proof (repo_find_pkg_annotated pool pkg bypattern best true errno) as H.
    unfold xbps_repository_pool_find_virtualpkg.
    destruct (repo_find_pkg pool pkg bypattern best false true errno).
    exact H.
  - apply find_pkg_exact_annotated.
Qed.

End Resolver_more.


Lemma find_pkg_exact_first_repository_wins_witness :
  fst (xbps_repository_pool_find_pkg_exact (PF := Sample.plist_find (CV := Sample.cmpver_strings))
    (CV := Sample.cmpver_strings)
         ([Sample.A2] ++ Sample.B1 :: [Sample.C2]) "foo-1.0" 0)
  = Some (set_repository "B" (Sample.descr "foo" "1.0" [])).
Proof.
  apply (find_pkg_exact_first_repository_wins (PF := Sample.plist_find (CV := Sample.cmpver_strings))
    (CV := Sample.cmpver_strings)).
  - repeat constructor. exists ENOENT. reflexivity.
  - reflexivity.
Defined.

Lemma find_virtualpkg_first_repository_wins_witness :
  fst (xbps_repository_pool_find_virtualpkg (PF := Sample.plist_find (CV := Sample.cmpver_strings))
    (CV := Sample.cmpver_strings)
         ([Sample.A2] ++ Sample.Bv :: [Sample.C2]) "foo" false false 0)
  = Some (set_repository "B" (Sample.descr "baz" "3.0" ["foo-3.0"])).
Proof.
  apply (find_virtualpkg_first_repository_wins (PF := Sample.plist_find (CV := Sample.cmpver_strings))
    (CV := Sample.cmpver_strings)).
  - repeat constructor. exists ENOENT. reflexivity.
  - reflexivity.
Defined.

Lemma find_pkg_in_no_repository_witness :
  fst (xbps_repository_pool_find_pkg (PF := Sample.plist_find (CV := Sample.cmpver_strings))
    (CV := Sample.cmpver_strings)
         [Sample.Abar; Sample.broken_repo "B" EIO] "foo" false false 0)
  = None.
Proof.
  apply (find_pkg_in_no_repository (PF := Sample.plist_find (CV := Sample.cmpver_strings))
    (CV := Sample.cmpver_strings)).
  repeat constructor; eexists; reflexivity.
Defined.

Lemma best_match_ignores_virtual_packages_witness :
  fst (xbps_repository_pool_find_pkg (PF := Sample.plist_find (CV := Sample.cmpver_strings))
    (CV := Sample.cmpver_strings)
         [Sample.Abar; Sample.Bv] "foo" false true 0) = None /\
  fst (xbps_repository_pool_find_virtualpkg (PF := Sample.plist_find (CV := Sample.cmpver_strings))
    (CV := Sample.cmpver_strings)
         [Sample.Abar; Sample.Bv] "foo" false true 0) = None.
Proof.
  apply (best_match_ignores_virtual_packages (PF := Sample.plist_find (CV := Sample.cmpver_strings))
    (CV := Sample.cmpver_strings)).
  repeat (apply List.Forall_cons; [right; reflexivity |]).
  apply List.Forall_nil.
Defined.

Lemma best_match_stops_at_lookup_error_witness :
  xbps_repository_pool_find_pkg (PF := Sample.plist_find (CV := Sample.cmpver_strings))
    (CV := Sample.cmpver_strings)
    ([Sample.Abar] ++ Sample.broken_repo "B" EIO :: [Sample.C2]) "foo" false
    true 0
  = (None, EIO).
Proof.
  apply (best_match_stops_at_lookup_error (PF := Sample.plist_find (CV := Sample.cmpver_strings))
    (CV := Sample.cmpver_strings)).
  - repeat (apply List.Forall_cons; [right; reflexivity |]).
    apply List.Forall_nil.
  - reflexivity.
  - discriminate.
  - discriminate.
Defined.

Lemma best_match_keeps_first_on_ties_witness :
  rpf_repo_bestmatch
    (fst (scan
            (repo_find_best_pkg_cb
               (PF := Sample.plist_find (CV := Sample.cmpver_strings))
               (CV := Sample.cmpver_strings))
            ([Sample.Abar] ++ Sample.A2 :: [Sample.C2])
            (rpf_init "foo" false false) 0)) = Some "A".
Proof.
  destruct (best_match_keeps_first_on_ties
              (PF := Sample.plist_find (CV := Sample.cmpver_strings))
              (CV := Sample.cmpver_strings)
              [Sample.Abar] [Sample.C2] Sample.A2 "foo" false
              (Sample.descr "foo" "2.0" []) 0) as (_ & H & _).
  - repeat (apply List.Forall_cons; [right; reflexivity |]).
    apply List.Forall_nil.
  - reflexivity.
  - apply List.Forall_cons; [| apply List.Forall_nil].
    right. eexists. split; reflexivity.
  - exact H.
Defined.

(** ** The metadata property list *)

Section Metadata_plist_facts.
Context {repod : Type} {PF : Plist_find repod} {CV : Cmpver}.
Context {UE : Unpack_env} {plist : Type} {PU : Plist_by_url plist}.

(** X8.  The metadata property list of a package is read from the first
    repository that has the package: the URL is built from the descriptor
    of that repository, and when the property list cannot be read there,
    the call returns nothing with [ENOENT] and does not try the later
    repositories. *)
Theorem metadata_plist_of_first_repository
    (pre post : list repository_pool_index) (rpi : repository_pool_index)
    (pkg plistf : string) (d : pkg_dict) (url : string) (errno : Z) :
  Forall (repo_misses false pkg) pre ->
  repo_has false pkg rpi d ->
  xbps_path_from_repository_uri (set_repository (rpi_uri rpi) d)
    (Some (rpi_uri rpi)) = inr url ->
  match xbps_dictionary_metadata_plist_by_url url plistf with
  | inr p =>
      fst (xbps_repository_pool_dictionary_metadata_plist (pre ++ rpi :: post)
             pkg plistf errno) = Some p
  | inl _ =>
      xbps_repository_pool_dictionary_metadata_plist (pre ++ rpi :: post)
        pkg plistf errno = (None, ENOENT)
  end.
Proof.
  intros Hpre Hhas Hurl.
  unfold xbps_repository_pool_dictionary_metadata_plist,
    xbps_repository_pool_find_pkg, repo_find_pkg, repo_find_pkg_with, scan.
  cbn [negb].
  edestruct (foreach_first_hit false pkg pre rpi post d Hpre Hhas)
    as [e ->]; [reflexivity .. |].
  cbn. rewrite Hurl.
  destruct (xbps_dictionary_metadata_plist_by_url url plistf); reflexivity.
Qed.

(** X9.  Whenever [xbps_repository_pool_dictionary_metadata_plist] returns
    nothing, [errno] is [ENOENT]: the error left by a failed lookup and the
    [EINVAL] set when the URL cannot be built are overwritten at [out]. *)
Theorem metadata_plist_failure_is_enoent
    (pool : list repository_pool_index) (pkg plistf : string) (errno : Z) :
  fst (xbps_repository_pool_dictionary_metadata_plist pool pkg plistf errno)
    = None ->
  snd (xbps_repository_pool_dictionary_metadata_plist pool pkg plistf errno)
    = ENOENT.
Proof.
  unfold xbps_repository_pool_dictionary_metadata_plist.
  destruct (xbps_repository_pool_find_pkg pool pkg false false errno)
    as [[d |] e]; [| reflexivity].
  destruct (xbps_path_from_repository_uri d (repository d)) as [en | url];
    [reflexivity |].
  destruct (xbps_dictionary_metadata_plist_by_url url plistf) as [en | p];
    [reflexivity | discriminate].
Qed.

End Metadata_plist_facts.

Lemma metadata_plist_of_first_repository_witness :
  fst (xbps_repository_pool_dictionary_metadata_plist
         (PF := Sample.plist_find (CV := Sample.cmpver_strings))
         (CV := Sample.cmpver_strings)
         (UE := Sample.foo_env Sample.no_fault)
         (PU := Sample.plist_by_url
                  [("B/foo-1.0.xbps", "props.plist", "props of foo-1.0");
                   ("C/foo-2.0.xbps", "props.plist", "props of foo-2.0")])
         ([Sample.Abar] ++ Sample.B1 :: [Sample.C2]) "foo" "props.plist" 0)
  = Some "props of foo-1.0".
Proof.
  apply (metadata_plist_of_first_repository
           (PF := Sample.plist_find (CV := Sample.cmpver_strings))
           (CV := Sample.cmpver_strings)
           (UE := Sample.foo_env Sample.no_fault)
           (PU := Sample.plist_by_url
                    [("B/foo-1.0.xbps", "props.plist", "props of foo-1.0");
                     ("C/foo-2.0.xbps", "props.plist", "props of foo-2.0")])
           [Sample.Abar] [Sample.C2] Sample.B1 "foo" "props.plist"
           (Sample.descr "foo" "1.0" []) "B/foo-1.0.xbps" 0).
  - repeat constructor; exists ENOENT; reflexivity.
  - left. reflexivity.
  - reflexivity.
Defined.

Lemma metadata_plist_failure_is_enoent_witness :
  snd (xbps_repository_pool_dictionary_metadata_plist
         (PF := Sample.plist_find (CV := Sample.cmpver_strings))
         (CV := Sample.cmpver_strings)
         (UE := Sample.foo_env Sample.no_fault)
         (PU := Sample.plist_by_url [])
         [Sample.broken_repo "A" EIO; Sample.B1] "foo" "props.plist" 0)
  = ENOENT.
Proof.
  apply (metadata_plist_failure_is_enoent
           (PF := Sample.plist_find (CV := Sample.cmpver_strings))
           (CV := Sample.cmpver_strings)
           (UE := Sample.foo_env Sample.no_fault)
           (PU := Sample.plist_by_url [])).
  reflexivity.
Defined.

(** * Properties of the unpacker *)

Section Unpack_facts.
Context {UE : Unpack_env}.
Local Open Scope unpack_scope.

(** ** Reasoning about computations *)

Lemma bind_inv {A B : Type} (m : M A) (k : A -> M B) w r w' t :
  bind m k w = (r, w', t) ->
  (exists a w1 t1 t2,
     m w = (Ok a, w1, t1) /\ k a w1 = (r, w', t2) /\ t = t1 ++ t2) \/
  (exists rv, m w = (Out rv, w', t) /\ r = Out rv).
Proof.
  unfold bind. destruct (m w) as [[[a | rv] w1] t1] eqn:Hm.
  - destruct (k a w1) as [[r2 w2] t2] eqn:Hk. intros [= <- <- <-].
    left. exists a, w1, t1, t2. repeat split; assumption || reflexivity.
  - intros [= <- <- <-]. right. exists rv. split; reflexivity.
Qed.

Lemma at_out_inv (m : M Z) w rv w' t :
  at_out m w = (rv, w', t) ->
  m w = (Ok rv, w', t) \/ m w = (Out rv, w', t).
Proof.
  unfold at_out. destruct (m w) as [[[a | a] w1] t1] eqn:Hm;
    intros [= <- <- <-]; auto.
Qed.

Lemma run_inv (g : world -> Z * world * list call) w (r : result Z) w' t :
  run g w = (r, w', t) -> exists rv, r = Ok rv /\ g w = (rv, w', t).
Proof.
  unfold run. destruct (g w) as [[rv w1] t1] eqn:Hg. intros [= <- <- <-].
  exists rv. split; reflexivity.
Qed.

Section Respects.
Context {X : Type} (f : world -> X) (phi : call -> Prop).
Hypothesis f_files : forall x w, f (set_files x w) = f w.
Hypothesis f_dirs : forall x w, f (set_dirs x w) = f w.
Hypothesis f_ar_errno : forall x w, f (set_ar_errno x w) = f w.

Lemma respects_ret {A : Type} (a : A) : respects f phi (ret a).
Proof. intros w r w' t [= <- <- <-]. auto. Qed.

Lemma respects_goto_out {A : Type} (rv : Z) : respects f phi (@goto_out A rv).
Proof. intros w r w' t [= <- <- <-]. auto. Qed.

Lemma respects_bind {A B : Type} (m : M A) (k : A -> M B) :
  respects f phi m -> (forall a, respects f phi (k a)) ->
  respects f phi (bind m k).
Proof.
  intros Hm Hk w r w' t Hrun.
  apply bind_inv in Hrun as [(a & w1 & t1 & t2 & H1 & H2 & ->) | (rv & H1 & ->)].
  - apply Hm in H1 as [E1 F1]. apply Hk in H2 as [E2 F2].
    split; [congruence | apply Forall_app; auto].
  - apply Hm in H1. exact H1.
Qed.

Lemma respects_run (g : world -> Z * world * list call) :
  respects_fn f phi g -> respects f phi (run g).
Proof. intros Hg w r w' t Hrun. apply run_inv in Hrun as (rv & -> & H). eauto. Qed.

Lemma respects_at_out (m : M Z) :
  respects f phi m -> respects_fn f phi (at_out m).
Proof. intros Hm w rv w' t Hrun. apply at_out_inv in Hrun as [H | H]; eauto. Qed.

(** A call that returns a value and changes the world at most in its files,
    directories or archive error number. *)
Ltac one_call :=
  let Hrun := fresh "Hrun" in
  intros ? ? ? ? ? Hrun; cbv beta zeta in Hrun;
  repeat match type of Hrun with
         | context [if ?b then _ else _] => destruct b
         | context [match ?x with _ => _ end] => destruct x
         end;
  injection Hrun as <- <- <-;
  (split;
   [ rewrite ?f_files, ?f_dirs, ?f_ar_errno; reflexivity
   | first [ apply List.Forall_nil
           | apply List.Forall_cons; [assumption | apply List.Forall_nil] ] ]).

Lemma respects_access p : phi (Sys_access p) -> respects f phi (sys_access p).
Proof. unfold sys_access. one_call. Qed.

Lemma respects_mkpath p m : phi (Sys_mkpath p m) -> respects f phi (xbps_mkpath p m).
Proof. unfold xbps_mkpath. one_call. Qed.

Lemma respects_chdir p : phi (Sys_chdir p) -> respects f phi (sys_chdir p).
Proof. unfold sys_chdir. one_call. Qed.

Lemma respects_unlink p : phi (Sys_unlink p) -> respects f phi (sys_unlink p).
Proof. unfold sys_unlink. one_call. Qed.

Lemma respects_rename p q : phi (Sys_rename p q) -> respects f phi (sys_rename p q).
Proof. unfold sys_rename. one_call. Qed.

Lemma respects_next_header s : phi Ar_next_header -> respects f phi (archive_read_next_header s).
Proof. unfold archive_read_next_header. one_call. Qed.

Lemma respects_data_skip e : phi (Ar_data_skip e) -> respects f phi (archive_read_data_skip e).
Proof. unfold archive_read_data_skip. one_call. Qed.

Lemma respects_extract e fl : phi (Ar_extract e fl) -> respects f phi (archive_read_extract e fl).
Proof. unfold archive_read_extract. one_call. Qed.

Lemma respects_archive_errno : respects f phi archive_errno.
Proof. unfold archive_errno. intros w r w' t [= <- <- <-]. auto. Qed.

Lemma respects_file_exec p a n v u c :
  phi (File_exec p a n v u c) -> respects f phi (xbps_file_exec p a n v u c).
Proof. unfold xbps_file_exec. one_call. Qed.

Lemma respects_cb_state st e n v x :
  phi (Cb_state st e n v x) -> respects f phi (xbps_set_cb_state st e n v x).
Proof. unfold xbps_set_cb_state. one_call. Qed.

Lemma respects_get_files : respects f phi get_files.
Proof. intros w r w' t [= <- <- <-]. auto. Qed.

Lemma respects_put_files fs : respects f phi (put_files fs).
Proof. intros w r w' t [= <- <- <-]. auto. Qed.

Lemma respects_internalize e : phi (Ar_internalize e) -> respects f phi (internalize_entry e).
Proof. unfold internalize_entry. one_call. Qed.

Lemma respects_hash_check d k p :
  phi (Hash_check k p) -> respects f phi (xbps_file_hash_check_dictionary d k p).
Proof. unfold xbps_file_hash_check_dictionary. intros H w r w' t [= <- <- <-]. auto. Qed.

Lemma respects_cb_count x b :
  (forall d, phi (Cb_unpack d)) -> respects f phi (unpack_cb_count x b).
Proof. unfold unpack_cb_count. intros H w r w' t [= <- <- <-]. auto. Qed.

End Respects.

(** Goes through a computation built from [bind], tests and the calls
    above; [side] proves that [phi] holds of a call. *)
Ltac respects_with side :=
  let fin := first [assumption | solve [intros; reflexivity] | side] in
  repeat first
    [ apply respects_ret
    | apply respects_goto_out
    | apply respects_archive_errno
    | apply respects_get_files
    | apply respects_put_files; fin
    | apply respects_bind; [| intros ?]
    | apply respects_run
    | apply respects_at_out
    | apply respects_access; fin
    | apply respects_mkpath; fin
    | apply respects_chdir; fin
    | apply respects_unlink; fin
    | apply respects_rename; fin
    | apply respects_next_header; fin
    | apply respects_data_skip; fin
    | apply respects_extract; fin
    | apply respects_file_exec; fin
    | apply respects_cb_state; fin
    | apply respects_internalize; fin
    | apply respects_hash_check; fin
    | apply respects_cb_count; intros ?; fin
    | match goal with
      | |- respects _ _ (if ?b then _ else _) => destruct b
      | |- respects _ _ (match ?x with _ => _ end) => destruct x
      | |- respects_fn _ _ (match ?x with _ => _ end) => destruct x
      end ].

Section Respects_parts.
Context {X : Type} (f : world -> X) (phi : call -> Prop).
Hypothesis f_files : forall x w, f (set_files x w) = f w.
Hypothesis f_dirs : forall x w, f (set_dirs x w) = f w.
Hypothesis f_ar_errno : forall x w, f (set_ar_errno x w) = f w.

Section No_exec_no_unlink.
Hypothesis Hphi : forall c, is_exec c = false -> is_unlink c = false -> phi c.

Ltac plain := respects_with ltac:(apply Hphi; reflexivity).

Lemma respects_extract_metafile e file pkgv exec fl :
  respects_fn f phi (extract_metafile e file pkgv exec fl).
Proof. unfold extract_metafile. plain. Qed.

Lemma respects_metadata_done l : respects f phi (metadata_done l).
Proof. unfold metadata_done. cbn. plain. Qed.

Lemma respects_check_on_disk p d e l : respects f phi (check_on_disk p d e l).
Proof. unfold check_on_disk. plain. Qed.

Lemma respects_handle_conf_file n v u d e c x l :
  respects f phi (handle_conf_file n v u d e c x l).
Proof. unfold handle_conf_file. plain. Qed.

Lemma respects_unpack_data_entry n v u fl p d e l :
  respects f phi (unpack_data_entry n v u fl p d e l).
Proof.
  unfold unpack_data_entry.
  apply respects_bind; [apply respects_check_on_disk |].
  intros [[c x] | l']; [| apply respects_ret].
  apply respects_bind; [apply respects_handle_conf_file |].
  intros [l1 | l1]; plain.
Qed.

Lemma respects_unpack_remove_script pkg fl e l :
  respects f phi (unpack_remove_script pkg fl e l).
Proof.
  unfold unpack_remove_script.
  apply respects_bind;
    [apply respects_run, respects_extract_metafile |].
  intros rv. destruct (negb (rv =? 0));
    [apply respects_goto_out | apply respects_metadata_done].
Qed.

Lemma respects_unpack_files_plist e l : respects f phi (unpack_files_plist e l).
Proof.
  unfold unpack_files_plist.
  apply respects_bind; [plain | intros d; apply respects_metadata_done].
Qed.

Lemma respects_unpack_props_plist pkg fl e l :
  respects f phi (unpack_props_plist pkg fl e l).
Proof.
  unfold unpack_props_plist.
  apply respects_bind;
    [apply respects_run, respects_extract_metafile |].
  intros rv. destruct (negb (rv =? 0)); [apply respects_goto_out |].
  apply respects_bind; [apply respects_get_files |]. intros fs.
  destruct (xbps_dictionary_from_metadata_plist _ _ _);
    [apply respects_goto_out | apply respects_metadata_done].
Qed.

Lemma respects_skip_early_entry pkg e l :
  respects f phi (skip_early_entry pkg e l).
Proof. unfold skip_early_entry. plain. Qed.

Lemma respects_resolve_rootdir xhp pkg : respects f phi (resolve_rootdir xhp pkg).
Proof. unfold resolve_rootdir. plain. Qed.

Lemma respects_finish_unpack pkg u ar l : respects f phi (finish_unpack pkg u ar l).
Proof. unfold finish_unpack. plain. Qed.

End No_exec_no_unlink.

Section No_exec.
Hypothesis Hphi : forall c, is_exec c = false -> phi c.

Lemma respects_remove_metafile file pkgv :
  respects_fn f phi (remove_metafile file pkgv).
Proof.
  unfold remove_metafile. respects_with ltac:(apply Hphi; reflexivity).
Qed.

Lemma respects_remove_old_scripts u pkgv :
  respects f phi (remove_old_scripts u pkgv).
Proof.
  unfold remove_old_scripts. destruct u; [| apply respects_ret].
  apply respects_bind; [apply respects_run, respects_remove_metafile |].
  intros rv. destruct (negb (rv =? 0)); [apply respects_goto_out |].
  apply respects_bind; [apply respects_run, respects_remove_metafile |].
  intros rv'. destruct (negb (rv' =? 0)); [apply respects_goto_out |].
  apply respects_ret.
Qed.

End No_exec.

Section No_unlink.
Hypothesis Hphi : forall c, is_unlink c = false -> phi c.

Lemma respects_unpack_install_script xhp pkg u fl e l :
  respects f phi (unpack_install_script xhp pkg u fl e l).
Proof.
  unfold unpack_install_script.
  apply respects_bind;
    [apply respects_run, respects_extract_metafile; auto |].
  intros rv. destruct (negb (rv =? 0)); [apply respects_goto_out |].
  apply respects_bind; [apply respects_file_exec, Hphi; reflexivity |].
  intros rv'. destruct (negb (rv' =? 0)).
  - respects_with ltac:(apply Hphi; reflexivity).
  - apply respects_metadata_done; auto.
Qed.

Lemma respects_unpack_entry xhp pkg u e l :
  respects f phi (unpack_entry xhp pkg u e l).
Proof.
  unfold unpack_entry.
  destruct (S_ISDIR (ae_filetype e));
    [respects_with ltac:(apply Hphi; reflexivity) |].
  destruct (String.eqb "./INSTALL" (ae_pathname e));
    [apply respects_unpack_install_script |].
  destruct (String.eqb "./REMOVE" (ae_pathname e));
    [apply respects_unpack_remove_script; auto |].
  destruct (String.eqb "./files.plist" (ae_pathname e));
    [apply respects_unpack_files_plist; auto |].
  destruct (String.eqb "./props.plist" (ae_pathname e));
    [apply respects_unpack_props_plist; auto |].
  cbn.
  destruct (l_propsd l); [destruct (l_filesd l) |];
    first [apply respects_unpack_data_entry | apply respects_skip_early_entry];
    auto.
Qed.

Lemma respects_unpack_entries xhp pkg u es :
  forall l, respects f phi (unpack_entries xhp pkg u es l).
Proof.
  induction es as [| e es IH]; intros l; simpl.
  - apply respects_ret.
  - apply respects_bind;
      [apply respects_next_header; [assumption | apply Hphi; reflexivity] |].
    intros _. apply respects_bind; [apply respects_unpack_entry |].
    intros l'. apply IH.
Qed.

End No_unlink.

End Respects_parts.

(** ** A failing [pre] action ends the run *)

Lemma quiet_failed_exec c : quiet c -> failed_exec c -> False.
Proof. intros Hq [He Hf]. apply Hf, Hq, He. Qed.

Lemma quiet_not_exec c : is_exec c = false -> quiet c.
Proof. intros H He. congruence. Qed.

(** A failed script run does not occur among quiet calls. *)
Lemma failed_exec_not_in_quiet t t1 c t2 :
  Forall quiet t -> t = t1 ++ c :: t2 -> failed_exec c -> False.
Proof.
  intros Hq -> Hc. apply List.Forall_app in Hq as [_ Hq].
  inversion Hq; subst. eauto using quiet_failed_exec.
Qed.

(** Where the only failed script run of a trace stands. *)
Lemma failed_exec_unique t0 c0 rest :
  Forall quiet t0 -> Forall quiet rest ->
  forall t1 c t2, t0 ++ c0 :: rest = t1 ++ c :: t2 -> failed_exec c ->
    t1 = t0 /\ c = c0 /\ t2 = rest.
Proof.
  intros Hq0 Hrest. induction Hq0 as [| a t0 Ha Hq0 IH]; intros t1 c t2 E Hc.
  - destruct t1 as [| x t1]; simpl in E; injection E as -> E.
    + subst. auto.
    + exfalso. eapply failed_exec_not_in_quiet; eauto.
  - destruct t1 as [| x t1]; simpl in E; injection E as -> E.
    + exfalso. eauto using quiet_failed_exec.
    + destruct (IH _ _ _ E Hc) as (-> & -> & ->). auto.
Qed.

Section Exec_shape.
Context (name vers : string).

Lemma shape_of_respects {A : Type} (m : M A) :
  respects (fun _ => tt) quiet m -> satisfies (exec_shape name vers) m.
Proof. intros Hm w r w' t Hrun. left. apply (Hm _ _ _ _ Hrun). Qed.

Lemma shape_bind {A B : Type} (m : M A) (k : A -> M B) :
  satisfies (exec_shape name vers) m ->
  (forall a, satisfies (exec_shape name vers) (k a)) ->
  satisfies (exec_shape name vers) (bind m k).
Proof.
  intros Hm Hk w r w' t Hrun.
  apply bind_inv in Hrun as [(a & w1 & t1 & t2 & H1 & H2 & ->) | (rv & H1 & ->)].
  - apply Hm in H1 as [Q1 | (t0 & c & _ & _ & _ & E)]; [| discriminate E].
    apply Hk in H2 as [Q2 | (t0 & c & -> & Q0 & Hc & ->)].
    + left. apply List.Forall_app. auto.
    + right. exists (t1 ++ t0), c. rewrite <- app_assoc.
      repeat split; try apply Hc; auto. apply List.Forall_app. auto.
  - apply Hm in H1 as [Q1 | (t0 & c & -> & Q0 & Hc & E)].
    + left. exact Q1.
    + right. exists t0, c. injection E as ->. auto.
Qed.

End Exec_shape.

(** The calls of these computations are never script runs. *)
Ltac no_exec := intros; apply quiet_not_exec; assumption.

Lemma shape_unpack_install_script xhp pkg u fl e l :
  satisfies (exec_shape (pkgname pkg) (version pkg))
    (unpack_install_script xhp pkg u fl e l).
Proof.
  unfold unpack_install_script. apply shape_bind.
  { apply shape_of_respects, respects_run, respects_extract_metafile;
      auto; no_exec. }
  intros rv. destruct (negb (rv =? 0)).
  { apply shape_of_respects, respects_goto_out. }
  intros w r w' t Hrun.
  apply bind_inv in Hrun as [(a & w1 & t1 & t2 & H1 & H2 & ->) | (x & H1 & _)];
    [| discriminate H1].
  injection H1 as <- <- <-.
  set (c := File_exec _ _ _ _ _ _) in *.
  destruct (negb (fault c =? 0)) eqn:Hc.
  - injection H2 as <- <- <-. right. exists [], c. simpl.
    repeat split; auto. apply negb_true_iff, Z.eqb_neq in Hc. exact Hc.
  - left. apply List.Forall_cons.
    + intros _. apply negb_false_iff, Z.eqb_eq in Hc. exact Hc.
    + apply (respects_metadata_done (fun _ => tt) quiet) in H2;
        [apply H2 | no_exec].
Qed.

Lemma shape_unpack_entry xhp pkg u e l :
  satisfies (exec_shape (pkgname pkg) (version pkg)) (unpack_entry xhp pkg u e l).
Proof.
  unfold unpack_entry.
  destruct (S_ISDIR (ae_filetype e)).
  { apply shape_of_respects.
    respects_with ltac:(apply quiet_not_exec; reflexivity). }
  destruct (String.eqb "./INSTALL" (ae_pathname e));
    [apply shape_unpack_install_script |].
  destruct (String.eqb "./REMOVE" (ae_pathname e));
    [apply shape_of_respects, respects_unpack_remove_script; auto; no_exec |].
  destruct (String.eqb "./files.plist" (ae_pathname e));
    [apply shape_of_respects, respects_unpack_files_plist; auto; no_exec |].
  destruct (String.eqb "./props.plist" (ae_pathname e));
    [apply shape_of_respects, respects_unpack_props_plist; auto; no_exec |].
  cbn.
  destruct (l_propsd l); [destruct (l_filesd l) |]; apply shape_of_respects;
    first [apply respects_unpack_data_entry | apply respects_skip_early_entry];
    auto; no_exec.
Qed.

Lemma shape_unpack_entries xhp pkg u es :
  forall l,
    satisfies (exec_shape (pkgname pkg) (version pkg))
      (unpack_entries xhp pkg u es l).
Proof.
  induction es as [| e es IH]; intros l; simpl.
  - apply shape_of_respects, respects_ret.
  - apply shape_bind.
    { apply shape_of_respects, respects_next_header; auto.
      apply quiet_not_exec; reflexivity. }
    intros _. apply shape_bind; [apply shape_unpack_entry | apply IH].
Qed.

(** The trace of [unpack_archive]: no script run fails, or the trace ends
    with the failed [pre] action and its report, and the exit status is
    returned. *)
Lemma shape_unpack_archive_steps xhp pkg ar :
  satisfies (exec_shape (pkgname pkg) (version pkg))
    (unpack_archive_steps xhp pkg ar).
Proof.
  unfold unpack_archive_steps. apply shape_bind.
  { apply shape_of_respects, respects_resolve_rootdir; auto; no_exec. }
  intros _. apply shape_bind.
  { apply shape_of_respects, respects_remove_old_scripts; auto; no_exec. }
  intros _. apply shape_bind; [apply shape_unpack_entries |].
  intros l. apply shape_of_respects, respects_finish_unpack; auto; no_exec.
Qed.

Lemma shape_unpack_archive xhp pkg ar w rv w' t :
  unpack_archive xhp pkg ar w = (rv, w', t) ->
  Forall quiet t \/
  exists t0 c,
    t = t0 ++ [c; Cb_state XBPS_STATE_UNPACK_FAIL (fault c) (pkgname pkg)
                    (version pkg) "INSTALL"]
    /\ Forall quiet t0 /\ failed_exec c /\ rv = fault c.
Proof.
  intros Hrun. unfold unpack_archive in Hrun.
  apply at_out_inv in Hrun as [H | H];
    apply shape_unpack_archive_steps in H as [Q | (t0 & c & E & Q & Hc & R)];
    auto; right; exists t0, c; repeat split; try apply Hc; auto; congruence.
Qed.

(** [unpack_archive] does not touch the persisted package states. *)
Lemma pkgstate_unpack_archive xhp pkg ar w rv w' t :
  unpack_archive xhp pkg ar w = (rv, w', t) -> w_pkgstate w' = w_pkgstate w.
Proof.
  intros Hrun.
  assert (Hr : respects_fn w_pkgstate (fun _ => True) (unpack_archive xhp pkg ar)).
  { unfold unpack_archive, unpack_archive_steps. apply respects_at_out.
    apply respects_bind; [apply respects_resolve_rootdir; auto |]. intros _.
    apply respects_bind; [apply respects_remove_old_scripts; auto |]. intros _.
    apply respects_bind; [apply respects_unpack_entries; auto |]. intros l.
    apply respects_finish_unpack; auto. }
  apply (Hr _ _ _ _ Hrun).
Qed.

(** ** The run of [xbps_unpack_binary_pkg] *)

(** Splits a run of [xbps_unpack_binary_pkg] along its tests. *)
Ltac split_run H :=
  unfold xbps_unpack_binary_pkg, at_out, bind, xbps_set_cb_state, archive_open,
    xbps_set_pkg_state_installed, run, goto_out, ret in H;
  cbn beta iota zeta in H;
  repeat (
    change (negb (0 =? 0)) with false in H; cbn beta iota zeta in H;
    match type of H with
    | context [match xbps_path_from_repository_uri ?a ?b with _ => _ end] =>
        let E := fresh "Epath" in
        destruct (xbps_path_from_repository_uri a b) eqn:E
    | context [match archive_read_open_filename ?a with _ => _ end] =>
        let E := fresh "Eopen" in
        destruct (archive_read_open_filename a) eqn:E
    | context [match unpack_archive ?a ?b ?c ?d with _ => _ end] =>
        let E := fresh "Eunpack" in
        destruct (unpack_archive a b c d) as [[? ?] ?] eqn:E
    | context [if negb (?x =? 0) then _ else _] =>
        destruct (Z.eqb_spec x 0); cbn [negb] in H
    end);
  cbn beta iota zeta in H;
  injection H as <- <- <-.

(** C4.  When a run of [xbps_unpack_binary_pkg] contains a script run that
    exits with a non-zero status (the [pre] action of [./INSTALL] is the
    only script run), the run returns that status, the persisted state of
    the package is [half-unpacked], and nothing follows the script run in
    the trace but the two reports of the failure: no further entry of the
    archive is read, skipped or extracted. *)
Theorem C4_failed_pre_action_aborts xhp pkg w rv w' t t1 c t2 :
  xbps_unpack_binary_pkg xhp pkg w = (rv, w', t) ->
  t = t1 ++ c :: t2 ->
  failed_exec c ->
  rv = fault c /\
  w_pkgstate w' !! pkgname pkg
    = Some (version pkg, pkgver pkg, XBPS_PKG_STATE_HALF_UNPACKED) /\
  t2 = [Cb_state XBPS_STATE_UNPACK_FAIL (fault c) (pkgname pkg) (version pkg)
          "INSTALL";
        Cb_state XBPS_STATE_UNPACK_FAIL (fault c) (pkgname pkg) (version pkg)
          "archive"].
Proof.
  intros Hrun Ht Hc. split_run Hrun.
  all: try (exfalso; eapply failed_exec_not_in_quiet; [| exact Ht | exact Hc];
            repeat (apply List.Forall_cons; [apply quiet_not_exec; reflexivity |]);
            apply List.Forall_nil).
  all: pose proof (pkgstate_unpack_archive _ _ _ _ _ _ _ Eunpack) as Hst;
    apply shape_unpack_archive in Eunpack
      as [Q | (t0 & c' & -> & Q0 & Hc' & ->)].
  all: try (exfalso; eapply failed_exec_not_in_quiet; [| exact Ht | exact Hc];
            repeat (apply List.Forall_cons; [apply quiet_not_exec; reflexivity |]);
            apply List.Forall_app; split; [exact Q |];
            repeat (apply List.Forall_cons; [apply quiet_not_exec; reflexivity |]);
            apply List.Forall_nil).
  all: try (exfalso; destruct Hc' as [_ Hf]; congruence).
  rewrite <- app_assoc in Ht. simpl in Ht.
  rewrite !app_comm_cons in Ht.
  apply failed_exec_unique in Ht as (-> & -> & ->); auto.
  - repeat split. rewrite Hst. cbn. apply lookup_insert_eq.
  - repeat (apply List.Forall_cons; [apply quiet_not_exec; reflexivity |]).
    exact Q0.
  - repeat (apply List.Forall_cons; [apply quiet_not_exec; reflexivity |]).
    apply List.Forall_nil.
Qed.


(** ** The order of the first steps *)

Lemma precedes_none (P Q : call -> Prop) t :
  Forall (fun c => ~ Q c) t -> precedes P Q t.
Proof.
  intros Hn t1 c t2 -> Hq. apply List.Forall_app in Hn as [_ Hn].
  inversion Hn; subst. contradiction.
Qed.

(** A prefix without [Q]-calls is a prefix of whatever stands before a
    [Q]-call. *)
Lemma prefix_before (Q : call -> Prop) pre :
  Forall (fun c => ~ Q c) pre ->
  forall rest t1 c t2, pre ++ rest = t1 ++ c :: t2 -> Q c ->
    exists t1', t1 = pre ++ t1' /\ rest = t1' ++ c :: t2.
Proof.
  induction 1 as [| a pre Ha Hpre IH]; intros rest t1 c t2 E Hq; simpl in E.
  - exists t1. auto.
  - destruct t1 as [| x t1]; simpl in E; injection E as -> E.
    + contradiction.
    + destruct (IH _ _ _ _ E Hq) as (t1' & -> & ->). exists t1'. auto.
Qed.

Lemma precedes_after_prefix (P Q : call -> Prop) pre rest :
  Forall (fun c => ~ Q c) pre -> Exists P pre -> precedes P Q (pre ++ rest).
Proof.
  intros Hn Hex t1 c t2 E Hq.
  destruct (prefix_before Q pre Hn _ _ _ _ E Hq) as (t1' & -> & _).
  apply List.Exists_exists in Hex as (c0 & Hin & Hp).
  exists c0. split; [apply in_or_app; auto | exact Hp].
Qed.

Lemma precedes_frame (P Q : call -> Prop) pre l tail :
  precedes P Q l ->
  Forall (fun c => ~ Q c) pre -> Forall (fun c => ~ Q c) tail ->
  precedes P Q (pre ++ l ++ tail).
Proof.
  intros Hl Hpre Htail t1 c t2 E Hq.
  destruct (prefix_before Q pre Hpre _ _ _ _ E Hq) as (t1' & -> & E').
  apply app_eq_app in E' as (k & [[-> Ek] | [-> Ek]]).
  - destruct k as [| x k]; simpl in Ek.
    + exfalso. rewrite <- Ek in Htail. inversion Htail; subst. contradiction.
    + injection Ek as <- ->.
      destruct (Hl t1' c k eq_refl Hq) as (c0 & Hin & Hp).
      exists c0. split; [apply in_or_app; auto | exact Hp].
  - exfalso. rewrite Ek in Htail. apply List.Forall_app in Htail as [_ Htail].
    inversion Htail; subst. contradiction.
Qed.

(** A run of [resolve_rootdir] that goes on has entered the root
    directory. *)
Lemma resolve_rootdir_ok xhp pkg w a w' t :
  resolve_rootdir xhp pkg w = (Ok a, w', t) -> In (Sys_chdir (rootdir xhp)) t.
Proof.
  unfold resolve_rootdir, bind, sys_access, xbps_mkpath, sys_chdir,
    xbps_set_cb_state, goto_out, ret.
  cbn beta iota zeta.
  repeat match goal with
         | |- context [if ?b then _ else _] => destruct b; cbn beta iota zeta
         end;
    intros [= <- <- <-]; simpl; auto.
Qed.

(** Whatever follows [resolve_rootdir], a removal comes after the root
    directory has been entered. *)
Lemma unlink_after_resolve {B : Type} xhp pkg (k : unit -> M B) w r w' t :
  bind (resolve_rootdir xhp pkg) k w = (r, w', t) ->
  precedes (fun c => c = Sys_chdir (rootdir xhp))
           (fun c => is_unlink c = true) t.
Proof.
  intros Hbind.
  assert (Hr : forall w r w' t,
             resolve_rootdir xhp pkg w = (r, w', t) ->
             Forall (fun c => ~ is_unlink c = true) t).
  { intros w0 r0 w0' t0 H0.
    apply (respects_resolve_rootdir (fun _ => tt)
             (fun c => ~ is_unlink c = true)) in H0; auto; try apply H0.
    intros c _ E. rewrite E. discriminate. }
  apply bind_inv in Hbind
    as [(a & w1 & ta & tb & H1 & _ & ->) | (x & H1 & _)].
  - apply precedes_after_prefix; [eapply Hr; eauto |].
    apply List.Exists_exists. exists (Sys_chdir (rootdir xhp)).
    split; [eapply resolve_rootdir_ok; eauto | reflexivity].
  - apply precedes_none. eapply Hr; eauto.
Qed.

(** In [unpack_archive], the scripts are removed after the root directory
    has been entered. *)
Lemma unlink_after_chdir xhp pkg ar w rv w' t :
  unpack_archive xhp pkg ar w = (rv, w', t) ->
  precedes (fun c => c = Sys_chdir (rootdir xhp))
           (fun c => is_unlink c = true) t.
Proof.
  intros Hrun. unfold unpack_archive, unpack_archive_steps in Hrun.
  apply at_out_inv in Hrun as [H | H]; eapply unlink_after_resolve; exact H.
Qed.

(** C9, amended.  In every run of [xbps_unpack_binary_pkg] the half-unpacked
    state is written first: every call that touches the filesystem of the
    root directory (its lookup, its creation, entering it, the removal of
    the old scripts) comes after the write of the half-unpacked state, which
    went through; and the old scripts are removed only after the root
    directory has been entered. *)
Theorem C9_state_then_root_then_scripts xhp pkg w :
  precedes (half_unpacked_written pkg) (fun c => is_sys c = true)
    (snd (xbps_unpack_binary_pkg xhp pkg w)) /\
  precedes (fun c => c = Sys_chdir (rootdir xhp)) (fun c => is_unlink c = true)
    (snd (xbps_unpack_binary_pkg xhp pkg w)).
Proof.
  destruct (xbps_unpack_binary_pkg xhp pkg w) as [[rv w'] t] eqn:Hrun.
  simpl. split_run Hrun.
  all: try (split; apply precedes_none;
            repeat (apply List.Forall_cons; [discriminate |]);
            apply List.Forall_nil).
  all: split;
    [ rewrite !app_comm_cons;
      apply (precedes_after_prefix _ _ [_; _; _]);
      [ repeat (apply List.Forall_cons; [discriminate |]); apply List.Forall_nil
      | apply List.Exists_cons_tl, List.Exists_cons_tl, List.Exists_cons_hd;
        split; [reflexivity | assumption] ]
    | apply (precedes_frame _ _ [_; _; _]);
      [ eapply unlink_after_chdir; eassumption
      | repeat (apply List.Forall_cons; [discriminate |]); apply List.Forall_nil
      | repeat (apply List.Forall_cons; [discriminate |]); apply List.Forall_nil ] ].
Qed.

(** ** Entries met before both manifests are known *)



(** ** Data files *)

(** The loop body on a data file once both manifests are known. *)
Lemma unpack_entry_data xhp pkg u e l p d :
  data_file_entry e = true ->
  l_propsd l = Some p -> l_filesd l = Some d ->
  unpack_entry xhp pkg u e l =
    unpack_data_entry (pkgname pkg) (version pkg) u set_extract_flags p d e
      (set_xucd (xucd_prepare e <$> l_xucd l) l).
Proof.
  unfold data_file_entry. rewrite !andb_true_iff, !negb_true_iff.
  intros ((((Hd & Hi) & Hr) & Hf) & Hpr) Hp Hfd.
  unfold unpack_entry. rewrite Hd, Hi, Hr, Hf, Hpr.
  cbn [l_propsd l_filesd set_xucd]. rewrite Hp, Hfd. reflexivity.
Qed.

(** C8.  While updating, a regular data file that is on disk already, with
    the digest that the manifest records for its path, is not extracted:
    the loop body checks the file, skips the data of the entry and leaves
    the world as it was. *)
Theorem C8_unchanged_file_is_skipped xhp pkg e l w p d content :
  data_file_entry e = true ->
  ae_filetype e = S_IFREG ->
  l_propsd l = Some p -> l_filesd l = Some d ->
  w_files w !! ae_pathname e = Some content ->
  fault (Sys_access (ae_pathname e)) = 0 ->
  fault (Hash_check
           (if xbps_entry_is_a_conf_file p (ae_pathname e)
            then "conf_files" else "files") (ae_pathname e)) = 0 ->
  recorded_digest d
    (if xbps_entry_is_a_conf_file p (ae_pathname e)
     then "conf_files" else "files") (ae_pathname e)
    = Some (compute_digest content) ->
  exists l',
    unpack_entry xhp pkg true e l w =
      (Ok l', w,
       [Sys_access (ae_pathname e);
        Hash_check
          (if xbps_entry_is_a_conf_file p (ae_pathname e)
           then "conf_files" else "files") (ae_pathname e);
        Ar_data_skip e]).
Proof.
  intros He Hreg Hp Hd Hfile Hacc Hhash Hdig.
  rewrite (unpack_entry_data xhp pkg true e l p d He Hp Hd).
  unfold unpack_data_entry, check_on_disk. rewrite Hreg. cbn [S_ISREG].
  unfold bind, sys_access, path_exists, xbps_file_hash_check_dictionary,
    archive_read_data_skip, ret.
  rewrite Hacc, Hfile, Hhash, Hdig. cbn. rewrite Hfile, String.eqb_refl. cbn.
  eexists. reflexivity.
Qed.

Lemma append_old_ne (s : string) : s <> s +:+ ".old".
Proof.
  induction s as [| a s IH]; intros H.
  - discriminate H.
  - injection H as H. exact (IH H).
Qed.

(** A configuration file on disk whose digest is not the recorded one, while
    installing: it is renamed, the entry is extracted and the notice is
    given. *)
Lemma modified_conf_file_run xhp pkg e l w p d content :
  data_file_entry e = true ->
  ae_filetype e = S_IFREG ->
  l_propsd l = Some p -> l_filesd l = Some d ->
  xbps_entry_is_a_conf_file p (ae_pathname e) = true ->
  w_files w !! ae_pathname e = Some content ->
  recorded_digest d "conf_files" (ae_pathname e)
    <> Some (compute_digest content) ->
  fault (Sys_access (ae_pathname e)) = 0 ->
  fault (Hash_check "conf_files" (ae_pathname e)) = 0 ->
  fault (Sys_rename (ae_pathname e) (ae_pathname e +:+ ".old")) = 0 ->
  fault (Ar_extract e set_extract_flags) = 0 ->
  exists l' w' t,
    unpack_entry xhp pkg false e l w = (Ok l', w', t) /\
    w_files w' !! (ae_pathname e +:+ ".old") = Some content /\
    w_files w' !! ae_pathname e = Some (ae_data e) /\
    In (Cb_state XBPS_STATE_CONFIG_FILE 0 (pkgname pkg) (version pkg)
          (ae_pathname e)) t.
Proof.
  intros He Hreg Hp Hd Hconf Hfile Hdig Hacc Hhash Hren Hext.
  rewrite (unpack_entry_data xhp pkg false e l p d He Hp Hd).
  unfold unpack_data_entry, check_on_disk. rewrite Hreg, Hconf. cbn [S_ISREG].
  unfold bind at 1. unfold bind at 1.
  unfold sys_access, path_exists. rewrite Hacc, Hfile. cbn.
  unfold xbps_file_hash_check_dictionary. rewrite Hhash, Hfile. cbn.
  assert (Hrv : match recorded_digest d "conf_files" (ae_pathname e) with
                | Some dg => if String.eqb (compute_digest content) dg then 0 else 1
                | None => 1
                end = 1).
  { destruct (recorded_digest d "conf_files" (ae_pathname e)) as [dg |];
      [| reflexivity].
    destruct (String.eqb_spec (compute_digest content) dg);
      [congruence | reflexivity]. }
  rewrite Hrv. cbn.
  unfold handle_conf_file, bind, sys_rename, xbps_set_cb_state,
    archive_read_extract, ret. cbn.
  rewrite Hren, Hfile, Hext. cbn.
  destruct (l_xucd (set_total d (set_xucd (xucd_prepare e <$> l_xucd l) l)));
    cbn; do 3 eexists; (split; [reflexivity |]); cbn;
    (split; [| split; [apply lookup_insert_eq | auto 10]]);
    (rewrite lookup_insert_ne by apply append_old_ne);
    apply lookup_insert_eq.
Qed.

(** C3, amended.  While installing (not updating), a configuration file
    that is on disk already with a digest other than the one the manifest
    records for its path is renamed to [<path>.old], the entry is extracted
    at [<path>], and the notice [XBPS_STATE_CONFIG_FILE] is given, provided
    that the check, the renaming and the extraction go through. *)
Theorem C3_modified_conf_file_is_kept_as_old xhp pkg e l w p d :
  data_file_entry e = true ->
  ae_filetype e = S_IFREG ->
  l_propsd l = Some p -> l_filesd l = Some d ->
  xbps_entry_is_a_conf_file p (ae_pathname e) = true ->
  (forall content, w_files w !! ae_pathname e = Some content ->
     recorded_digest d "conf_files" (ae_pathname e)
       <> Some (compute_digest content)) ->
  fault (Sys_access (ae_pathname e)) = 0 ->
  fault (Hash_check "conf_files" (ae_pathname e)) = 0 ->
  fault (Sys_rename (ae_pathname e) (ae_pathname e +:+ ".old")) = 0 ->
  fault (Ar_extract e set_extract_flags) = 0 ->
  conf_file_kept_as_old xhp pkg e l w.
Proof.
  intros He Hreg Hp Hd Hconf Hdig Hacc Hhash Hren Hext content Hfile.
  eapply modified_conf_file_run; eauto.
Qed.

(** ** A failed extraction *)

Lemma no_extract_check_on_disk p d e l :
  respects (fun _ => tt) (fun c => is_extract c = false) (check_on_disk p d e l).
Proof. unfold check_on_disk. respects_with ltac:(reflexivity). Qed.

Lemma no_extract_handle_conf_file n v u d e c x l :
  respects (fun _ => tt) (fun c => is_extract c = false)
    (handle_conf_file n v u d e c x l).
Proof. unfold handle_conf_file. respects_with ltac:(reflexivity). Qed.

Lemma no_extract_here (t : list call) :
  Forall (fun c => is_extract c = false) t ->
  Exists (fun c => is_extract c = true) t -> False.
Proof.
  intros Hall Hex. apply List.Exists_exists in Hex as (c & Hin & Hc).
  rewrite List.Forall_forall in Hall. specialize (Hall c Hin). congruence.
Qed.

(** The body of the loop never leaves for [out] once it has tried to
    extract a data file: whether the extraction went through or not, the
    loop goes on with the next entry. *)
Lemma extraction_is_not_an_exit n v u fl p d e l w r w' t :
  unpack_data_entry n v u fl p d e l w = (r, w', t) ->
  Exists (fun c => is_extract c = true) t ->
  exists l', r = Ok l'.
Proof.
  intros Hrun Hex. unfold unpack_data_entry in Hrun.
  apply bind_inv in Hrun as [(c & w1 & t1 & t2 & H1 & H2 & ->) | (rv & H1 & ->)].
  - destruct c as [[cf fe] | l1]; [| injection H2 as <- _ _; eauto].
    apply bind_inv in H2 as [(c2 & w2 & t3 & t4 & H3 & H4 & ->) | (rv & H3 & ->)].
    + destruct c2 as [l2 | l2]; [| injection H4 as <- _ _; eauto].
      revert H4.
      unfold bind, archive_read_extract, xbps_set_cb_state, unpack_cb_count, ret.
      repeat match goal with
             | |- context [if ?b then _ else _] => destruct b; cbn beta iota zeta
             | |- context [match l_xucd ?x with _ => _ end] =>
                 destruct (l_xucd x); cbn beta iota zeta
             end; intros [= <- _ _]; eauto.
    + exfalso. apply no_extract_check_on_disk in H1 as [_ F1].
      apply no_extract_handle_conf_file in H3 as [_ F3].
      apply (no_extract_here (t1 ++ t2)); [apply List.Forall_app |]; auto.
  - exfalso. apply no_extract_check_on_disk in H1 as [_ F1].
    eapply no_extract_here; eauto.
Qed.

(** ** What a run reports and records *)


(** The persisted states after a run: untouched, or with the package
    half-unpacked, or, the run having returned 0, with the package
    unpacked. *)
Lemma pkgstate_of_run xhp pkg w rv w' t :
  xbps_unpack_binary_pkg xhp pkg w = (rv, w', t) ->
  w_pkgstate w' = w_pkgstate w \/
  w_pkgstate w'
    = <[pkgname pkg := (version pkg, pkgver pkg, XBPS_PKG_STATE_HALF_UNPACKED)]>
        (w_pkgstate w) \/
  (rv = 0 /\
   w_pkgstate w'
     = <[pkgname pkg := (version pkg, pkgver pkg, XBPS_PKG_STATE_UNPACKED)]>
         (w_pkgstate w)).
Proof.
  intros Hrun. split_run Hrun; auto.
  all: apply pkgstate_unpack_archive in Eunpack; cbn in Eunpack |- *;
    rewrite ?Eunpack; auto.
  right. right. split; [reflexivity |]. apply insert_insert_eq.
Qed.

(** X11.  After a run that returns a non-zero value, the persisted state of
    the package is what it was before, or [half-unpacked]: a failed run
    never leaves the package [unpacked]. *)
Theorem failed_unpack_is_never_unpacked xhp pkg w rv w' t :
  xbps_unpack_binary_pkg xhp pkg w = (rv, w', t) ->
  rv <> 0 ->
  w_pkgstate w' !! pkgname pkg = w_pkgstate w !! pkgname pkg \/
  w_pkgstate w' !! pkgname pkg
    = Some (version pkg, pkgver pkg, XBPS_PKG_STATE_HALF_UNPACKED).
Proof.
  intros Hrun Hrv.
  destruct (pkgstate_of_run _ _ _ _ _ _ Hrun) as [-> | [-> | [H0 _]]].
  - left. reflexivity.
  - right. apply lookup_insert_eq.
  - contradiction.
Qed.

(** X12.  A run of [xbps_unpack_binary_pkg] leaves the persisted states of
    all the other packages as they were. *)
Theorem unpack_leaves_other_packages xhp pkg w name :
  name <> pkgname pkg ->
  w_pkgstate (snd (fst (xbps_unpack_binary_pkg xhp pkg w))) !! name
  = w_pkgstate w !! name.
Proof.
  intros Hname.
  destruct (xbps_unpack_binary_pkg xhp pkg w) as [[rv w'] t] eqn:Hrun.
  destruct (pkgstate_of_run _ _ _ _ _ _ Hrun) as [E | [E | [_ E]]];
    cbn [fst snd]; rewrite E; try reflexivity; apply lookup_insert_ne;
    congruence.
Qed.

(** X13.  When the [half-unpacked] state cannot be written, the run ends
    there: the error is reported and returned, no entry of the archive is
    read, and no file or directory is looked up or changed. *)
Theorem failed_half_unpacked_write_aborts xhp pkg w bpkg ar e :
  xbps_path_from_repository_uri pkg (repository pkg) = inr bpkg ->
  archive_read_open_filename bpkg = inr ar ->
  fault (Set_pkg_state (pkgname pkg) (version pkg) (pkgver pkg)
           XBPS_PKG_STATE_HALF_UNPACKED) = e ->
  e <> 0 ->
  xbps_unpack_binary_pkg xhp pkg w
  = (e, set_ar_errno 0 w,
     [Cb_state XBPS_STATE_UNPACK 0 (pkgname pkg) (version pkg) EmptyString;
      Ar_open bpkg;
      Set_pkg_state (pkgname pkg) (version pkg) (pkgver pkg)
        XBPS_PKG_STATE_HALF_UNPACKED;
      Cb_state XBPS_STATE_UNPACK_FAIL e (pkgname pkg) (version pkg)
        "half-unpacked"]).
Proof.
  intros Hpath Hopen He Hne.
  unfold xbps_unpack_binary_pkg, at_out, bind, xbps_set_cb_state, archive_open,
    xbps_set_pkg_state_installed, goto_out.
  rewrite Hpath. cbn beta iota zeta. rewrite Hopen. cbn beta iota zeta.
  rewrite He. apply Z.eqb_neq in Hne. rewrite Hne. cbn beta iota zeta delta [negb].
  rewrite Hne. reflexivity.
Qed.

(** ** What an installation never does *)

Lemma no_unlink_unpack_archive xhp pkg ar :
  String.eqb (transaction pkg) "update" = false ->
  respects_fn (fun _ => tt) (fun c => is_unlink c = false)
    (unpack_archive xhp pkg ar).
Proof.
  intros Hinstall. unfold unpack_archive, unpack_archive_steps.
  rewrite Hinstall. apply respects_at_out.
  apply respects_bind; [apply respects_resolve_rootdir; auto |]. intros _.
  apply respects_bind; [apply respects_ret |]. intros _.
  apply respects_bind; [apply respects_unpack_entries; auto |]. intros l.
  apply respects_finish_unpack; auto.
Qed.

(** X14.  When the transaction is not an update, a run makes no call of
    [unlink]. *)
Theorem install_never_unlinks xhp pkg w :
  transaction pkg <> "update" ->
  Forall (fun c => is_unlink c = false)
    (snd (xbps_unpack_binary_pkg xhp pkg w)).
Proof.
  intros Hinstall. apply String.eqb_neq in Hinstall.
  destruct (xbps_unpack_binary_pkg xhp pkg w) as [[rv w'] t] eqn:Hrun.
  cbn [snd]. split_run Hrun.
  all: try (apply (no_unlink_unpack_archive _ _ _ Hinstall) in Eunpack
              as [_ Hin]).
  all: repeat (apply List.Forall_cons; [reflexivity |]);
    try apply List.Forall_nil.
  all: apply List.Forall_app; split; [exact Hin |];
    repeat (apply List.Forall_cons; [reflexivity |]); apply List.Forall_nil.
Qed.

(** ** The flags of the extractions *)

Section Extract_flags.
Variable fl : extract_flags.

Ltac flagged := respects_with ltac:(first [exact I | reflexivity]).

Lemma flags_extract_metafile e file pkgv exec :
  respects_fn (fun _ => tt) (extracts_with fl)
    (extract_metafile e file pkgv exec fl).
Proof. unfold extract_metafile. flagged. Qed.

Lemma flags_metadata_done l :
  respects (fun _ => tt) (extracts_with fl) (metadata_done l).
Proof. unfold metadata_done. cbn. flagged. Qed.

Lemma flags_unpack_data_entry n v u p d e l :
  respects (fun _ => tt) (extracts_with fl) (unpack_data_entry n v u fl p d e l).
Proof.
  unfold unpack_data_entry.
  apply respects_bind; [unfold check_on_disk; flagged |].
  intros [[c x] | l']; [| apply respects_ret].
  apply respects_bind; [unfold handle_conf_file; flagged |].
  intros [l1 | l1]; flagged.
Qed.

Lemma flags_unpack_install_script xhp pkg u e l :
  respects (fun _ => tt) (extracts_with fl)
    (unpack_install_script xhp pkg u fl e l).
Proof.
  unfold unpack_install_script.
  apply respects_bind; [apply respects_run, flags_extract_metafile |].
  intros rv. destruct (negb (rv =? 0)); [apply respects_goto_out |].
  apply respects_bind; [apply respects_file_exec; exact I |].
  intros rv'. destruct (negb (rv' =? 0)); [flagged |].
  apply flags_metadata_done.
Qed.

Lemma flags_unpack_remove_script pkg e l :
  respects (fun _ => tt) (extracts_with fl) (unpack_remove_script pkg fl e l).
Proof.
  unfold unpack_remove_script.
  apply respects_bind; [apply respects_run, flags_extract_metafile |].
  intros rv. destruct (negb (rv =? 0));
    [apply respects_goto_out | apply flags_metadata_done].
Qed.

Lemma flags_unpack_files_plist e l :
  respects (fun _ => tt) (extracts_with fl) (unpack_files_plist e l).
Proof.
  unfold unpack_files_plist.
  apply respects_bind; [flagged | intros d; apply flags_metadata_done].
Qed.

Lemma flags_unpack_props_plist pkg e l :
  respects (fun _ => tt) (extracts_with fl) (unpack_props_plist pkg fl e l).
Proof.
  unfold unpack_props_plist.
  apply respects_bind; [apply respects_run, flags_extract_metafile |].
  intros rv. destruct (negb (rv =? 0)); [apply respects_goto_out |].
  apply respects_bind; [apply respects_get_files |]. intros fs.
  destruct (xbps_dictionary_from_metadata_plist _ _ _);
    [apply respects_goto_out | apply flags_metadata_done].
Qed.

End Extract_flags.

Lemma flags_unpack_entry xhp pkg u e l :
  respects (fun _ => tt) (extracts_with set_extract_flags)
    (unpack_entry xhp pkg u e l).
Proof.
  unfold unpack_entry.
  destruct (S_ISDIR (ae_filetype e));
    [respects_with ltac:(exact I) |].
  destruct (String.eqb "./INSTALL" (ae_pathname e));
    [apply flags_unpack_install_script |].
  destruct (String.eqb "./REMOVE" (ae_pathname e));
    [apply flags_unpack_remove_script |].
  destruct (String.eqb "./files.plist" (ae_pathname e));
    [apply flags_unpack_files_plist |].
  destruct (String.eqb "./props.plist" (ae_pathname e));
    [apply flags_unpack_props_plist |].
  cbn.
  destruct (l_propsd l); [destruct (l_filesd l) |];
    first [ apply flags_unpack_data_entry
          | unfold skip_early_entry; respects_with ltac:(exact I) ].
Qed.

Lemma flags_unpack_entries xhp pkg u es :
  forall l,
    respects (fun _ => tt) (extracts_with set_extract_flags)
      (unpack_entries xhp pkg u es l).
Proof.
  induction es as [| e es IH]; intros l; simpl.
  - apply respects_ret.
  - apply respects_bind; [apply respects_next_header; [reflexivity | exact I] |].
    intros _. apply respects_bind; [apply flags_unpack_entry |].
    intros l'. apply IH.
Qed.

Lemma flags_unpack_archive xhp pkg ar :
  respects_fn (fun _ => tt) (extracts_with set_extract_flags)
    (unpack_archive xhp pkg ar).
Proof.
  unfold unpack_archive, unpack_archive_steps. apply respects_at_out.
  apply respects_bind;
    [unfold resolve_rootdir; respects_with ltac:(exact I) |]. intros _.
  apply respects_bind.
  { unfold remove_old_scripts, remove_metafile.
    respects_with ltac:(exact I). }
  intros _.
  apply respects_bind; [apply flags_unpack_entries |]. intros l.
  unfold finish_unpack. respects_with ltac:(exact I).
Qed.

(** X15.  Every extraction of a run, of a metadata file or of a data file,
    is made with the flags of [set_extract_flags]: [FEXTRACT_FLAGS] for the
    superuser, [EXTRACT_FLAGS] for any other user. *)
Theorem extraction_flags_follow_euid xhp pkg w :
  Forall (extracts_with
            (if geteuid =? 0 then FEXTRACT_FLAGS else EXTRACT_FLAGS))
    (snd (xbps_unpack_binary_pkg xhp pkg w)).
Proof.
  change (if geteuid =? 0 then FEXTRACT_FLAGS else EXTRACT_FLAGS)
    with set_extract_flags.
  destruct (xbps_unpack_binary_pkg xhp pkg w) as [[rv w'] t] eqn:Hrun.
  cbn [snd]. split_run Hrun.
  all: try (apply flags_unpack_archive in Eunpack as [_ Hin]).
  all: repeat (apply List.Forall_cons; [exact I |]);
    try apply List.Forall_nil.
  all: apply List.Forall_app; split; [exact Hin |];
    repeat (apply List.Forall_cons; [exact I |]); apply List.Forall_nil.
Qed.

(** ** The counts handed to the progress callback *)

Lemma cb_counts_app t1 t2 : cb_counts (t1 ++ t2) = cb_counts t1 ++ cb_counts t2.
Proof.
  induction t1 as [| c t1 IH]; [reflexivity |].
  destruct c; simpl; rewrite ?IH; reflexivity.
Qed.

Lemma cb_counts_none t :
  Forall (fun c => is_cb_unpack c = false) t -> cb_counts t = [].
Proof.
  induction 1 as [| c t Hc Ht IH]; [reflexivity |].
  destruct c; simpl; auto; discriminate Hc.
Qed.

Lemma count_from_app k n1 n2 :
  count_from k (n1 + n2) = count_from k n1 ++ count_from (k + Z.of_nat n1) n2.
Proof.
  revert k. induction n1 as [| n1 IH]; intros k.
  - simpl. rewrite Z.add_0_r. reflexivity.
  - cbn [count_from Nat.add app]. rewrite IH. do 3 f_equal. lia.
Qed.

Ltac silently := respects_with ltac:(reflexivity).

Lemma counts_ret l : counts_ok (xcount l) (ret l).
Proof.
  intros w r w' t [= <- <- <-]. exists 0%nat. split; [lia |]. split.
  - destruct (xcount l); reflexivity.
  - intros l' [= <-]. destruct (xcount l) as [k |]; simpl; [| reflexivity].
    rewrite Z.add_0_r. reflexivity.
Qed.

Lemma counts_goto_out k rv : counts_ok k (goto_out rv).
Proof.
  intros w r w' t [= <- <- <-]. exists 0%nat. split; [lia |]. split.
  - destruct k; reflexivity.
  - intros l' H. discriminate H.
Qed.

Lemma counts_bind {A : Type} k (m : M A) (f : A -> M locals) :
  silent m -> (forall a, counts_ok k (f a)) -> counts_ok k (bind m f).
Proof.
  intros Hm Hf w r w' t Hrun.
  apply bind_inv in Hrun as [(a & w1 & t1 & t2 & H1 & H2 & ->) | (rv & H1 & ->)].
  - apply Hm in H1 as [_ F1]. apply Hf in H2 as (n & Hn & Hc & Hl).
    exists n. rewrite cb_counts_app, (cb_counts_none _ F1). auto.
  - apply Hm in H1 as [_ F1]. exists 0%nat. split; [lia |].
    rewrite (cb_counts_none _ F1). split; [destruct k; reflexivity |].
    intros l' H. discriminate H.
Qed.

(** The count goes up by one with the call of the progress callback. *)
Lemma counts_cb l (meta : bool) :
  counts_ok (xcount l)
    (match l_xucd l with
     | Some x => bind (unpack_cb_count x meta)
                   (fun x => ret (set_xucd (Some x) l))
     | None => ret l
     end).
Proof.
  unfold xcount. destruct (l_xucd l) as [x |] eqn:Hx.
  - intros w r w' t [= <- <- <-]. exists 1%nat. split; [lia |].
    split; [reflexivity |]. intros l' [= <-]. reflexivity.
  - intros w r w' t [= <- <- <-]. exists 0%nat. split; [lia |].
    split; [reflexivity |]. intros l' [= <-]. unfold xcount. rewrite Hx.
    reflexivity.
Qed.

Lemma counts_metadata_done l : counts_ok (xcount l) (metadata_done l).
Proof.
  unfold metadata_done. cbn [l_xucd].
  intros w r w' t Hrun.
  destruct (l_xucd l) as [x |] eqn:Hx; unfold xcount; rewrite Hx;
    injection Hrun as <- <- <-.
  - exists 1%nat. split; [lia |]. split; [reflexivity |].
    intros l' [= <-]. reflexivity.
  - exists 0%nat. split; [lia |]. split; [reflexivity |].
    intros l' [= <-]. reflexivity.
Qed.

Lemma silent_extract_metafile e file pkgv exec fl :
  silent (run (extract_metafile e file pkgv exec fl)).
Proof. unfold silent, extract_metafile. silently. Qed.

Lemma xcount_set_total d l : xcount (set_total d l) = xcount l.
Proof.
  unfold xcount, set_total.
  destruct (l_xucd l) eqn:Hx; cbn; rewrite ?Hx; reflexivity.
Qed.

Lemma xcount_set_is_conf l : xcount (set_is_conf l) = xcount l.
Proof.
  unfold xcount, set_is_conf.
  destruct (l_xucd l) eqn:Hx; cbn; rewrite ?Hx; reflexivity.
Qed.

Lemma xcount_prepare e l :
  xcount (set_xucd (xucd_prepare e <$> l_xucd l) l) = xcount l.
Proof. unfold xcount. cbn. destruct (l_xucd l); reflexivity. Qed.

(** [check_on_disk] ends the body with the local variables it was given. *)
Lemma check_on_disk_continue p d e l w l1 w' t :
  check_on_disk p d e l w = (Ok (Continue l1), w', t) -> l1 = l.
Proof.
  unfold check_on_disk, bind, sys_access, xbps_file_hash_check_dictionary,
    archive_read_data_skip, goto_out, ret.
  cbn beta iota zeta.
  repeat match goal with
         | |- context [if ?b then _ else _] => destruct b; cbn beta iota zeta
         end; intros [= <- _ _]; reflexivity.
Qed.

(** [handle_conf_file] changes nothing in the count. *)
Lemma handle_conf_file_count n v u d e c x l w r w' t :
  handle_conf_file n v u d e c x l w = (Ok r, w', t) ->
  match r with Go l1 | Continue l1 => xcount l1 = xcount l end.
Proof.
  unfold handle_conf_file, bind, sys_rename, xbps_set_cb_state, get_files,
    archive_read_data_skip, goto_out, ret.
  cbn beta iota zeta.
  repeat match goal with
         | |- context [if ?b then _ else _] => destruct b; cbn beta iota zeta
         | |- context [match ?m !! ?k with _ => _ end] =>
             destruct (m !! k); cbn beta iota zeta
         end; intros [= <- _ _]; auto using xcount_set_is_conf.
Qed.

Lemma silent_check_on_disk p d e l : silent (check_on_disk p d e l).
Proof. unfold silent, check_on_disk. silently. Qed.

Lemma silent_handle_conf_file n v u d e c x l :
  silent (handle_conf_file n v u d e c x l).
Proof. unfold silent, handle_conf_file. silently. Qed.

Lemma counts_unpack_data_entry n v u fl p d e l :
  counts_ok (xcount l) (unpack_data_entry n v u fl p d e l).
Proof.
  unfold unpack_data_entry. intros w r w' t Hrun.
  assert (Hquiet : forall r0 t0,
            cb_counts t0 = [] ->
            (forall l', r0 = Ok l' -> xcount l' = xcount l) ->
            exists n : nat,
              (n <= 1)%nat /\
              cb_counts t0 = match xcount l with
                             | Some k => count_from (k + 1) n
                             | None => []
                             end /\
              forall l', r0 = Ok l' ->
                xcount l' = (fun k => k + Z.of_nat n) <$> xcount l).
  { intros r0 t0 Ht0 Hl0. exists 0%nat. split; [lia |]. rewrite Ht0.
    split; [destruct (xcount l); reflexivity |].
    intros l' Hl'. rewrite (Hl0 l' Hl').
    destruct (xcount l); simpl; [rewrite Z.add_0_r |]; reflexivity. }
  apply bind_inv in Hrun as [(c & w1 & t1 & t2 & H1 & H2 & ->) | (rv & H1 & ->)].
  - assert (F1 : cb_counts t1 = []).
    { apply cb_counts_none. eapply silent_check_on_disk; eauto. }
    rewrite cb_counts_app, F1. cbn [app].
    destruct c as [[cf fe] | l1].
    + apply bind_inv in H2
        as [(c2 & w2 & t3 & t4 & H3 & H4 & ->) | (rv & H3 & ->)].
      * assert (F3 : cb_counts t3 = []).
        { apply cb_counts_none. eapply silent_handle_conf_file; eauto. }
        rewrite cb_counts_app, F3. cbn [app].
        apply handle_conf_file_count in H3. rewrite xcount_set_total in H3.
        destruct c2 as [l2 | l2].
        -- rewrite <- H3. revert H4.
           apply (counts_bind (xcount l2)); [unfold silent; silently |].
           intros rv. apply (counts_bind (xcount l2)).
           { unfold silent. silently. }
           intros _. apply counts_cb.
        -- injection H4 as <- <- <-. apply Hquiet; [reflexivity |].
           intros l' [= <-]. exact H3.
      * apply Hquiet; [| intros l' H; discriminate H].
        apply cb_counts_none. eapply silent_handle_conf_file; eauto.
    + injection H2 as <- <- <-. apply Hquiet; [reflexivity |].
      intros l' [= <-]. apply check_on_disk_continue in H1 as ->.
      apply xcount_set_total.
  - apply Hquiet; [| intros l' H; discriminate H].
    apply cb_counts_none. eapply silent_check_on_disk; eauto.
Qed.

Lemma counts_unpack_entry xhp pkg u e l :
  counts_ok (xcount l) (unpack_entry xhp pkg u e l).
Proof.
  unfold unpack_entry.
  destruct (S_ISDIR (ae_filetype e)).
  { apply counts_bind; [unfold silent; silently | intros _; apply counts_ret]. }
  rewrite <- (xcount_prepare e l).
  set (l1 := set_xucd (xucd_prepare e <$> l_xucd l) l).
  destruct (String.eqb "./INSTALL" (ae_pathname e)).
  { unfold unpack_install_script.
    apply counts_bind; [apply silent_extract_metafile |]. intros rv.
    destruct (negb (rv =? 0)); [apply counts_goto_out |].
    apply counts_bind; [unfold silent; silently |]. intros rv'.
    destruct (negb (rv' =? 0)); [| apply counts_metadata_done].
    apply counts_bind; [unfold silent; silently |]. intros _.
    apply counts_goto_out. }
  destruct (String.eqb "./REMOVE" (ae_pathname e)).
  { unfold unpack_remove_script.
    apply counts_bind; [apply silent_extract_metafile |]. intros rv.
    destruct (negb (rv =? 0));
      [apply counts_goto_out | apply counts_metadata_done]. }
  destruct (String.eqb "./files.plist" (ae_pathname e)).
  { unfold unpack_files_plist.
    apply counts_bind; [unfold silent; silently |]. intros d.
    apply (counts_metadata_done (with_filesd d l1)). }
  destruct (String.eqb "./props.plist" (ae_pathname e)).
  { unfold unpack_props_plist.
    apply counts_bind; [apply silent_extract_metafile |]. intros rv.
    destruct (negb (rv =? 0)); [apply counts_goto_out |].
    apply counts_bind; [unfold silent; silently |]. intros fs.
    destruct (xbps_dictionary_from_metadata_plist _ _ _) as [en | p];
      [apply counts_goto_out |].
    apply (counts_metadata_done (with_propsd p l1)). }
  assert (Hskip : counts_ok (xcount l1) (skip_early_entry pkg e l1)).
  { unfold skip_early_entry.
    apply counts_bind; [unfold silent; silently |]. intros _.
    destruct (3 <=? l_entry_idx l1).
    - apply counts_bind; [unfold silent; silently |]. intros _.
      apply counts_goto_out.
    - apply (counts_ret (next_entry_idx l1)). }
  destruct (l_propsd l1); [destruct (l_filesd l1) |]; auto.
  apply counts_unpack_data_entry.
Qed.

(** The loop calls the progress callback with the counts [k + 1],
    [k + 2], ... *)
Lemma counts_unpack_entries xhp pkg u es :
  forall l w r w' t,
    unpack_entries xhp pkg u es l w = (r, w', t) ->
    exists n : nat,
      cb_counts t = match xcount l with
                    | Some k => count_from (k + 1) n
                    | None => []
                    end /\
      forall l', r = Ok l' -> xcount l' = (fun k => k + Z.of_nat n) <$> xcount l.
Proof.
  induction es as [| e es IH]; intros l w r w' t Hrun.
  - injection Hrun as <- <- <-. exists 0%nat.
    split; [destruct (xcount l); reflexivity |].
    intros l' [= <-]. destruct (xcount l); simpl; [rewrite Z.add_0_r |];
      reflexivity.
  - cbn [unpack_entries] in Hrun.
    apply bind_inv in Hrun as [(a & w1 & t1 & t2 & H1 & H2 & ->) | (rv & H1 & _)];
      [| discriminate H1].
    injection H1 as _ <- <-. cbn [app cb_counts].
    apply bind_inv in H2 as [(l1 & w2 & t3 & t4 & H3 & H4 & ->) | (rv & H3 & ->)].
    + apply counts_unpack_entry in H3 as (n1 & _ & C1 & L1).
      apply IH in H4 as (n2 & C2 & L2).
      specialize (L1 l1 eq_refl). rewrite L1 in C2, L2.
      exists (n1 + n2)%nat. rewrite cb_counts_app, C1, C2.
      destruct (xcount l) as [k |]; cbn [fmap option_fmap option_map] in *.
      * split.
        -- rewrite count_from_app. do 2 f_equal. lia.
        -- intros l' Hl'. rewrite (L2 l' Hl'). f_equal. lia.
      * split; [reflexivity | exact L2].
    + apply counts_unpack_entry in H3 as (n1 & _ & C1 & _).
      exists n1. split; [exact C1 |]. intros l' H. discriminate H.
Qed.

Lemma silent_counts {A : Type} (m : M A) w r w' t :
  silent m -> m w = (r, w', t) -> cb_counts t = [].
Proof. intros Hm Hrun. apply cb_counts_none. eapply Hm; eauto. Qed.

Lemma silent_resolve_rootdir xhp pkg : silent (resolve_rootdir xhp pkg).
Proof. unfold silent, resolve_rootdir. silently. Qed.

Lemma silent_remove_old_scripts u pkgv : silent (remove_old_scripts u pkgv).
Proof. unfold silent, remove_old_scripts, remove_metafile. silently. Qed.

Lemma silent_finish_unpack pkg u ar l : silent (finish_unpack pkg u ar l).
Proof. unfold silent, finish_unpack. silently. Qed.

Lemma counts_unpack_archive xhp pkg ar w rv w' t :
  unpack_archive xhp pkg ar w = (rv, w', t) ->
  exists n : nat,
    cb_counts t = if unpack_cb xhp then count_from 1 n else [].
Proof.
  intros Hrun. unfold unpack_archive, unpack_archive_steps in Hrun.
  assert (Hnone : exists n : nat,
            @nil Z = if unpack_cb xhp then count_from 1 n else []).
  { exists 0%nat. destruct (unpack_cb xhp); reflexivity. }
  assert (H : forall (r : result Z) w' t,
            bind (resolve_rootdir xhp pkg)
              (fun _ => bind (remove_old_scripts
                                (String.eqb (transaction pkg) "update")
                                (pkgver pkg))
                 (fun _ => bind (unpack_entries xhp pkg
                                   (String.eqb (transaction pkg) "update")
                                   (ar_entries ar)
                                   (initial_locals
                                      (if unpack_cb xhp then
                                         Some {| entry := EmptyString;
                                                 entry_size := 0;
                                                 entry_extract_count := 0;
                                                 entry_total_count := 0;
                                                 entry_is_metadata := false;
                                                 entry_is_conf := false |}
                                       else None)))
                    (fun l => finish_unpack pkg
                                (String.eqb (transaction pkg) "update") ar l)))
              w = (r, w', t) ->
            exists n : nat,
              cb_counts t = if unpack_cb xhp then count_from 1 n else []).
  { clear Hrun. intros r w0 t0 Hrun.
    apply bind_inv in Hrun
      as [(a & w1 & t1 & t2 & H1 & H2 & ->) | (x & H1 & _)];
      [| rewrite (silent_counts _ _ _ _ _ (silent_resolve_rootdir _ _) H1);
         exact Hnone].
    rewrite cb_counts_app,
      (silent_counts _ _ _ _ _ (silent_resolve_rootdir _ _) H1).
    cbn [app].
    apply bind_inv in H2
      as [(a2 & w2 & t3 & t4 & H3 & H4 & ->) | (x & H3 & _)];
      [| rewrite (silent_counts _ _ _ _ _ (silent_remove_old_scripts _ _) H3);
         exact Hnone].
    rewrite cb_counts_app,
      (silent_counts _ _ _ _ _ (silent_remove_old_scripts _ _) H3).
    cbn [app].
    apply bind_inv in H4
      as [(l & w3 & t5 & t6 & H5 & H6 & ->) | (x & H5 & _)].
    - rewrite cb_counts_app,
        (silent_counts _ _ _ _ _ (silent_finish_unpack _ _ _ _) H6),
        app_nil_r.
      apply counts_unpack_entries in H5 as (n & C & _). rewrite C.
      destruct (unpack_cb xhp); [exists n | exists 0%nat]; reflexivity.
    - apply counts_unpack_entries in H5 as (n & C & _). rewrite C.
      destruct (unpack_cb xhp); [exists n | exists 0%nat]; reflexivity. }
  apply at_out_inv in Hrun as [Hr | Hr]; eapply H; exact Hr.
Qed.

(** X16.  The progress callback is called with the counts 1, 2, 3, ... in
    this order, without gap or repetition; when the handle has no progress
    callback, it is never called. *)
Theorem progress_counts_are_consecutive xhp pkg w :
  exists n : nat,
    cb_counts (snd (xbps_unpack_binary_pkg xhp pkg w))
    = if unpack_cb xhp then count_from 1 n else [].
Proof.
  destruct (xbps_unpack_binary_pkg xhp pkg w) as [[rv w'] t] eqn:Hrun.
  cbn [snd]. split_run Hrun.
  all: try (apply counts_unpack_archive in Eunpack as [m Hm]; exists m;
            cbn [cb_counts app]; rewrite ?cb_counts_app, Hm;
            cbn [cb_counts]; rewrite ?app_nil_r; reflexivity).
  all: exists 0%nat; destruct (unpack_cb xhp); reflexivity.
Qed.

(** ** The metadata files *)

(** X17.  [extract_metafile], when nothing fails: the entry is written at
    its path under the metadata directory of the package, which is created
    when it is missing, with the permissions 0750 when it is a script; no
    extraction is made at the pathname the archive gives, and the package
    states are left alone. *)
Theorem extract_metafile_writes_under_metadata e file pkgv exec fl w name vers :
  xbps_pkg_name pkgv = Some name ->
  xbps_pkg_version pkgv = Some vers ->
  fault (Sys_access (metadata_dir name)) = 0 ->
  fault (Sys_mkpath (metadata_dir name) 493) = 0 ->
  fault (Ar_extract (metafile_entry name file exec e) fl) = 0 ->
  exists w' t,
    extract_metafile e file pkgv exec fl w = (0, w', t) /\
    w_files w' = <[metadata_path name file := ae_data e]> (w_files w) /\
    w_dirs w' = (if path_exists w (metadata_dir name) then w_dirs w
                 else {[metadata_dir name]} ∪ w_dirs w) /\
    w_pkgstate w' = w_pkgstate w /\
    Forall (fun c => is_extract c = true ->
                     c = Ar_extract (metafile_entry name file exec e) fl) t.
Proof.
  intros Hname Hvers Hacc Hmk Hext.
  unfold extract_metafile. rewrite Hname, Hvers.
  unfold at_out, bind, sys_access, xbps_mkpath, archive_read_extract,
    xbps_set_cb_state, ret.
  cbn beta iota zeta. rewrite Hacc. cbn beta iota zeta delta [negb Z.eqb].
  unfold metafile_entry in *.
  destruct (path_exists w (metadata_dir name)) eqn:Hex;
    cbn beta iota zeta delta [negb Z.eqb ENOENT].
  - destruct exec; cbn beta iota zeta in Hext |- *;
      rewrite Hext; cbn beta iota zeta delta [negb Z.eqb];
      do 2 eexists; (split; [reflexivity |]);
      repeat split; repeat constructor; intros H; try discriminate H;
      reflexivity.
  - rewrite Hmk. cbn beta iota zeta delta [negb Z.eqb].
    destruct exec; cbn beta iota zeta in Hext |- *;
      rewrite Hext; cbn beta iota zeta delta [negb Z.eqb];
      do 2 eexists; (split; [reflexivity |]);
      repeat split; repeat constructor; intros H; try discriminate H;
      reflexivity.
Qed.

(** [remove_metafile] when [unlink] meets no other error than a missing
    file. *)
Lemma remove_metafile_run file pkgv name vers w :
  xbps_pkg_name pkgv = Some name ->
  xbps_pkg_version pkgv = Some vers ->
  fault (Sys_unlink (metadata_path name file)) = 0 ->
  remove_metafile file pkgv w
  = (0, set_files (delete (metadata_path name file) (w_files w)) w,
     [Sys_unlink (metadata_path name file)]).
Proof.
  intros Hname Hvers Hun. unfold remove_metafile. rewrite Hname, Hvers.
  unfold at_out, bind, sys_unlink, xbps_set_cb_state, ret.
  cbn beta iota zeta. rewrite Hun. cbn beta iota zeta delta [negb Z.eqb].
  destruct (w_files w !! metadata_path name file) eqn:Hf;
    cbn beta iota zeta delta [negb Z.eqb ENOENT andb]; [reflexivity |].
  rewrite delete_id by exact Hf. destruct w; reflexivity.
Qed.

(** X18.  While updating, both old scripts are removed from the metadata
    directory, INSTALL first; a script that is not there is no error, and
    no other file is touched. *)
Theorem update_removes_the_old_scripts pkgv name vers w :
  xbps_pkg_name pkgv = Some name ->
  xbps_pkg_version pkgv = Some vers ->
  fault (Sys_unlink (metadata_path name "INSTALL")) = 0 ->
  fault (Sys_unlink (metadata_path name "REMOVE")) = 0 ->
  remove_old_scripts true pkgv w
  = (Ok tt,
     set_files (delete (metadata_path name "REMOVE")
                  (delete (metadata_path name "INSTALL") (w_files w))) w,
     [Sys_unlink (metadata_path name "INSTALL");
      Sys_unlink (metadata_path name "REMOVE")]).
Proof.
  intros Hname Hvers Hi Hr. unfold remove_old_scripts, bind, run.
  rewrite (remove_metafile_run "INSTALL" pkgv name vers w Hname Hvers Hi).
  cbn beta iota zeta delta [negb Z.eqb].
  rewrite (remove_metafile_run "REMOVE" pkgv name vers _ Hname Hvers Hr).
  reflexivity.
Qed.

(** ** The root directory *)

(** X19.  A root directory that is missing is created with the permissions
    0750, and then entered. *)
Theorem missing_rootdir_is_created xhp pkg w :
  path_exists w (rootdir xhp) = false ->
  fault (Sys_access (rootdir xhp)) = 0 ->
  fault (Sys_mkpath (rootdir xhp) 488) = 0 ->
  fault (Sys_chdir (rootdir xhp)) = 0 ->
  resolve_rootdir xhp pkg w
  = (Ok tt, set_dirs ({[rootdir xhp]} ∪ w_dirs w) w,
     [Sys_access (rootdir xhp); Sys_mkpath (rootdir xhp) 488;
      Sys_chdir (rootdir xhp)]).
Proof.
  intros Hex Hacc Hmk Hcd.
  unfold resolve_rootdir, bind, sys_access, xbps_mkpath, sys_chdir,
    xbps_set_cb_state, goto_out, ret.
  cbn beta iota zeta. rewrite Hacc, Hex, Hmk, Hcd.
  repeat (cbn beta iota zeta;
          first [ progress change (negb (0 =? 0)) with false
                | progress change (negb (ENOENT =? 0)) with true
                | progress change (negb (ENOENT =? ENOENT)) with false ]).
  cbn beta iota zeta. cbn [w_dirs set_dirs].
  rewrite bool_decide_eq_true_2 by set_solver. reflexivity.
Qed.

(** X20.  When the root directory cannot be looked up for another reason
    than its absence, [unpack_archive] returns the error at once: nothing
    is created, no entry is read, and [unpack_archive] itself reports
    nothing. *)
Theorem unreadable_rootdir_ends_the_unpacking xhp pkg ar w e :
  fault (Sys_access (rootdir xhp)) = e ->
  e <> 0 -> e <> ENOENT ->
  unpack_archive xhp pkg ar w = (e, w, [Sys_access (rootdir xhp)]).
Proof.
  intros Hacc H0 H2.
  unfold unpack_archive, unpack_archive_steps, at_out, resolve_rootdir.
  unfold bind at 1. unfold bind at 1. unfold bind at 1.
  unfold sys_access. cbn beta iota zeta. rewrite Hacc.
  apply Z.eqb_neq in H0, H2. rewrite H0. cbn beta iota zeta delta [negb].
  rewrite H0, H2. reflexivity.
Qed.

(** ** More on data files *)



(** X22.  When the digest of a regular file on disk cannot be computed, the
    loop is left with -1, not with an error number; the entry is neither
    skipped nor extracted, and [unpack_archive] itself reports nothing. *)
Theorem failed_digest_check_ends_the_unpacking xhp pkg u e l w p d :
  data_file_entry e = true ->
  ae_filetype e = S_IFREG ->
  l_propsd l = Some p -> l_filesd l = Some d ->
  path_exists w (ae_pathname e) = true ->
  fault (Sys_access (ae_pathname e)) = 0 ->
  fault (Hash_check
           (if xbps_entry_is_a_conf_file p (ae_pathname e)
            then "conf_files" else "files") (ae_pathname e)) <> 0 ->
  unpack_entry xhp pkg u e l w
  = (Out (-1), w,
     [Sys_access (ae_pathname e);
      Hash_check
        (if xbps_entry_is_a_conf_file p (ae_pathname e)
         then "conf_files" else "files") (ae_pathname e)]).
Proof.
  intros He Hreg Hp Hd Hex Hacc Hhash.
  rewrite (unpack_entry_data xhp pkg u e l p d He Hp Hd).
  unfold unpack_data_entry, check_on_disk. rewrite Hreg. cbn [S_ISREG].
  unfold bind, sys_access, xbps_file_hash_check_dictionary, goto_out.
  rewrite Hacc, Hex. apply Z.eqb_neq in Hhash. rewrite Hhash. reflexivity.
Qed.

(** [access] on a path that is not there, or that it cannot look up. *)
Lemma sys_access_fails path w :
  fault (Sys_access path) <> 0 \/ path_exists w path = false ->
  exists a, sys_access path w = (Ok a, w, [Sys_access path]) /\ (a =? 0) = false.
Proof.
  unfold sys_access. intros [Hf | Hex].
  - apply Z.eqb_neq in Hf. rewrite Hf. cbn [negb]. eauto.
  - destruct (fault (Sys_access path) =? 0) eqn:E; cbn [negb]; [| eauto].
    rewrite Hex. eauto.
Qed.

(** X23.  A regular file that is not on disk, or whose lookup fails, and
    every entry that is not a regular file, is extracted at its pathname,
    in an installation and in an update alike; no other file changes, and
    nothing is renamed, removed or created besides. *)
Theorem new_file_is_extracted xhp pkg u e l w p d :
  data_file_entry e = true ->
  l_propsd l = Some p -> l_filesd l = Some d ->
  (ae_filetype e = S_IFREG ->
   fault (Sys_access (ae_pathname e)) <> 0 \/
   path_exists w (ae_pathname e) = false) ->
  fault (Ar_extract e set_extract_flags) = 0 ->
  exists l' t,
    unpack_entry xhp pkg u e l w
    = (Ok l', set_files (<[ae_pathname e := ae_data e]> (w_files w)) w, t) /\
    In (Ar_extract e set_extract_flags) t /\
    Forall (fun c => is_sys c = true -> c = Sys_access (ae_pathname e)) t.
Proof.
  intros He Hp Hd Habs Hext.
  rewrite (unpack_entry_data xhp pkg u e l p d He Hp Hd).
  unfold unpack_data_entry, check_on_disk.
  assert (Hrest : forall cf t0,
            Forall (fun c => is_sys c = true -> c = Sys_access (ae_pathname e)) t0 ->
            exists l' t,
              (let (p0, t2) :=
                 bind (handle_conf_file (pkgname pkg) (version pkg) u d e cf
                         false
                         (set_total d
                            (set_xucd (xucd_prepare e <$> l_xucd l) l)))
                   (fun c =>
                      match c with
                      | Go l0 =>
                          bind (archive_read_extract e set_extract_flags)
                            (fun rv =>
                               bind (if negb (rv =? 0)
                                     then xbps_set_cb_state
                                            XBPS_STATE_UNPACK_FAIL rv
                                            (pkgname pkg) (version pkg)
                                            (ae_pathname e)
                                     else ret tt)
                                 (fun _ =>
                                    match l_xucd l0 with
                                    | Some x =>
                                        bind (unpack_cb_count x false)
                                          (fun x => ret (set_xucd (Some x) l0))
                                    | None => ret l0
                                    end))
                      | Continue l0 => ret l0
                      end) w in
               let (r, w2) := p0 in (r, w2, t0 ++ t2))
              = (Ok l', set_files (<[ae_pathname e := ae_data e]> (w_files w)) w, t)
              /\ In (Ar_extract e set_extract_flags) t
              /\ Forall (fun c => is_sys c = true -> c = Sys_access (ae_pathname e)) t).
  { intros cf t0 Ht0. unfold handle_conf_file.
    rewrite !andb_false_r.
    unfold bind, archive_read_extract, xbps_set_cb_state, unpack_cb_count, ret.
    cbn beta iota zeta. rewrite Hext. cbn beta iota zeta delta [negb Z.eqb].
    destruct (l_xucd _); cbn beta iota zeta;
      do 2 eexists; (split; [reflexivity |]);
      (split; [apply in_or_app; right; simpl; auto |]);
      apply List.Forall_app; (split; [exact Ht0 |]);
      repeat constructor; discriminate. }
  destruct (S_ISREG (ae_filetype e)) eqn:Hreg.
  - assert (Hty : ae_filetype e = S_IFREG)
      by (destruct (ae_filetype e); try discriminate Hreg; reflexivity).
    destruct (sys_access_fails (ae_pathname e) w (Habs Hty)) as (a & Ha & Hne).
    unfold bind at 1. unfold bind at 1. rewrite Ha, Hne.
    unfold ret at 1. cbn beta iota zeta.
    apply (Hrest _ [Sys_access (ae_pathname e)]).
    repeat constructor.
  - unfold bind at 1. unfold ret at 1. cbn beta iota zeta.
    apply (Hrest false []). constructor.
Qed.

(** ** After the loop *)

(** X24.  After the loop, for a package with [preserve] set and in an
    installation, the files of the root directory are not compared with the
    previous manifest: the metadata directory is created and the new
    manifest is written there, and that is all. *)
Theorem preserved_package_keeps_obsolete_files pkg u ar l w fs' :
  preserve pkg = true \/ u = false ->
  ar_end ar = 0 ->
  fault (Sys_mkpath (metadata_dir (pkgname pkg)) 493) = 0 ->
  prop_dictionary_externalize_to_zfile (l_filesd l)
    (metadata_path (pkgname pkg) XBPS_PKGFILES) (w_files w) = inr fs' ->
  finish_unpack pkg u ar l w
  = (Ok 0,
     set_files fs'
       (set_dirs ({[metadata_dir (pkgname pkg)]} ∪ w_dirs w)
          (set_ar_errno 0 w)),
     [Ar_next_header; Sys_mkpath (metadata_dir (pkgname pkg)) 493]).
Proof.
  intros Hkeep Hend Hmk Hext.
  assert (Hk : preserve pkg || negb u = true)
    by (destruct Hkeep as [-> | ->]; [reflexivity | apply orb_true_r]).
  unfold finish_unpack. rewrite Hk, Hend.
  unfold bind, archive_read_next_header, archive_errno, xbps_mkpath, get_files,
    put_files, ret.
  cbn beta iota zeta. cbn [w_ar_errno set_ar_errno]. rewrite Hmk.
  repeat (cbn beta iota zeta; progress change (negb (0 =? 0)) with false).
  cbn beta iota zeta. cbn [w_files w_dirs set_dirs set_ar_errno].
  rewrite Hext. reflexivity.
Qed.

(** ** The programs that are run *)

Lemma not_exec_is_pre_action xhp pkg c : is_exec c = false -> is_pre_action xhp pkg c.
Proof. intros H E. congruence. Qed.

Lemma pre_unpack_entry xhp pkg e l :
  respects (fun _ => tt) (is_pre_action xhp pkg)
    (unpack_entry xhp pkg (String.eqb (transaction pkg) "update") e l).
Proof.
  assert (Hphi : forall c, is_exec c = false -> is_unlink c = false ->
                           is_pre_action xhp pkg c)
    by (intros c H _; apply not_exec_is_pre_action, H).
  unfold unpack_entry.
  destruct (S_ISDIR (ae_filetype e));
    [respects_with ltac:(apply not_exec_is_pre_action; reflexivity) |].
  destruct (String.eqb "./INSTALL" (ae_pathname e)).
  { unfold unpack_install_script.
    apply respects_bind;
      [apply respects_run, respects_extract_metafile; auto |].
    intros rv. destruct (negb (rv =? 0)); [apply respects_goto_out |].
    apply respects_bind; [apply respects_file_exec; intros _; reflexivity |].
    intros rv'. destruct (negb (rv' =? 0)).
    - respects_with ltac:(apply not_exec_is_pre_action; reflexivity).
    - apply respects_metadata_done; auto. }
  destruct (String.eqb "./REMOVE" (ae_pathname e));
    [apply respects_unpack_remove_script; auto |].
  destruct (String.eqb "./files.plist" (ae_pathname e));
    [apply respects_unpack_files_plist; auto |].
  destruct (String.eqb "./props.plist" (ae_pathname e));
    [apply respects_unpack_props_plist; auto |].
  cbn.
  destruct (l_propsd l); [destruct (l_filesd l) |];
    first [apply respects_unpack_data_entry | apply respects_skip_early_entry];
    auto.
Qed.

Lemma pre_unpack_entries xhp pkg es :
  forall l,
    respects (fun _ => tt) (is_pre_action xhp pkg)
      (unpack_entries xhp pkg (String.eqb (transaction pkg) "update") es l).
Proof.
  induction es as [| e es IH]; intros l; simpl.
  - apply respects_ret.
  - apply respects_bind;
      [apply respects_next_header;
         [reflexivity | apply not_exec_is_pre_action; reflexivity] |].
    intros _. apply respects_bind; [apply pre_unpack_entry |].
    intros l'. apply IH.
Qed.

Lemma pre_unpack_archive xhp pkg ar :
  respects_fn (fun _ => tt) (is_pre_action xhp pkg) (unpack_archive xhp pkg ar).
Proof.
  assert (Hphi : forall c, is_exec c = false -> is_pre_action xhp pkg c)
    by (intros c H; apply not_exec_is_pre_action, H).
  unfold unpack_archive, unpack_archive_steps. apply respects_at_out.
  apply respects_bind; [apply respects_resolve_rootdir; auto |]. intros _.
  apply respects_bind; [apply respects_remove_old_scripts; auto |]. intros _.
  apply respects_bind; [apply pre_unpack_entries |]. intros l.
  apply respects_finish_unpack; auto.
Qed.

(** X25.  The only program a run executes is the [pre] action of the INSTALL
    script of the package, at its path under the metadata directory, with
    the argument [yes] when the transaction is an update and [no]
    otherwise: the REMOVE script is extracted but never run, and no [post]
    action is run. *)
Theorem only_the_pre_action_is_run xhp pkg w :
  Forall (is_pre_action xhp pkg) (snd (xbps_unpack_binary_pkg xhp pkg w)).
Proof.
  destruct (xbps_unpack_binary_pkg xhp pkg w) as [[rv w'] t] eqn:Hrun.
  cbn [snd]. split_run Hrun.
  all: try (apply pre_unpack_archive in Eunpack as [_ Hin]).
  all: repeat (apply List.Forall_cons;
               [apply not_exec_is_pre_action; reflexivity |]);
    try apply List.Forall_nil.
  all: apply List.Forall_app; split; [exact Hin |];
    repeat (apply List.Forall_cons;
            [apply not_exec_is_pre_action; reflexivity |]);
    apply List.Forall_nil.
Qed.

(** ** The manifest of the files *)

(** X26.  The entry [./files.plist] is read into the manifest of the files
    and not extracted: the loop body leaves the world as it was, counts the
    entry as metadata, and leaves the loop with [errno] when the entry
    cannot be read. *)
Theorem files_manifest_is_read_not_extracted xhp pkg u e l w :
  S_ISDIR (ae_filetype e) = false ->
  ae_pathname e = "./files.plist" ->
  exists r t,
    unpack_entry xhp pkg u e l w = (r, w, t) /\
    Forall (fun c => is_extract c = false) t /\
    match xbps_dictionary_from_archive_entry e with
    | inr d =>
        exists l', r = Ok l' /\ l_filesd l' = Some d /\
                   l_propsd l' = l_propsd l /\
                   l_nmetadata l' = l_nmetadata l + 1 /\
                   l_entry_idx l' = l_entry_idx l
    | inl errno => r = Out errno
    end.
Proof.
  intros Hdir Hname. unfold unpack_entry. rewrite Hdir, Hname.
  cbn [String.eqb Ascii.eqb Bool.eqb].
  unfold unpack_files_plist, bind, internalize_entry, metadata_done.
  cbn [l_xucd with_filesd set_xucd].
  destruct (xbps_dictionary_from_archive_entry e) as [en | d].
  - do 2 eexists. split; [reflexivity |]. split; [repeat constructor |].
    reflexivity.
  - destruct (l_xucd l); cbn; do 2 eexists; (split; [reflexivity |]);
      (split; [repeat constructor |]); eexists; repeat split.
Qed.

End Unpack_facts.

(** ** Runs on explicit inputs *)

(** Installing [foo-1.0] on an empty root directory: the call returns 0, the
    package is [unpacked], its files and its metadata are on disk. *)
Example install_on_empty_root :
  let r := xbps_unpack_binary_pkg (UE := Sample.foo_env Sample.no_fault)
             Sample.xhp (Sample.foo "install") (Sample.root ∅) in
  fst (fst r) = 0 /\
  w_pkgstate (snd (fst r)) !! "foo"
    = Some ("1.0", "foo-1.0", XBPS_PKG_STATE_UNPACKED) /\
  w_files (snd (fst r)) !! "./bin/foo" = Some "binary" /\
  w_files (snd (fst r)) !! "./etc/foo.conf" = Some "new conf" /\
  w_files (snd (fst r)) !! "var/db/xbps/metadata/foo/INSTALL"
    = Some "#!/bin/sh".
Proof. vm_compute. auto 10. Qed.

(** An archive without manifests: the fourth data file ends the unpacking
    with [ENODEV] and the package stays [half-unpacked]. *)
Example not_a_binary_package :
  let r := xbps_unpack_binary_pkg
             (UE := Sample.env Sample.no_fault 0
                      [("/repo/foo-1.0.xbps",
                        {| ar_entries :=
                             [Sample.reg "./a" "1"; Sample.reg "./b" "2";
                              Sample.reg "./c" "3"; Sample.reg "./d" "4";
                              Sample.reg "./e" "5"];
                           ar_end := 0 |})] Sample.foo_docs)
             Sample.xhp (Sample.foo "install") (Sample.root ∅) in
  fst (fst r) = ENODEV /\
  w_pkgstate (snd (fst r)) !! "foo"
    = Some ("1.0", "foo-1.0", XBPS_PKG_STATE_HALF_UNPACKED) /\
  w_files (snd (fst r)) = ∅.
Proof. vm_compute. auto. Qed.

Lemma C3_modified_conf_file_is_kept_as_old_witness :
  conf_file_kept_as_old (UE := Sample.foo_env Sample.no_fault) Sample.xhp
    (Sample.foo "install") (Sample.reg "./etc/foo.conf" "new conf")
    Sample.known (Sample.root {["./etc/foo.conf" := "old conf"]}).
Proof.
  apply (C3_modified_conf_file_is_kept_as_old
           (UE := Sample.foo_env Sample.no_fault) _ _ _ _ _
           Sample.foo_props Sample.foo_files); try reflexivity.
  intros content Hfile Hdig. vm_compute in Hfile, Hdig. congruence.
Defined.

(** C3 as the specification has it fails: a configuration file on disk that
    already has the digest recorded in the manifest is left where it is
    when the package is installed; no [<path>.old] appears. *)
Lemma C3_counterexample :
  ~ conf_file_kept_as_old (UE := Sample.foo_env Sample.no_fault) Sample.xhp
      (Sample.foo "install") (Sample.reg "./etc/foo.conf" "new conf")
      Sample.known (Sample.root {["./etc/foo.conf" := "new conf"]}).
Proof.
  intros H.
  destruct (H "new conf" eq_refl) as (l' & w' & t & Hrun & Hold & _).
  vm_compute in Hrun. injection Hrun as <- <- <-.
  vm_compute in Hold. discriminate Hold.
Qed.

Lemma C8_unchanged_file_is_skipped_witness :
  exists l',
    unpack_entry (UE := Sample.foo_env Sample.no_fault) Sample.xhp
      (Sample.foo "update") true (Sample.reg "./bin/foo" "binary") Sample.known
      (Sample.root {["./bin/foo" := "binary"]})
    = (Ok l', Sample.root {["./bin/foo" := "binary"]},
       [Sys_access "./bin/foo"; Hash_check "files" "./bin/foo";
        Ar_data_skip (Sample.reg "./bin/foo" "binary")]).
Proof.
  apply (C8_unchanged_file_is_skipped
           (UE := Sample.foo_env Sample.no_fault) Sample.xhp
           (Sample.foo "update") (Sample.reg "./bin/foo" "binary")
           Sample.known (Sample.root {["./bin/foo" := "binary"]})
           Sample.foo_props Sample.foo_files "binary"); reflexivity.
Defined.



Lemma C4_failed_pre_action_aborts_witness :
  fst (fst Sample.failed_script_run) = 1 /\
  w_pkgstate (snd (fst Sample.failed_script_run)) !! "foo"
    = Some ("1.0", "foo-1.0", XBPS_PKG_STATE_HALF_UNPACKED).
Proof.
  destruct (C4_failed_pre_action_aborts
              (UE := Sample.foo_env Sample.failing_script)
              Sample.xhp (Sample.foo "install") (Sample.root ∅)
              (fst (fst Sample.failed_script_run))
              (snd (fst Sample.failed_script_run))
              (snd Sample.failed_script_run)
              (take 9 (snd Sample.failed_script_run))
              (File_exec "var/db/xbps/metadata/foo/INSTALL" "pre" "foo" "1.0"
                 "no" "/etc/xbps.conf")
              (drop 10 (snd Sample.failed_script_run)))
    as (Hrv & Hst & _).
  - vm_compute. reflexivity.
  - vm_compute. reflexivity.
  - split; [reflexivity | vm_compute; discriminate].
  - split; [exact Hrv | exact Hst].
Defined.

(** C2 (the code departs from the claim).  [./bin/foo] cannot be written:
    its extraction fails.  The loop goes on all the same: [./bin/bar], the
    next entry of the archive, is extracted after the failure and is on
    disk at the end, while [./bin/foo] is not. *)
Theorem C2_extraction_goes_on_after_a_failure :
  @fault (Sample.foo_env Sample.unwritable_bin_foo)
    (Ar_extract (Sample.reg "./bin/foo" "binary") FEXTRACT_FLAGS) = EACCES /\
  existsb (extracts "./bin/bar")
    (after (extracts "./bin/foo") (snd Sample.unwritable_run)) = true /\
  w_files (snd (fst Sample.unwritable_run)) !! "./bin/foo" = None /\
  w_files (snd (fst Sample.unwritable_run)) !! "./bin/bar" = Some "binary2".
Proof. vm_compute. auto. Qed.

(** C9 as the specification has it fails: in an update the half-unpacked
    state is written before the root directory is looked up and before the
    old scripts are removed. *)
Lemma C9_counterexample :
  ~ root_then_scripts_then_state Sample.xhp true (snd Sample.update_run).
Proof.
  intros [_ H]. specialize (H eq_refl).
  destruct (H [Cb_state XBPS_STATE_UNPACK 0 "foo" "1.0" EmptyString;
               Ar_open "/repo/foo-1.0.xbps"]
              (Set_pkg_state "foo" "1.0" "foo-1.0" XBPS_PKG_STATE_HALF_UNPACKED)
              (drop 3 (snd Sample.update_run)))
    as (c0 & Hin & Hroot).
  - vm_compute. reflexivity.
  - reflexivity.
  - destruct Hin as [<- | [<- | []]]; discriminate Hroot.
Qed.

(** ** Further runs on explicit inputs *)


Lemma failed_unpack_is_never_unpacked_witness :
  w_pkgstate (snd (fst Sample.failed_script_run)) !! "foo"
    = w_pkgstate (Sample.root ∅) !! "foo" \/
  w_pkgstate (snd (fst Sample.failed_script_run)) !! "foo"
    = Some ("1.0", "foo-1.0", XBPS_PKG_STATE_HALF_UNPACKED).
Proof.
  apply (failed_unpack_is_never_unpacked
           (UE := Sample.foo_env Sample.failing_script)
           Sample.xhp (Sample.foo "install") (Sample.root ∅) 1
           (snd (fst Sample.failed_script_run))
           (snd Sample.failed_script_run)).
  - vm_compute. reflexivity.
  - discriminate.
Defined.

Lemma unpack_leaves_other_packages_witness :
  w_pkgstate
    (snd (fst (xbps_unpack_binary_pkg (UE := Sample.foo_env Sample.no_fault)
                 Sample.xhp (Sample.foo "install") Sample.root_with_bar)))
    !! "bar"
  = w_pkgstate Sample.root_with_bar !! "bar".
Proof.
  apply (unpack_leaves_other_packages (UE := Sample.foo_env Sample.no_fault)
           Sample.xhp (Sample.foo "install") Sample.root_with_bar "bar").
  discriminate.
Defined.

Lemma failed_half_unpacked_write_aborts_witness :
  xbps_unpack_binary_pkg (UE := Sample.foo_env Sample.read_only_store)
    Sample.xhp (Sample.foo "install") (Sample.root ∅)
  = (EACCES, set_ar_errno 0 (Sample.root ∅),
     [Cb_state XBPS_STATE_UNPACK 0 "foo" "1.0" EmptyString;
      Ar_open "/repo/foo-1.0.xbps";
      Set_pkg_state "foo" "1.0" "foo-1.0" XBPS_PKG_STATE_HALF_UNPACKED;
      Cb_state XBPS_STATE_UNPACK_FAIL EACCES "foo" "1.0" "half-unpacked"]).
Proof.
  apply (failed_half_unpacked_write_aborts
           (UE := Sample.foo_env Sample.read_only_store) Sample.xhp
           (Sample.foo "install") (Sample.root ∅) "/repo/foo-1.0.xbps"
           Sample.foo_archive EACCES).
  - reflexivity.
  - reflexivity.
  - reflexivity.
  - discriminate.
Defined.

Lemma install_never_unlinks_witness :
  Forall (fun c => is_unlink c = false)
    (snd (xbps_unpack_binary_pkg (UE := Sample.foo_env Sample.no_fault)
            Sample.xhp (Sample.foo "install") (Sample.root ∅))).
Proof.
  apply (install_never_unlinks (UE := Sample.foo_env Sample.no_fault)).
  discriminate.
Defined.

Lemma extract_metafile_writes_under_metadata_witness :
  exists w' t,
    extract_metafile (UE := Sample.foo_env Sample.no_fault)
      (Sample.reg "./INSTALL" "#!/bin/sh") "INSTALL" "foo-1.0" true
      FEXTRACT_FLAGS (Sample.root ∅) = (0, w', t) /\
    w_files w' = {["var/db/xbps/metadata/foo/INSTALL" := "#!/bin/sh"]} /\
    w_dirs w' = {["var/db/xbps/metadata/foo"]} ∪ {["/"]} /\
    ae_perm (metafile_entry (UE := Sample.foo_env Sample.no_fault)
               "foo" "INSTALL" true (Sample.reg "./INSTALL" "#!/bin/sh"))
      = 488.
Proof.
  destruct (extract_metafile_writes_under_metadata
              (UE := Sample.foo_env Sample.no_fault)
              (Sample.reg "./INSTALL" "#!/bin/sh") "INSTALL" "foo-1.0" true
              FEXTRACT_FLAGS (Sample.root ∅) "foo" "1.0")
    as (w' & t & Hrun & Hfiles & Hdirs & _); try reflexivity.
  exists w', t. repeat split; assumption || reflexivity.
Defined.

Lemma update_removes_the_old_scripts_witness :
  remove_old_scripts (UE := Sample.foo_env Sample.no_fault) true "foo-1.0"
    (Sample.root {["var/db/xbps/metadata/foo/INSTALL" := "#!/bin/sh"]})
  = (Ok tt,
     set_files
       (delete "var/db/xbps/metadata/foo/REMOVE"
          (delete "var/db/xbps/metadata/foo/INSTALL"
             {["var/db/xbps/metadata/foo/INSTALL" := "#!/bin/sh"]}))
       (Sample.root {["var/db/xbps/metadata/foo/INSTALL" := "#!/bin/sh"]}),
     [Sys_unlink "var/db/xbps/metadata/foo/INSTALL";
      Sys_unlink "var/db/xbps/metadata/foo/REMOVE"]).
Proof.
  apply (update_removes_the_old_scripts (UE := Sample.foo_env Sample.no_fault)
           "foo-1.0" "foo" "1.0"); reflexivity.
Defined.

Lemma missing_rootdir_is_created_witness :
  resolve_rootdir (UE := Sample.foo_env Sample.no_fault) Sample.xhp
    (Sample.foo "install") Sample.no_root
  = (Ok tt, set_dirs ({["/"]} ∪ ∅) Sample.no_root,
     [Sys_access "/"; Sys_mkpath "/" 488; Sys_chdir "/"]).
Proof.
  apply (missing_rootdir_is_created (UE := Sample.foo_env Sample.no_fault)
           Sample.xhp (Sample.foo "install") Sample.no_root); reflexivity.
Defined.

Lemma unreadable_rootdir_ends_the_unpacking_witness :
  unpack_archive (UE := Sample.foo_env Sample.unreadable_root) Sample.xhp
    (Sample.foo "install") Sample.foo_archive (Sample.root ∅)
  = (EACCES, Sample.root ∅, [Sys_access "/"]).
Proof.
  apply (unreadable_rootdir_ends_the_unpacking
           (UE := Sample.foo_env Sample.unreadable_root)).
  - reflexivity.
  - discriminate.
  - discriminate.
Defined.


Lemma failed_digest_check_ends_the_unpacking_witness :
  unpack_entry (UE := Sample.foo_env Sample.unreadable_digest) Sample.xhp
    (Sample.foo "update") true (Sample.reg "./bin/foo" "binary") Sample.known
    (Sample.root {["./bin/foo" := "binary"]})
  = (Out (-1), Sample.root {["./bin/foo" := "binary"]},
     [Sys_access "./bin/foo"; Hash_check "files" "./bin/foo"]).
Proof.
  apply (failed_digest_check_ends_the_unpacking
           (UE := Sample.foo_env Sample.unreadable_digest) Sample.xhp
           (Sample.foo "update") true (Sample.reg "./bin/foo" "binary")
           Sample.known (Sample.root {["./bin/foo" := "binary"]})
           Sample.foo_props Sample.foo_files); try reflexivity.
  vm_compute. discriminate.
Defined.

Lemma new_file_is_extracted_witness :
  exists l' t,
    unpack_entry (UE := Sample.foo_env Sample.no_fault) Sample.xhp
      (Sample.foo "install") false (Sample.reg "./bin/foo" "binary")
      Sample.known (Sample.root ∅)
    = (Ok l',
       set_files (<["./bin/foo" := "binary"]> ∅) (Sample.root ∅), t) /\
    In (Ar_extract (Sample.reg "./bin/foo" "binary") FEXTRACT_FLAGS) t /\
    Forall (fun c => is_sys c = true -> c = Sys_access "./bin/foo") t.
Proof.
  apply (new_file_is_extracted (UE := Sample.foo_env Sample.no_fault)
           Sample.xhp (Sample.foo "install") false
           (Sample.reg "./bin/foo" "binary") Sample.known (Sample.root ∅)
           Sample.foo_props Sample.foo_files); try reflexivity.
  intros _. right. reflexivity.
Defined.

Lemma preserved_package_keeps_obsolete_files_witness :
  finish_unpack (UE := Sample.foo_env Sample.no_fault) Sample.preserved_foo
    true Sample.foo_archive Sample.known
    (Sample.root {["./bin/old" := "obsolete"]})
  = (Ok 0,
     set_files
       (<["var/db/xbps/metadata/foo/files.plist" :=
            Sample.print_filesd Sample.foo_files]>
          {["./bin/old" := "obsolete"]})
       (set_dirs ({["var/db/xbps/metadata/foo"]} ∪ {["/"]})
          (set_ar_errno 0 (Sample.root {["./bin/old" := "obsolete"]}))),
     [Ar_next_header; Sys_mkpath "var/db/xbps/metadata/foo" 493]).
Proof.
  apply (preserved_package_keeps_obsolete_files
           (UE := Sample.foo_env Sample.no_fault) Sample.preserved_foo true
           Sample.foo_archive Sample.known
           (Sample.root {["./bin/old" := "obsolete"]})).
  - left. reflexivity.
  - reflexivity.
  - reflexivity.
  - reflexivity.
Defined.

Lemma files_manifest_is_read_not_extracted_witness :
  exists r t,
    unpack_entry (UE := Sample.foo_env Sample.no_fault) Sample.xhp
      (Sample.foo "install") false (Sample.reg "./files.plist" "FILES")
      (initial_locals None) (Sample.root ∅) = (r, Sample.root ∅, t) /\
    Forall (fun c => is_extract c = false) t /\
    exists l', r = Ok l' /\ l_filesd l' = Some Sample.foo_files /\
               l_propsd l' = None /\ l_nmetadata l' = 0 + 1 /\
               l_entry_idx l' = 0.
Proof.
  apply (files_manifest_is_read_not_extracted
           (UE := Sample.foo_env Sample.no_fault) Sample.xhp
           (Sample.foo "install") false (Sample.reg "./files.plist" "FILES")
           (initial_locals None) (Sample.root ∅)); reflexivity.
Defined.
